(** * termux-apt-repo: the repository indexing pipeline of [main.go]

    A shallow embedding of the Go program and the properties of its
    specification.  The Go standard-library functions the program calls
    ([strings], [path/filepath], [regexp], [fmt], [os]) are modelled for a
    Unix target; the program's own functions ([addDeb], [copyFile],
    [contains], [hashFile], [fileSize], [compressXz], [main], ...) keep
    their names and are written in an exit/panic/state monad over a model
    of the file system and of the two output streams.

    Conventions of the model:
    - a path names the entry found under its cleaned form; relative paths
      are relative to one fixed working directory, and there are no
      symbolic links;
    - a hard link is a second entry with the same bytes (the program never
      writes to a package after it is linked);
    - the shell that runs [ar] and [tar], the signer [gpg], the digest
      functions, the [xz] encoder and the clock are parameters of the
      program; a shell command answers with its output or fails, and it
      can change the file system either way (the program pastes the path
      of the package into the command line as it is);
    - the encoder is given by the bytes [xz.NewWriter] writes when it is
      created and by the bytes that follow for an input, up to the end
      of the stream;
    - every [os] call that takes a path can fail because the environment
      makes it fail, next to the failures that follow from the state of
      the file system; reading and writing an open regular file succeed;
    - the blocks of [main] that the properties speak of are definitions of
      their own ([componentOf], [registerComponent], [placeDeb],
      [writeReleaseHeader], [packagesEntry], [writePackages],
      [indexComponent], [releaseRows], [signRelease], ...), in the order
      and with the statements of the source. *)

From stdpp Require Import gmap strings list fin_maps.
From Stdlib Require Import Ascii String DecimalString ZArith Lia Sorted.

Local Open Scope string_scope.
Local Open Scope list_scope.

(** ** Go's [strings] package (the functions [main.go] uses) *)

Module GoStrings.

(** The line feed, written ["\n"] in the Go source. *)
Definition LF : string := String (ascii_of_nat 10) EmptyString.

Definition HasPrefix (s p : string) : bool := String.prefix p s.

Fixpoint drop_chars (n : nat) (s : string) : string :=
  match n, s with
  | O, _ => s
  | S _, EmptyString => EmptyString
  | S n', String _ s' => drop_chars n' s'
  end.

(** [strings.TrimPrefix(s, prefix)] *)
Definition TrimPrefix (s p : string) : string :=
  if HasPrefix s p then drop_chars (String.length p) s else s.

(** [strings.Contains(s, substr)] *)
Fixpoint Contains (s sub : string) : bool :=
  HasPrefix s sub ||
  match s with
  | EmptyString => false
  | String _ s' => Contains s' sub
  end.

(** [strings.ContainsAny(s, chars)] for bytes below 128 in [chars]. *)
Fixpoint ContainsAny (s chars : string) : bool :=
  match s with
  | EmptyString => false
  | String c s' =>
      Contains chars (String c EmptyString) || ContainsAny s' chars
  end.

(** [strings.Split(s, sep)] for a separator of one byte, the only kind
    the program passes (["_"], ["-"], ["\n"]). *)
Fixpoint Split (s : string) (sep : ascii) : list string :=
  match s with
  | EmptyString => [EmptyString]
  | String c s' =>
      if Ascii.eqb c sep then EmptyString :: Split s' sep
      else match Split s' sep with
           | [] => [String c EmptyString]
           | h :: t => String c h :: t
           end
  end.

(** [strings.Join(elems, sep)] *)
Definition Join (elems : list string) (sep : string) : string :=
  String.concat sep elems.

Definition upper_char (c : ascii) : ascii :=
  let n := nat_of_ascii c in
  if (97 <=? n)%nat && (n <=? 122)%nat then ascii_of_nat (n - 32) else c.

(** [strings.ToUpper(s)] on ASCII text *)
Fixpoint ToUpper (s : string) : string :=
  match s with
  | EmptyString => EmptyString
  | String c s' => String (upper_char c) (ToUpper s')
  end.

(** The last byte of a string, [s[len(s)-1]]. *)
Fixpoint last_char (s : string) : option ascii :=
  match s with
  | EmptyString => None
  | String c EmptyString => Some c
  | String _ s' => last_char s'
  end.

Fixpoint insert_sorted (x : string) (l : list string) : list string :=
  match l with
  | [] => [x]
  | y :: l' => if String.leb x y then x :: l else y :: insert_sorted x l'
  end.

(** [sort.Strings]: ascending byte-wise order. *)
Definition sort_Strings (l : list string) : list string :=
  fold_right insert_sorted [] l.

End GoStrings.

(** ** Go's [unicode/utf8] package *)

Module Utf8.
Import GoStrings.

(** [utf8.RuneError], U+FFFD. *)
Definition RuneError : N := 65533.

Definition between (lo hi b : N) : bool := (lo <=? b)%N && (b <=? hi)%N.

(** The table [first] with [acceptRanges]: for a leading byte of a
    sequence of several bytes, the length of the sequence and the bounds
    of its second byte; nothing for a byte that cannot lead. *)
Definition leading (b : N) : option (nat * N * N) :=
  if between 194 223 b then Some (2%nat, 128, 191)%N
  else if (b =? 224)%N then Some (3%nat, 160, 191)%N
  else if between 225 236 b then Some (3%nat, 128, 191)%N
  else if (b =? 237)%N then Some (3%nat, 128, 159)%N
  else if between 238 239 b then Some (3%nat, 128, 191)%N
  else if (b =? 240)%N then Some (4%nat, 144, 191)%N
  else if between 241 243 b then Some (4%nat, 128, 191)%N
  else if (b =? 244)%N then Some (4%nat, 128, 143)%N
  else None.

(** The six low bits of a continuation byte. *)
Definition low6 (b : N) : N := N.land b 63.

(** [utf8.DecodeRuneInString]: the first rune of the string and its
    width in bytes; the empty string gives [(RuneError, 0)] and an
    encoding that is not valid gives [(RuneError, 1)]. *)
Definition DecodeRuneInString (s : string) : N * nat :=
  match s with
  | EmptyString => (RuneError, 0%nat)
  | String c0 s1 =>
      let b0 := N_of_ascii c0 in
      if (b0 <? 128)%N then (b0, 1%nat)
      else
        match leading b0, s1 with
        | Some (size, lo, hi), String c1 s2 =>
            let b1 := N_of_ascii c1 in
            if negb (between lo hi b1) then (RuneError, 1%nat)
            else if (size <=? 2)%nat then
              (N.lor (N.shiftl (N.land b0 31) 6) (low6 b1), 2%nat)
            else
              match s2 with
              | String c2 s3 =>
                  let b2 := N_of_ascii c2 in
                  if negb (between 128 191 b2) then (RuneError, 1%nat)
                  else if (size <=? 3)%nat then
                    (N.lor (N.shiftl (N.land b0 15) 12)
                       (N.lor (N.shiftl (low6 b1) 6) (low6 b2)), 3%nat)
                  else
                    match s3 with
                    | String c3 _ =>
                        let b3 := N_of_ascii c3 in
                        if negb (between 128 191 b3) then (RuneError, 1%nat)
                        else
                          (N.lor (N.shiftl (N.land b0 7) 18)
                             (N.lor (N.shiftl (low6 b1) 12)
                                (N.lor (N.shiftl (low6 b2) 6) (low6 b3))),
                           4%nat)
                    | EmptyString => (RuneError, 1%nat)
                    end
              | EmptyString => (RuneError, 1%nat)
              end
        | _, _ => (RuneError, 1%nat)
        end
  end.

(** The runes of a string counted from its first byte, the first
    [skip] bytes belonging to a rune counted before. *)
Fixpoint count_runes (skip : nat) (s : string) : nat :=
  match s with
  | EmptyString => 0
  | String _ rest =>
      match skip with
      | S k => count_runes k rest
      | O => S (count_runes ((DecodeRuneInString s).2 - 1) rest)
      end
  end.

(** [utf8.RuneCountInString]: a byte that is not part of a valid
    encoding counts as one rune. *)
Definition RuneCountInString (s : string) : nat := count_runes 0 s.

End Utf8.

(** ** Go's [path/filepath] package on Unix *)

Module Filepath.
Import GoStrings Utf8.

Definition Separator : ascii := "/"%char.

Definition rooted (path : string) : bool :=
  match path with
  | String c _ => Ascii.eqb c Separator
  | EmptyString => false
  end.

(** One element of the path read by [Clean]; [stack] holds the elements
    written so far, the last one first.  An empty element and ["."] are
    skipped; [".."] removes the last element written, is dropped at the
    root of a rooted path and is kept at the head of a relative one. *)
Definition clean_elem (isRooted : bool) (stack : list string) (e : string)
  : list string :=
  if String.eqb e "" || String.eqb e "." then stack
  else if String.eqb e ".." then
    match stack with
    | [] => if isRooted then [] else [".."]
    | top :: below =>
        if String.eqb top ".." then ".." :: stack else below
    end
  else e :: stack.

(** [filepath.Clean(path)] *)
Definition Clean (path : string) : string :=
  let isRooted := rooted path in
  let stack := fold_left (clean_elem isRooted) (Split path Separator) [] in
  let body := String.concat "/" (rev stack) in
  if isRooted then "/" +:+ body
  else if String.eqb body "" then "." else body.

(** What [Clean] has written after it has read a path: the elements,
    the last one first. *)
Definition clean_stack (path : string) : list string :=
  fold_left (clean_elem (rooted path)) (Split path Separator) [].

(** The path [Clean] makes of the elements written. *)
Definition clean_render (isRooted : bool) (stack : list string) : string :=
  let body := String.concat "/" (rev stack) in
  if isRooted then "/" +:+ body
  else if String.eqb body "" then "." else body.

(** [filepath.Join(elem...)]: leading empty elements are dropped, the
    rest is joined with the separator and cleaned. *)
Fixpoint Join (elem : list string) : string :=
  match elem with
  | [] => ""
  | e :: rest =>
      if String.eqb e "" then Join rest
      else Clean (String.concat "/" elem)
  end.

(** The part of [path] up to and including its last separator. *)
Definition dir_part (path : string) : string :=
  match Split path Separator with
  | [] | [_] => ""
  | parts => String.concat "/" (removelast parts) +:+ "/"
  end.

(** [filepath.Dir(path)] *)
Definition Dir (path : string) : string := Clean (dir_part path).

(** [filepath.Base(path)] *)
Definition Base (path : string) : string :=
  if String.eqb path "" then "."
  else
    match rev (filter (fun e => e ≠ "") (Split path Separator)) with
    | [] => "/"
    | e :: _ => e
    end.

(** [filepath.Split]: the path up to and including its last separator,
    and the file name after it. *)
Definition split_path (path : string) : string * string :=
  (dir_part path, drop_chars (String.length (dir_part path)) path).

(** *** [filepath.Match]

    The pattern is read in chunks: a chunk is a run of literal bytes,
    question marks, escaped bytes and bracketed classes, and chunks are
    parted by stars.  A pattern that is not well formed gives
    [ErrBadPattern], here the answer [None]. *)

Definition BACKSLASH : ascii := ascii_of_nat 92.

Fixpoint skip_stars (pattern : string) : bool * string :=
  match pattern with
  | EmptyString => (false, pattern)
  | String c p' =>
      if Ascii.eqb c "*" then (true, (skip_stars p').2) else (false, pattern)
  end.

Definition cons_chunk (c : ascii) (r : string * string) : string * string :=
  (String c r.1, r.2).

(** The chunk at the head of a pattern without leading star, and what
    follows it: the chunk ends before the first star outside brackets;
    a backslash takes the byte after it along. *)
Fixpoint scan (inrange : bool) (pattern : string) : string * string :=
  match pattern with
  | EmptyString => (EmptyString, EmptyString)
  | String c p' =>
      if Ascii.eqb c BACKSLASH then
        match p' with
        | EmptyString => (pattern, EmptyString)
        | String d p'' => cons_chunk c (cons_chunk d (scan inrange p''))
        end
      else if Ascii.eqb c "[" then cons_chunk c (scan true p')
      else if Ascii.eqb c "]" then cons_chunk c (scan false p')
      else if Ascii.eqb c "*" && negb inrange then (EmptyString, pattern)
      else cons_chunk c (scan inrange p')
  end.

(** [scanChunk]: whether the segment starts with a star, its chunk, and
    the rest of the pattern. *)
Definition scanChunk (pattern : string) : bool * string * string :=
  let stars := skip_stars pattern in
  let parts := scan false stars.2 in
  (stars.1, parts.1, parts.2).

(** [getEsc]: one character of a class, escaped or not, and the chunk
    after it, which must not be empty. *)
Definition getEsc (chunk : string) : option (N * string) :=
  match chunk with
  | EmptyString => None
  | String c rest =>
      if Ascii.eqb c "-" || Ascii.eqb c "]" then None
      else
        let chunk := if Ascii.eqb c BACKSLASH then rest else chunk in
        if String.eqb chunk "" then None
        else
          let d := DecodeRuneInString chunk in
          let nchunk := drop_chars d.2 chunk in
          if (d.1 =? RuneError)%N && (d.2 =? 1)%nat then None
          else if String.eqb nchunk "" then None
          else Some (d.1, nchunk)
  end.

Definition starts_with (c : ascii) (s : string) : bool :=
  match s with
  | EmptyString => false
  | String d _ => Ascii.eqb c d
  end.

(** The ranges of a class up to its closing bracket, for the rune [r]
    of the name: whether one of them holds [r], and the chunk after the
    bracket.  Every range takes at least one byte of the chunk, so
    [fuel] above the length of the chunk is never used up (Lemma
    [ranges_fuel]). *)
Fixpoint ranges (fuel : nat) (r : N) (found : bool) (nrange : nat)
    (chunk : string) : option (bool * string) :=
  match fuel with
  | O => None
  | S fuel' =>
      if starts_with "]" chunk && (0 <? nrange)%nat
      then Some (found, drop_chars 1 chunk)
      else
        match getEsc chunk with
        | None => None
        | Some (lo, chunk) =>
            match (if starts_with "-" chunk then getEsc (drop_chars 1 chunk)
                   else Some (lo, chunk)) with
            | None => None
            | Some (hi, chunk) =>
                ranges fuel' r (found || (lo <=? r)%N && (r <=? hi)%N)
                  (S nrange) chunk
            end
        end
  end.

(** What [matchChunk] answers: the pattern is bad, the chunk does not
    match the start of the name, or it does and leaves [rest]. *)
Inductive chunk_result : Type :=
| ChunkBad
| ChunkFailed
| ChunkOk (rest : string).

(** The loop of [matchChunk].  After the match has failed the loop goes
    on through the chunk to see that it is well formed, and reads the
    name no more.  Every turn takes at least one byte of the chunk, so
    the length of the chunk is fuel enough (Lemma [matchChunk_total]). *)
Fixpoint matchChunk_loop (fuel : nat) (failed : bool) (chunk s : string)
  : chunk_result :=
  match chunk, fuel with
  | EmptyString, _ => if failed then ChunkFailed else ChunkOk s
  | String _ _, O => ChunkBad
  | String c chunk', S fuel' =>
      let failed := failed || String.eqb s "" in
      if Ascii.eqb c "[" then
        let d := DecodeRuneInString s in
        let r := if failed then 0%N else d.1 in
        let s := if failed then s else drop_chars d.2 s in
        let negated := starts_with "^" chunk' in
        let chunk := if negated then drop_chars 1 chunk' else chunk' in
        match ranges (S (String.length chunk)) r false 0 chunk with
        | None => ChunkBad
        | Some (found, chunk) =>
            matchChunk_loop fuel' (failed || Bool.eqb found negated) chunk s
        end
      else if Ascii.eqb c "?" then
        if failed then matchChunk_loop fuel' true chunk' s
        else
          matchChunk_loop fuel' (starts_with Separator s) chunk'
            (drop_chars (DecodeRuneInString s).2 s)
      else
        match (if Ascii.eqb c BACKSLASH then chunk' else chunk) with
        | EmptyString => ChunkBad
        | String l chunk =>
            if failed then matchChunk_loop fuel' true chunk s
            else
              matchChunk_loop fuel' (negb (starts_with l s)) chunk
                (drop_chars 1 s)
        end
  end.

(** [matchChunk] *)
Definition matchChunk (chunk s : string) : chunk_result :=
  matchChunk_loop (String.length chunk) false chunk s.

(** The search of [Match] after a star: the chunk is tried after every
    byte of the name that is not a separator; on the last chunk a match
    that leaves part of the name is passed over. *)
Fixpoint skip_search (chunk : string) (last : bool) (name : string)
  : chunk_result :=
  match name with
  | EmptyString => ChunkFailed
  | String c name' =>
      if Ascii.eqb c Separator then ChunkFailed
      else
        match matchChunk chunk name' with
        | ChunkOk t =>
            if last && negb (String.eqb t "")
            then skip_search chunk last name'
            else ChunkOk t
        | ChunkBad => ChunkBad
        | ChunkFailed => skip_search chunk last name'
        end
  end.

(** The check of the rest of a pattern once the match has failed:
    whether a chunk of it is bad. *)
Fixpoint rest_is_bad (fuel : nat) (pattern : string) : bool :=
  match pattern, fuel with
  | EmptyString, _ => false
  | String _ _, O => true
  | String _ _, S fuel' =>
      let sc := scanChunk pattern in
      match matchChunk sc.1.2 "" with
      | ChunkBad => true
      | _ => rest_is_bad fuel' sc.2
      end
  end.

(** The loop of [Match]; every segment takes at least one byte of the
    pattern, so the length of the pattern is fuel enough (Lemma
    [Match_total]). *)
Fixpoint Match_loop (fuel : nat) (pattern name : string) : option bool :=
  match pattern, fuel with
  | EmptyString, _ => Some (String.eqb name "")
  | String _ _, O => None
  | String _ _, S fuel' =>
      let sc := scanChunk pattern in
      let star := sc.1.1 in
      let chunk := sc.1.2 in
      let pattern := sc.2 in
      if star && String.eqb chunk "" then
        Some (negb (Contains name (String Separator EmptyString)))
      else
        let searched (r : chunk_result) : option bool :=
          match r with
          | ChunkBad => None
          | ChunkOk t => Match_loop fuel' pattern t
          | ChunkFailed =>
              if rest_is_bad (String.length pattern) pattern then None
              else Some false
          end in
        match matchChunk chunk name with
        | ChunkBad => None
        | ChunkOk t =>
            if String.eqb t "" || negb (String.eqb pattern "")
            then Match_loop fuel' pattern t
            else searched (if star
                           then skip_search chunk (String.eqb pattern "") name
                           else ChunkFailed)
        | ChunkFailed =>
            searched (if star
                      then skip_search chunk (String.eqb pattern "") name
                      else ChunkFailed)
        end
  end.

(** [filepath.Match(pattern, name)]: [Some matched], or [None] for
    [ErrBadPattern]. *)
Definition Match (pattern name : string) : option bool :=
  Match_loop (String.length pattern) pattern name.

(** [hasMeta] *)
Definition hasMeta (path : string) : bool :=
  ContainsAny path (String "*" (String "?" (String "[" (String BACKSLASH "")))).

(** [cleanGlobPath] *)
Definition cleanGlobPath (path : string) : string :=
  if String.eqb path "" then "."
  else if String.eqb path "/" then path
  else String.substring 0 (String.length path - 1) path.

End Filepath.

(** ** Go's [regexp] and [fmt], as far as the program uses them *)

Module GoFmt.
Import GoStrings Utf8.

(** The text up to the first line feed: what the group of the pattern
    matches, since a dot does not match a line feed. *)
Fixpoint line_of (s : string) : string :=
  match s with
  | EmptyString => EmptyString
  | String c s' =>
      if Ascii.eqb c (ascii_of_nat 10) then EmptyString
      else String c (line_of s')
  end.

(** [FindStringSubmatch] of the compiled pattern made of a literal
    [label] and one greedy group of any bytes (the patterns of [addDeb]):
    the leftmost occurrence of the label, then the rest of its line.  The result is the whole match followed by the group,
    or the empty slice when the label does not occur. *)
Fixpoint FindStringSubmatch (label text : string) : list string :=
  if HasPrefix text label then
    let v := line_of (drop_chars (String.length label) text) in
    [label +:+ v; v]
  else
    match text with
    | EmptyString => []
    | String _ text' => FindStringSubmatch label text'
    end.

Fixpoint spaces (n : nat) : string :=
  match n with
  | O => EmptyString
  | S n' => String " "%char (spaces n')
  end.

(** The verb [%-80s]: the text, then blanks up to a width of 80
    runes. *)
Definition pad80 (s : string) : string :=
  s +:+ spaces (80 - RuneCountInString s).

(** [fmt.Sprint] and the verb [%d] of a file size. *)
Definition Sprint_size (n : N) : string :=
  NilZero.string_of_uint (N.to_uint n).

Definition hex_digit (n : N) : ascii :=
  ascii_of_N (if (n <? 10)%N then 48 + n else 87 + n)%N.

Definition hex_byte (c : ascii) : string :=
  let n := N_of_ascii c in
  String (hex_digit (n / 16)%N) (String (hex_digit (n mod 16)%N) EmptyString).

(** The verb [%x] of a byte slice: two lower-case digits per byte. *)
Fixpoint Sprintf_x (bytes : string) : string :=
  match bytes with
  | EmptyString => EmptyString
  | String c s' => hex_byte c +:+ Sprintf_x s'
  end.

End GoFmt.

(** ** The file system behind Go's [os] package

    A file system maps a cleaned path to a directory or to a regular file
    with its bytes; ["."] and ["/"] are directories of every file system.
    Every call can also fail because the environment makes it fail
    (a disk fault, a permission change, a file removed by another
    process): [fault c path] says that call [c] on [path] does. *)

Module OS.
Import GoStrings Filepath.

Inductive node : Type :=
| NDir
| NFile (data : string).

Inductive syscall : Type :=
| SysStat | SysLstat | SysMkdirAll | SysLink | SysOpen | SysCreate
| SysOpenFile | SysSync | SysRemoveAll | SysReadDir.

Inductive stat_result : Type :=
| StatOk (n : node)
| StatNotExist
| StatErr.

Abbreviation filesystem := (gmap string node).

Definition key (path : string) : string := Clean path.

Definition is_top (k : string) : bool := String.eqb k "." || String.eqb k "/".

Definition lookup_path (fs : filesystem) (path : string) : option node :=
  let k := key path in
  if is_top k then Some NDir else fs !! k.

Definition is_dir (fs : filesystem) (path : string) : bool :=
  match lookup_path fs path with
  | Some NDir => true
  | _ => false
  end.

Definition is_file (fs : filesystem) (path : string) : bool :=
  match lookup_path fs path with
  | Some (NFile _) => true
  | _ => false
  end.

Fixpoint ancestors_from (fuel : nat) (p : string) : list string :=
  match fuel with
  | O => []
  | S n =>
      let d := Filepath.Dir p in
      if String.eqb d p then [] else d :: ancestors_from n d
  end.

(** The directories above a path, the nearest first. *)
Definition ancestors (path : string) : list string :=
  let k := key path in ancestors_from (String.length k) k.

Definition under (dir k : string) : bool :=
  String.eqb k (key dir) || existsb (String.eqb (key dir)) (ancestors k).

Definition size_of (n : node) : N :=
  match n with
  | NDir => 4096
  | NFile data => N.of_nat (String.length data)
  end.

(** [FileInfo.IsDir] *)
Definition IsDir (n : node) : bool :=
  match n with
  | NDir => true
  | NFile _ => false
  end.

(** The bytes read from an open file; reading a directory fails. *)
Definition read_all (n : node) : option string :=
  match n with
  | NDir => None
  | NFile data => Some data
  end.

(** [endsWithDot] of [os.RemoveAll]: the path is a dot or ends in a
    separator and a dot. *)
Fixpoint ends_slash_dot (path : string) : bool :=
  match path with
  | EmptyString => false
  | String c p' =>
      Ascii.eqb c Separator && String.eqb p' "." || ends_slash_dot p'
  end.

Definition endsWithDot (path : string) : bool :=
  String.eqb path "." || ends_slash_dot path.

(** Sorted names of the entries of a directory. *)
Definition names (fs : filesystem) (dir : string) : list string :=
  sort_Strings
    (map (fun kv => Base kv.1)
       (filter (fun kv : string * node =>
                  Filepath.Dir kv.1 = key dir ∧ kv.1 ≠ key dir)
          (map_to_list fs))).

Section Calls.
Variable fault : syscall → string → bool.

(** What [os.Stat] and [os.Lstat] find at a path. *)
Definition stat_path (fs : filesystem) (path : string) : stat_result :=
  match lookup_path fs path with
  | Some n => StatOk n
  | None =>
      if existsb (is_file fs) (ancestors path) then StatErr
      else StatNotExist
  end.

(** [os.Stat] *)
Definition Stat (fs : filesystem) (path : string) : stat_result :=
  if fault SysStat path then StatErr else stat_path fs path.

(** [os.Lstat] *)
Definition Lstat (fs : filesystem) (path : string) : stat_result :=
  if fault SysLstat path then StatErr else stat_path fs path.

Fixpoint mkdirs (fs : filesystem) (dirs : list string) : filesystem * bool :=
  match dirs with
  | [] => (fs, true)
  | d :: rest =>
      match lookup_path fs d with
      | Some NDir => mkdirs fs rest
      | Some (NFile _) => (fs, false)
      | None => mkdirs (<[key d := NDir]> fs) rest
      end
  end.

(** [os.MkdirAll]: creates the missing directories from the top down;
    the ones created before a failure stay. *)
Definition MkdirAll (fs : filesystem) (path : string) : filesystem * bool :=
  if fault SysMkdirAll path then (fs, false)
  else mkdirs fs (rev (ancestors path) ++ [key path]).

(** [os.Link]: the new name must not exist, in an existing directory;
    the old name must be a regular file. *)
Definition Link (fs : filesystem) (oldname newname : string)
  : filesystem * bool :=
  if fault SysLink newname then (fs, false)
  else match lookup_path fs oldname, lookup_path fs newname with
       | Some (NFile data), None =>
           if is_dir fs (Filepath.Dir (key newname))
           then (<[key newname := NFile data]> fs, true)
           else (fs, false)
       | _, _ => (fs, false)
       end.

(** [os.Open] *)
Definition Open (fs : filesystem) (path : string) : option node :=
  if fault SysOpen path then None else lookup_path fs path.

Definition writable_target (fs : filesystem) (path : string) : bool :=
  is_dir fs (Filepath.Dir (key path)) && negb (is_dir fs path).

(** [os.Create]: creates or truncates a regular file. *)
Definition Create (fs : filesystem) (path : string) : filesystem * bool :=
  if fault SysCreate path then (fs, false)
  else if writable_target fs path
       then (<[key path := NFile ""]> fs, true)
       else (fs, false).

(** [os.OpenFile(path, O_APPEND|O_CREATE|O_WRONLY, 0644)] *)
Definition OpenFile_append (fs : filesystem) (path : string)
  : filesystem * bool :=
  if fault SysOpenFile path then (fs, false)
  else if writable_target fs path
       then match fs !! key path with
            | Some _ => (fs, true)
            | None => (<[key path := NFile ""]> fs, true)
            end
       else (fs, false).

(** A write at the end of an open regular file. *)
Definition append_file (fs : filesystem) (path data : string) : filesystem :=
  match fs !! key path with
  | Some (NFile old) => <[key path := NFile (old +:+ data)]> fs
  | _ => fs
  end.

(** [os.RemoveAll]: removes the path and everything under it; a path
    that ends in a dot is refused. *)
Definition RemoveAll (fs : filesystem) (path : string) : filesystem * bool :=
  if fault SysRemoveAll path then (fs, false)
  else if endsWithDot path then (fs, false)
  else (filter (fun kv : string * node => under path kv.1 = false) fs, true).

(** [ioutil.ReadDir]: the entries of a directory, sorted by name. *)
Definition ReadDir (fs : filesystem) (root : string)
  : option (list (string * node)) :=
  if fault SysReadDir root then None
  else if is_dir fs root then
    Some (omap (fun n => match lookup_path fs (Join [root; n]) with
                         | Some x => Some (n, x)
                         | None => None
                         end) (names fs root))
  else None.

(** The loop of [glob] over the sorted names of a directory: a name
    that matches is appended under the directory; a bad pattern ends the
    loop with the matches so far. *)
Fixpoint glob_names (dir pattern : string) (entries matches : list string)
  : list string * bool :=
  match entries with
  | [] => (matches, false)
  | n :: rest =>
      match Match pattern n with
      | None => (matches, true)
      | Some matched =>
          glob_names dir pattern rest
            (if matched then matches ++ [Join [dir; n]] else matches)
      end
  end.

(** [glob] of [path/filepath]: the entries of [dir] that match; a
    directory that cannot be read gives the matches it was given. *)
Definition glob_dir (fs : filesystem) (dir pattern : string)
    (matches : list string) : list string * bool :=
  match Stat fs dir with
  | StatOk NDir =>
      if fault SysOpen dir || fault SysReadDir dir then (matches, false)
      else glob_names dir pattern (names fs dir) matches
  | _ => (matches, false)
  end.

(** The loop of [globWithLimit] over the directories found. *)
Fixpoint glob_dirs (fs : filesystem) (dirs : list string) (file : string)
    (matches : list string) : list string * bool :=
  match dirs with
  | [] => (matches, false)
  | d :: rest =>
      let r := glob_dir fs d file matches in
      if r.2 then r else glob_dirs fs rest file r.1
  end.

(** [globWithLimit]: the matches, and whether the error is
    [ErrBadPattern]; [fuel] is what is left of [pathSeparatorsLimit]
    at this depth. *)
Fixpoint globWithLimit (fuel : nat) (fs : filesystem) (pattern : string)
  : list string * bool :=
  match fuel with
  | O => ([], true)
  | S fuel' =>
      match Match pattern "" with
      | None => ([], true)
      | Some _ =>
          if negb (hasMeta pattern) then
            match Lstat fs pattern with
            | StatOk _ => ([pattern], false)
            | _ => ([], false)
            end
          else
            let dir := cleanGlobPath (split_path pattern).1 in
            let file := (split_path pattern).2 in
            if negb (hasMeta dir) then glob_dir fs dir file []
            else if String.eqb dir pattern then ([], true)
            else
              let m := globWithLimit fuel' fs dir in
              if m.2 then ([], true) else glob_dirs fs m.1 file []
      end
  end.

Definition pathSeparatorsLimit : nat := N.to_nat 10000.

(** [filepath.Glob]: the paths that match the pattern, each directory's
    matches in sorted order, and whether the pattern is bad. *)
Definition Glob (fs : filesystem) (pattern : string) : list string * bool :=
  globWithLimit pathSeparatorsLimit fs pattern.

End Calls.

End OS.

(** ** The program *)

Module Repo.
Import GoStrings GoFmt OS.

(** The command-line flags, set once by [flag.Parse]. *)
Record flags : Type := Flags {
  inputPath : string;
  outputPath : string;
  distribution : string;
  defaultComponent : string;
  useHardLinks : bool;
  signRepo : bool
}.

(** What a run reads and changes: the file system, the two output
    streams, and the package-level variables [COMPONENTS] and
    [encounteredArches]. *)
Record state : Type := State {
  fs : gmap string node;
  stdout : list string;
  stderr : list string;
  COMPONENTS : list string;
  encounteredArches : gset string
}.

Definition set_fs (f : gmap string node) (s : state) : state :=
  State f (stdout s) (stderr s) (COMPONENTS s) (encounteredArches s).
Definition add_stdout (t : string) (s : state) : state :=
  State (fs s) (stdout s ++ [t]) (stderr s) (COMPONENTS s) (encounteredArches s).
Definition add_stderr (t : string) (s : state) : state :=
  State (fs s) (stdout s) (stderr s ++ [t]) (COMPONENTS s) (encounteredArches s).
Definition set_COMPONENTS (c : list string) (s : state) : state :=
  State (fs s) (stdout s) (stderr s) c (encounteredArches s).
Definition set_encounteredArches (a : gset string) (s : state) : state :=
  State (fs s) (stdout s) (stderr s) (COMPONENTS s) a.

(** A computation returns, leaves through [os.Exit], or panics (a Go
    run-time error, which ends the process with status 2 and a stack
    trace). *)
Inductive result (A : Type) : Type :=
| Ret (a : A)
| Exit (code : Z)
| Panic.
Arguments Ret {A} a.
Arguments Exit {A} code.
Arguments Panic {A}.

Definition M (A : Type) : Type := state → result A * state.

Definition ret {A} (a : A) : M A := fun s => (Ret a, s).

Definition bind {A B} (m : M A) (k : A → M B) : M B :=
  fun s =>
    match m s with
    | (Ret a, s') => k a s'
    | (Exit c, s') => (Exit c, s')
    | (Panic, s') => (Panic, s')
    end.

Definition os_Exit {A} (code : Z) : M A := fun s => (Exit code, s).
Definition panic {A} : M A := fun s => (Panic, s).

Declare Scope go_scope.
Delimit Scope go_scope with go.
Notation "'let*' x ':=' m 'in' k" := (bind m (fun x => k))
  (at level 10, x name, m at level 100, k at level 200) : go_scope.
Notation "m '>>' k" := (bind m (fun _ => k))
  (at level 100, k at level 200, right associativity) : go_scope.
Local Open Scope go_scope.

(** [for _, x := range l { body }] *)
Fixpoint forRange {A} (l : list A) (body : A → M unit) : M unit :=
  match l with
  | [] => ret tt
  | x :: rest => body x >> forRange rest body
  end.

(** [l[i]]: an index out of range panics. *)
Definition index {A} (l : list A) (i : nat) : M A :=
  match l !! i with
  | Some x => ret x
  | None => panic
  end.

Definition get_COMPONENTS : M (list string) :=
  fun s => (Ret (COMPONENTS s), s).
Definition put_COMPONENTS (c : list string) : M unit :=
  fun s => (Ret tt, set_COMPONENTS c s).
Definition get_encounteredArches : M (gset string) :=
  fun s => (Ret (encounteredArches s), s).
Definition put_encounteredArches (a : gset string) : M unit :=
  fun s => (Ret tt, set_encounteredArches a s).

(** [fmt.Println] of the operands already joined by blanks. *)
Definition Println (t : string) : M unit :=
  fun s => (Ret tt, add_stdout (t +:+ LF) s).

(** [fmt.Fprintf(os.Stderr, ...)] of the formatted text. *)
Definition Fprintf_stderr (t : string) : M unit :=
  fun s => (Ret tt, add_stderr t s).

(** A formatted write to an open file; the program never looks at the
    error of a write. *)
Definition Fprint_file (path t : string) : M unit :=
  fun s => (Ret tt, set_fs (append_file (fs s) path t) s).

Definition Fprintln_file (path t : string) : M unit :=
  Fprint_file path (t +:+ LF).

Definition supportedArches : list string := ["all"; "arm"; "aarch64"].
Definition hashes : list string := ["md5"; "sha1"; "sha256"; "sha512"].

(** [getPackageName]: the first element of the split, which always
    exists. *)
Definition getPackageName (filename : string) : string :=
  match Split filename "_"%char with
  | name :: _ => name
  | [] => ""
  end.

(** [contains] *)
Fixpoint contains (slice : list string) (item : string) : bool :=
  match slice with
  | [] => false
  | v :: rest => if String.eqb v item then true else contains rest item
  end.

(** [mapKeys]: the keys of the set, sorted. *)
Definition mapKeys (m : gset string) : list string :=
  sort_Strings (elements m).

Definition isNotExist (r : stat_result) : bool :=
  match r with
  | StatNotExist => true
  | _ => false
  end.

(** The label of a digest algorithm in [Packages] and [Release]. *)
Definition hashLabel (hashType : string) : string :=
  if String.eqb hashType "md5" then "MD5Sum" else ToUpper hashType.

Section Program.
(** The environment of a run: which calls fail, what the shell does
    with a command line (the file system it leaves, and its output or
    a failure), the digest functions, the [xz] encoder (the bytes written
    when the writer is created, and the bytes that follow for an input),
    the signer, the clock read by [time.Now], and the text of
    [flag.Usage]. *)
Variable fault : syscall → string → bool.
Variable sh : gmap string node → string → gmap string node * option string.
Variables md5_Sum sha1_Sum sha256_Sum sha512_Sum : string → string.
Variable xz_header : string.
Variable xz_body : string → string.
Variable gpg : string → option string.
Variable now : string.
Variable usage : string.
Variable cfg : flags.

(** [distributionPath], set at the start of [main]. *)
Definition distributionPath : string :=
  Filepath.Join [outputPath cfg; "dists"; distribution cfg].

Definition os_Stat (path : string) : M stat_result :=
  fun s => (Ret (Stat fault (fs s) path), s).

Definition os_MkdirAll (path : string) : M bool :=
  fun s => let r := MkdirAll fault (fs s) path in (Ret r.2, set_fs r.1 s).

Definition os_Link (oldname newname : string) : M bool :=
  fun s => let r := Link fault (fs s) oldname newname in
           (Ret r.2, set_fs r.1 s).

Definition os_Open (path : string) : M (option node) :=
  fun s => (Ret (Open fault (fs s) path), s).

Definition os_Create (path : string) : M bool :=
  fun s => let r := Create fault (fs s) path in (Ret r.2, set_fs r.1 s).

Definition os_OpenFile_append (path : string) : M bool :=
  fun s => let r := OpenFile_append fault (fs s) path in
           (Ret r.2, set_fs r.1 s).

Definition os_RemoveAll (path : string) : M bool :=
  fun s => let r := RemoveAll fault (fs s) path in (Ret r.2, set_fs r.1 s).

(** [File.Sync]; the result says whether it succeeded. *)
Definition os_Sync (path : string) : M bool :=
  fun s => (Ret (negb (fault SysSync path)), s).

(** Reading an open file to its end, as [io.Copy] does: the bytes the
    file holds at that time; a directory cannot be read. *)
Definition read_open (path : string) (opened : node) : M (option string) :=
  fun s =>
    (Ret (match opened with
          | NDir => None
          | NFile at_open =>
              match lookup_path (fs s) path with
              | Some (NFile data) => Some data
              | _ => Some at_open
              end
          end), s).

(** [filepath.Glob]: the matches, and whether there is an error. *)
Definition filepath_Glob (pattern : string) : M (list string * bool) :=
  fun s => (Ret (Glob fault (fs s) pattern), s).

(** [runShellCommand]: the output of [sh -c cmd], or an error; the
    command has run in both cases. *)
Definition runShellCommand (cmd : string) : M (option string) :=
  fun s => let r := sh (fs s) cmd in (Ret r.2, set_fs r.1 s).

(** [controlFileContents] *)
Definition controlFileContents (debfile : string) : M string :=
  let* fileList := runShellCommand ("ar t " +:+ debfile) in
  match fileList with
  | None =>
      Fprintf_stderr ("Error listing contents of '" +:+ debfile +:+ "'" +:+ LF) >>
      os_Exit 1
  | Some fileList =>
      let* names :=
        (if Contains fileList "control.tar.gz" then ret ("control.tar.gz", "-z")
         else if Contains fileList "control.tar.xz" then ret ("control.tar.xz", "-J")
         else
           Fprintf_stderr ("Failed to find control file in '" +:+ debfile +:+ "'" +:+ LF) >>
           os_Exit 1) in
      let controlFilename := names.1 in
      let tarArgs := names.2 in
      let cmd := "ar p " +:+ debfile +:+ " " +:+ controlFilename +:+
                 " | tar -O " +:+ tarArgs +:+ " -xf - ./control" in
      let* contents := runShellCommand cmd in
      match contents with
      | None =>
          Fprintf_stderr ("Error extracting control file from '" +:+ debfile +:+ "'" +:+ LF) >>
          os_Exit 1
      | Some contents => ret contents
      end
  end.

(** [listPackageFiles] *)
Definition listPackageFiles (debfile : string) : M (list string) :=
  let* allContent :=
    runShellCommand ("ar p " +:+ debfile +:+ " data.tar.xz | tar -tJ") in
  match allContent with
  | None =>
      Fprintf_stderr ("Error listing package files for '" +:+ debfile +:+ "'" +:+ LF) >>
      os_Exit 1
  | Some allContent =>
      ret (map (fun file => TrimPrefix file "./")
             (List.filter
                (fun file =>
                   (0 <? String.length file)%nat &&
                   negb (bool_decide (last_char file = Some "/"%char)))
                (Split allContent (ascii_of_nat 10))))
  end.

(** [copyFile]; the result is [true] when the Go function returns a
    non-nil error.  The source is read after the destination is created
    (and truncated if it was there). *)
Definition copyFile (src dst : string) : M bool :=
  let* inFile := os_Open src in
  match inFile with
  | None => ret true
  | Some inFile =>
      let* created := os_Create dst in
      if negb created then ret true
      else
        let* data := read_open src inFile in
        match data with
        | None => ret true
        | Some data =>
            Fprint_file dst data >>
            let* synced := os_Sync dst in
            ret (negb synced)
        end
  end.

(** [addDeb] *)
Definition addDeb (debToAddPath component : string) (useHardLinks : bool)
  : M unit :=
  let* debToAddControlFile := controlFileContents debToAddPath in
  let* debToAddPkgName :=
    index (FindStringSubmatch "Package: " debToAddControlFile) 1 in
  let* debArch :=
    index (FindStringSubmatch "Architecture: " debToAddControlFile) 1 in
  (if negb (contains supportedArches debArch) then
     Fprintf_stderr ("Unsupported arch '" +:+ debArch +:+ "' in '" +:+
                     Filepath.Base debToAddPath +:+ "'" +:+ LF) >>
     os_Exit 1
   else ret tt) >>
  let* arches := get_encounteredArches in
  put_encounteredArches ({[debArch]} ∪ arches) >>
  let archDirPath :=
    Filepath.Join [distributionPath; component; "binary-" +:+ debArch] in
  let* st := os_Stat archDirPath in
  (if isNotExist st then os_MkdirAll archDirPath >> ret tt else ret tt) >>
  Println ("Adding deb file: " +:+ Filepath.Base debToAddPath) >>
  let destDebDirPath :=
    Filepath.Join [distributionPath; component; "binary-" +:+ debArch] in
  let* st := os_Stat destDebDirPath in
  (if isNotExist st then os_MkdirAll destDebDirPath >> ret tt else ret tt) >>
  let destinationDebFile :=
    Filepath.Join [destDebDirPath; Filepath.Base debToAddPath] in
  (if useHardLinks then
     os_Link debToAddPath destinationDebFile >> ret tt
   else
     let* err := copyFile debToAddPath destinationDebFile in
     if err then
       Fprintf_stderr ("Error copying file '" +:+ debToAddPath +:+ "'" +:+ LF) >>
       os_Exit 1
     else ret tt) >>
  let contentsFile :=
    Filepath.Join [distributionPath; component; "Contents-" +:+ debArch] in
  let* opened := os_OpenFile_append contentsFile in
  (if negb opened then
     Fprintf_stderr ("Error opening contents file for '" +:+ debArch +:+ "'" +:+ LF) >>
     os_Exit 1
   else ret tt) >>
  let* files := listPackageFiles destinationDebFile in
  forRange files (fun f =>
    Fprint_file contentsFile (pad80 f +:+ " " +:+ debToAddPkgName +:+ LF)).

(** [glob]: the error of [filepath.Glob] is dropped. *)
Definition glob (pattern : string) : M (list string) :=
  let* matches := filepath_Glob pattern in
  ret matches.1.

(** [filterDirs]: a failure of [ReadDir] gives no entries. *)
Definition filterDirs (root : string) : M (list string) :=
  fun s =>
    (Ret (match ReadDir fault (fs s) root with
          | None => []
          | Some files =>
              map fst (List.filter (fun f : string * node => IsDir f.2) files)
          end), s).

Definition hash_New (hashType : string) : option (string → string) :=
  if String.eqb hashType "md5" then Some md5_Sum
  else if String.eqb hashType "sha1" then Some sha1_Sum
  else if String.eqb hashType "sha256" then Some sha256_Sum
  else if String.eqb hashType "sha512" then Some sha512_Sum
  else None.

(** [hashFile]: the digest bytes, or the nil slice when the file
    cannot be opened; a failed read is not looked at and leaves the
    digest of no bytes.  An unknown algorithm leaves [h] nil, and the
    copy into it panics. *)
Definition hashFile (hashType filename : string) : M string :=
  let* file := os_Open filename in
  match file with
  | None => ret ""
  | Some file =>
      match hash_New hashType with
      | None => panic
      | Some h =>
          ret (h (match read_all file with
                  | Some data => data
                  | None => ""
                  end))
      end
  end.

(** [fileSize]: the size, or 0 when [os.Stat] fails. *)
Definition fileSize (filename : string) : M N :=
  let* r := os_Stat filename in
  match r with
  | StatOk fi => ret (size_of fi)
  | _ => ret 0%N
  end.

(** [compressXz].  [xz.NewWriter] writes the head of the stream to the
    output when it is created; then the input is read and encoded, and
    the deferred [Close] ends the stream.  A read that fails (the input
    is a directory) ends the run with the error of the read in the
    message, and leaves the head of the stream in the output. *)
Definition compressXz (inputPath outputPath : string) : M unit :=
  let* inFile := os_Open inputPath in
  match inFile with
  | None =>
      Fprintf_stderr ("Error opening input file for xz compression: '" +:+
                      inputPath +:+ "'" +:+ LF) >>
      os_Exit 1
  | Some inFile =>
      let* created := os_Create outputPath in
      if negb created then
        Fprintf_stderr ("Error creating output file for xz compression: '" +:+
                        outputPath +:+ "'" +:+ LF) >>
        os_Exit 1
      else
        Fprint_file outputPath xz_header >>
        let* data := read_open inputPath inFile in
        match data with
        | None =>
            Fprintf_stderr ("Error compressing file to xz: read " +:+
                            inputPath +:+ ": is a directory" +:+ LF) >>
            os_Exit 1
        | Some data => Fprint_file outputPath (xz_body data)
        end
  end.


(** The component of one input package (the first statements of the
    first loop of [main]). *)
Definition componentOf (debPath : string) : string :=
  let component := Filepath.Dir (TrimPrefix debPath (inputPath cfg)) in
  if String.eqb component "." then defaultComponent cfg else component.

(** The registration of a component: on first sight it is appended to
    [COMPONENTS] and its directory, when [os.Stat] finds it, is
    removed. *)
Definition registerComponent (component : string) : M unit :=
  let* registered := get_COMPONENTS in
  if negb (contains registered component) then
    put_COMPONENTS (registered ++ [component]) >>
    let* st := os_Stat (Filepath.Join [distributionPath; component]) in
    match st with
    | StatOk _ =>
        os_RemoveAll (Filepath.Join [distributionPath; component]) >> ret tt
    | _ => ret tt
    end
  else ret tt.

(** The body of the first loop of [main]. *)
Definition placeDeb (debPath : string) : M unit :=
  let component := componentOf debPath in
  registerComponent component >>
  addDeb debPath component (useHardLinks cfg).

(** The header fields of the [Release] file. *)
Definition writeReleaseHeader (releaseFile : string) : M unit :=
  Fprintln_file releaseFile "Codename: termux" >>
  Fprintln_file releaseFile "Version: 1" >>
  let* arches := get_encounteredArches in
  Fprintln_file releaseFile
    ("Architectures: " +:+ GoStrings.Join (mapKeys arches) " ") >>
  Fprintln_file releaseFile
    ("Description: " +:+ distribution cfg +:+ " repository") >>
  Fprintln_file releaseFile ("Suite: " +:+ distribution cfg) >>
  Fprintln_file releaseFile ("Date: " +:+ now).

(** The digest lines of one [Packages] entry. *)
Fixpoint digestLines (types : list string) (debToReadPath : string)
  : M string :=
  match types with
  | [] => ret ""
  | hashType :: rest =>
      let hashString := hashLabel hashType in
      let* sum := hashFile hashType debToReadPath in
      let* more := digestLines rest debToReadPath in
      ret (LF +:+ hashString +:+ ": " +:+ Sprintf_x sum +:+ more)
  end.

(** One [Packages] entry, [scanpackagesOutput]. *)
Definition packagesEntry (component binaryPath debToReadPath : string)
  : M string :=
  let* control := controlFileContents debToReadPath in
  let filename :=
    Filepath.Join ["dists"; distribution cfg; component; binaryPath;
                   Filepath.Base debToReadPath] in
  let* size := fileSize debToReadPath in
  let* digests := digestLines hashes debToReadPath in
  ret (control +:+ LF +:+ "Filename: " +:+ filename +:+
       LF +:+ "Size: " +:+ Sprint_size size +:+ digests).

(** The [Packages] file of one [binary-<arch>] directory, and its
    compressed copy. *)
Definition writePackages (component archDirPath : string) : M unit :=
  let* arch := index (Split (Filepath.Base archDirPath) "-"%char) 1 in
  Println ("Creating package file for " +:+ component +:+ " and " +:+ arch) >>
  let packagesFilePath := Filepath.Join [archDirPath; "Packages"] in
  let packagesxzFilePath := packagesFilePath +:+ ".xz" in
  let binaryPath := "binary-" +:+ arch in
  let* created := os_Create packagesFilePath in
  (if negb created then
     Fprintf_stderr ("Error creating Packages file '" +:+ packagesFilePath +:+
                     "'" +:+ LF) >>
     os_Exit 1
   else ret tt) >>
  let* debs := glob (Filepath.Join [archDirPath; "*.deb"]) in
  forRange debs (fun debToReadPath =>
    let* scanpackagesOutput :=
      packagesEntry component binaryPath debToReadPath in
    Fprintln_file packagesFilePath scanpackagesOutput >>
    Fprintln_file packagesFilePath "") >>
  compressXz packagesFilePath packagesxzFilePath.

(** The body of the second loop of [main], for one component. *)
Definition indexComponent (component : string) : M unit :=
  let* archDirs :=
    glob (Filepath.Join [distributionPath; component; "binary-*"]) in
  forRange archDirs (writePackages component) >>
  let* contents :=
    glob (Filepath.Join [distributionPath; component; "Contents-*"]) in
  forRange contents (fun contentsFile =>
    compressXz contentsFile (contentsFile +:+ ".xz")).

(** One row of a digest table of [Release]. *)
Definition releaseRow (releaseFile hashType filePath shown : string)
  : M unit :=
  let* sum := hashFile hashType filePath in
  let* size := fileSize filePath in
  Fprint_file releaseFile
    (" " +:+ sum +:+ " " +:+ Sprint_size size +:+ " " +:+ shown +:+ LF).

(** The rows of one component in the table of one algorithm. *)
Definition releaseRows (releaseFile hashType component : string) : M unit :=
  let* archDirs :=
    glob (Filepath.Join [distributionPath; component; "binary-*"]) in
  forRange archDirs (fun archDirPath =>
    forRange ["Packages"; "Packages.xz"] (fun f =>
      let filePath := Filepath.Join [archDirPath; f] in
      releaseRow releaseFile hashType filePath
        (Filepath.Join [component; Filepath.Base archDirPath; f]))) >>
  let* contents :=
    glob (Filepath.Join [distributionPath; component; "Contents-*"]) in
  forRange contents (fun contentsFile =>
    releaseRow releaseFile hashType contentsFile contentsFile).

(** The digest tables of [Release]. *)
Definition writeReleaseTables (releaseFile : string) : M unit :=
  forRange hashes (fun hashType =>
    Fprintln_file releaseFile (hashLabel hashType +:+ ":") >>
    let* components := get_COMPONENTS in
    forRange components (releaseRows releaseFile hashType)).

(** [exec.Command("gpg", ..., "--clearsign", "-o", out, release).Run()]:
    the signer reads the manifest and, when it succeeds, writes the
    signed copy.  The result says whether it succeeded. *)
Definition exec_gpg (out release : string) : M bool :=
  fun s =>
    match lookup_path (fs s) release with
    | Some (NFile data) =>
        match gpg data with
        | Some signed =>
            (Ret true, set_fs (<[key out := NFile signed]> (fs s)) s)
        | None => (Ret false, s)
        end
    | _ => (Ret false, s)
    end.

(** The signing step at the end of [main]. *)
Definition signRelease (releaseFilePath : string) : M unit :=
  if signRepo cfg then
    Println "Signing with gpg..." >>
    exec_gpg (Filepath.Join [distributionPath; "InRelease"]) releaseFilePath >>
    ret tt
  else ret tt.

(** The closing messages of [main]. *)
Definition printInstructions : M unit :=
  Println "Done!" >>
  Println "" >>
  Println ("Make the " +:+ outputPath cfg +:+
           " directory accessible at $REPO_URL") >>
  Println "" >>
  Println "Users can then access the repo by adding a file at" >>
  Println "   $PREFIX/etc/apt/sources.list.d" >>
  Println "containing:" >>
  let* components := get_COMPONENTS in
  forRange components (fun component =>
    Println ("   deb [trusted=yes] $REPO_URL " +:+
             distribution cfg +:+ " " +:+ component)) >>
  Println "" >>
  Println "[trusted=yes] is not needed if the repo has been signed with a gpg key".

(** [main], after [flag.Parse]. *)
Definition main : M unit :=
  (if String.eqb (inputPath cfg) "" || String.eqb (outputPath cfg) "" then
     Fprintf_stderr usage >> os_Exit 1
   else ret tt) >>
  let* st := os_Stat (inputPath cfg) in
  (if isNotExist st then
     Fprintf_stderr ("'" +:+ inputPath cfg +:+ "' does not exist" +:+ LF) >>
     os_Exit 1
   else ret tt) >>
  let* debsInPath := filepath_Glob (Filepath.Join [inputPath cfg; "*.deb"]) in
  (if debsInPath.2 then
     Fprintf_stderr ("Error globbing .deb files in '" +:+ inputPath cfg +:+
                     "'" +:+ LF) >>
     os_Exit 1
   else ret tt) >>
  let* debsInSubPath :=
    filepath_Glob (Filepath.Join [inputPath cfg; "*/*.deb"]) in
  (if debsInSubPath.2 then
     Fprintf_stderr ("Error globbing .deb files in subdirectories of '" +:+
                     inputPath cfg +:+ "'" +:+ LF) >>
     os_Exit 1
   else ret tt) >>
  let debsInPath := debsInPath.1 ++ debsInSubPath.1 in
  (if (List.length debsInPath =? 0)%nat then
     Fprintf_stderr ("No .deb file found in '" +:+ inputPath cfg +:+ "'" +:+ LF) >>
     os_Exit 1
   else ret tt) >>
  forRange debsInPath placeDeb >>
  let releaseFilePath := Filepath.Join [distributionPath; "Release"] in
  let* created := os_Create releaseFilePath in
  (if negb created then
     Fprintf_stderr ("Error creating Release file" +:+ LF) >> os_Exit 1
   else ret tt) >>
  writeReleaseHeader releaseFilePath >>
  let* components := get_COMPONENTS in
  forRange components indexComponent >>
  let* dirs := filterDirs distributionPath in
  put_COMPONENTS dirs >>
  let* components := get_COMPONENTS in
  Fprintln_file releaseFilePath
    ("Components: " +:+ GoStrings.Join components " ") >>
  writeReleaseTables releaseFilePath >>
  signRelease releaseFilePath >>
  printInstructions.

End Program.


(** The value of a field of a control text as the format of control
    files has it: what follows the name of the field, a colon and a
    blank on the first line that starts with them.  This is the control
    Architecture value the specification speaks of, written from its
    words, to be compared with what [addDeb] reads. *)
Definition spec_control_field (name control : string) : option string :=
  match List.filter (fun line => HasPrefix line (name +:+ ": "))
          (Split control (ascii_of_nat 10)) with
  | line :: _ => Some (drop_chars (String.length name + 2) line)
  | [] => None
  end.



(** A property of the state that a computation keeps, whatever its
    outcome. *)
Definition keeps {A} (P : state → Prop) (m : M A) : Prop :=
  ∀ s, P s → P (m s).2.

(** Two states that show the same to the user and to the closing
    messages: equal output streams and equal [COMPONENTS]. *)
Definition same_report (s1 s2 : state) : Prop :=
  stdout s1 = stdout s2 ∧ stderr s1 = stderr s2 ∧
  COMPONENTS s1 = COMPONENTS s2.

Definition same_outcome {A} (x y : result A * state) : Prop :=
  x.1 = y.1 ∧ same_report x.2 y.2.

(** A computation that reads nothing of the state but the streams and
    [COMPONENTS]. *)
Definition blind {A} (m : M A) : Prop :=
  ∀ s1 s2, same_report s1 s2 → same_outcome (m s1) (m s2).

(** A computation that never ends the run: in every state it returns. *)
Definition returns {A} (m : M A) : Prop :=
  ∀ s, ∃ a, (m s).1 = Ret a.

(** A computation that never panics. *)
Definition no_panic {A} (m : M A) : Prop :=
  ∀ s, (m s).1 ≠ Panic.

(** The architectures met so far are all supported ones. *)
Definition arches_supported (s : state) : Prop :=
  ∀ a, a ∈ encounteredArches s → contains supportedArches a = true.

(** Two states that differ at most in the file system. *)
Definition same_but_fs (s1 s2 : state) : Prop :=
  stdout s1 = stdout s2 ∧ stderr s1 = stderr s2 ∧
  COMPONENTS s1 = COMPONENTS s2 ∧ encounteredArches s1 = encounteredArches s2.

End Repo.

(** ** Concrete runs

    A small environment to run the program in: package files are known by
    their bytes, and the shell answers the three command lines of
    [controlFileContents] and [listPackageFiles] from a table that gives,
    for the bytes of a package, its control text and its file listing. *)

Module Demo.
Import GoStrings GoFmt OS Repo.

Definition control_foo : string :=
  "Package: foo" +:+ LF +:+ "Version: 1.0" +:+ LF +:+
  "Architecture: all" +:+ LF.
Definition control_foo2 : string :=
  "Package: foo" +:+ LF +:+ "Version: 1.1" +:+ LF +:+
  "Architecture: all" +:+ LF.
Definition control_baz : string :=
  "Package: baz" +:+ LF +:+ "Version: 2.0" +:+ LF +:+
  "Architecture: arm" +:+ LF.
(** A control text without a [Package] line. *)
Definition control_nameless : string :=
  "Version: 0.1" +:+ LF +:+ "Architecture: all" +:+ LF.
(** A control text without an [Architecture] line. *)
Definition control_archless : string :=
  "Package: odd" +:+ LF +:+ "Version: 0.1" +:+ LF.
(** A package for an architecture outside the supported ones. *)
Definition control_x86 : string :=
  "Package: qux" +:+ LF +:+ "Version: 3.0" +:+ LF +:+
  "Architecture: x86_64" +:+ LF.

(** A package for an architecture outside the supported ones, whose
    description ends in the name of a supported one. *)
Definition control_masked : string :=
  "Package: qux" +:+ LF +:+ "Version: 3.0" +:+ LF +:+
  "Description: tools ported from Architecture: arm" +:+ LF +:+
  "Architecture: x86_64" +:+ LF.

Definition packages : list (string * (string * string)) :=
  [("masked-bytes", (control_masked,
      "./" +:+ LF +:+ "./usr/bin/qux" +:+ LF));
   ("foo-bytes", (control_foo,
      "./" +:+ LF +:+ "./usr/" +:+ LF +:+ "./usr/bin/foo" +:+ LF));
   ("foo2-bytes", (control_foo2,
      "./" +:+ LF +:+ "./usr/bin/foo" +:+ LF +:+ "./usr/bin/foo2" +:+ LF));
   ("baz-bytes", (control_baz, "./" +:+ LF +:+ "./usr/bin/baz" +:+ LF));
   ("nameless-bytes", (control_nameless, "./" +:+ LF));
   ("archless-bytes", (control_archless, "./" +:+ LF));
   ("qux-bytes", (control_x86, "./" +:+ LF +:+ "./usr/bin/qux" +:+ LF))].

Fixpoint assoc {A} (k : string) (l : list (string * A)) : option A :=
  match l with
  | [] => None
  | (k', v) :: rest => if String.eqb k k' then Some v else assoc k rest
  end.

(** What the shell answers: [ar t path], [ar p path control.tar.xz | ...]
    and [ar p path data.tar.xz | ...] on a regular file whose bytes are in
    the table; every other command fails. *)
Definition answer (fs : gmap string node) (cmd : string) : option string :=
  match Split cmd " "%char with
  | "ar" :: op :: path :: rest =>
      match lookup_path fs path with
      | Some (NFile data) =>
          match assoc data packages with
          | Some (control, files) =>
              if String.eqb op "t" then
                Some ("debian-binary" +:+ LF +:+ "control.tar.xz" +:+ LF +:+
                      "data.tar.xz" +:+ LF)
              else match rest with
                   | "control.tar.xz" :: _ => Some control
                   | "data.tar.xz" :: _ => Some files
                   | _ => None
                   end
          | None => None
          end
      | _ => None
      end
  | _ => None
  end.

(** The shell of the runs below changes no file. *)
Definition sh (fs : gmap string node) (cmd : string)
  : gmap string node * option string :=
  (fs, answer fs cmd).

Definition no_fault : syscall → string → bool := fun _ _ => false.

(** Stand-ins for the digest functions (two bytes each) and for the
    encoder. *)
Definition md5 (d : string) : string := "m5".
Definition sha1 (d : string) : string := "s1".
Definition sha256 (d : string) : string := "s2".
Definition sha512 (d : string) : string := "s5".
Definition xz_header : string := "xz:".
Definition xz_body (d : string) : string := d.
Definition now : string := "Fri, 30 Oct 2026 12:00:00 UTC".
Definition usage : string := "Usage: termux-apt-repo [options]" +:+ LF.

Definition gpg_ok (d : string) : option string := Some ("signed:" +:+ d).
Definition gpg_fails (d : string) : option string := None.

(** The scenario of the specification: one package in the input root,
    one in the subdirectory [bar]. *)
Definition input_fs : gmap string node :=
  list_to_map
    [("debs", NDir); ("debs/foo_1.0_all.deb", NFile "foo-bytes");
     ("debs/bar", NDir); ("debs/bar/baz_2.0_arm.deb", NFile "baz-bytes");
     ("out", NDir)].

(** A package in the input root and one of the same file name in the
    subdirectory called like the default component. *)
Definition twice_fs : gmap string node :=
  list_to_map
    [("debs", NDir); ("debs/foo_1.0_all.deb", NFile "foo-bytes");
     ("debs/extras", NDir);
     ("debs/extras/foo_1.0_all.deb", NFile "foo2-bytes");
     ("out", NDir)].

(** A good package in the input root and, in the subdirectory [bar], a
    package for an architecture that is not supported. *)
Definition mixed_fs : gmap string node :=
  list_to_map
    [("debs", NDir); ("debs/foo_1.0_all.deb", NFile "foo-bytes");
     ("debs/bar", NDir); ("debs/bar/qux_3.0_x86.deb", NFile "qux-bytes");
     ("out", NDir)].

(** An output tree left by an earlier run, and an input whose only
    package cannot be classified: [bytes] are the bytes of that package. *)
Definition rebuilt_fs (bytes : string) : gmap string node :=
  list_to_map
    [("debs", NDir); ("debs/new_0.1_all.deb", NFile bytes);
     ("out", NDir); ("out/dists", NDir); ("out/dists/termux", NDir);
     ("out/dists/termux/extras", NDir);
     ("out/dists/termux/extras/binary-all", NDir);
     ("out/dists/termux/extras/binary-all/old_0.9_all.deb", NFile "foo-bytes");
     ("out/dists/termux/extras/Contents-all", NFile "usr/bin/old")].

(** An input whose only package is the one with the misleading
    description. *)
Definition masked_fs : gmap string node :=
  list_to_map
    [("debs", NDir); ("debs/qux_3.0_x86.deb", NFile "masked-bytes");
     ("out", NDir)].

(** An output tree left by an earlier run, a package in the input root
    and one in the subdirectory [extras]. *)
Definition alias_fs : gmap string node :=
  list_to_map
    [("debs", NDir); ("debs/foo_1.0_all.deb", NFile "foo-bytes");
     ("debs/extras", NDir);
     ("debs/extras/baz_2.0_arm.deb", NFile "baz-bytes");
     ("out", NDir); ("out/dists", NDir); ("out/dists/termux", NDir);
     ("out/dists/termux/extras", NDir);
     ("out/dists/termux/extras/binary-all", NDir);
     ("out/dists/termux/extras/binary-all/old_0.9_all.deb", NFile "foo2-bytes")].

(** An input directory whose name has a bracket in it. *)
Definition bracket_fs : gmap string node :=
  list_to_map
    [("debs[", NDir); ("debs[/foo_1.0_all.deb", NFile "foo-bytes");
     ("out", NDir)].

Definition start (f : gmap string node) : state := State f [] [] [] ∅.


(** Flag settings: the input path with and without the trailing
    separator, with hard links, with signing, with another
    distribution name. *)
Definition cfg_slash : flags := Flags "debs/" "out" "termux" "extras" false false.
Definition cfg_bare : flags := Flags "debs" "out" "termux" "extras" false false.
Definition cfg_links : flags := Flags "debs/" "out" "termux" "extras" true false.
Definition cfg_sign : flags := Flags "debs/" "out" "termux" "extras" false true.
(** The default component written with a trailing separator. *)
Definition cfg_alias : flags := Flags "debs/" "out" "termux" "extras/" false false.
Definition cfg_bracket : flags := Flags "debs[/" "out" "termux" "extras" false false.

Definition run (fault : syscall → string → bool)
    (gpg : string → option string) (cfg : flags) (f : gmap string node)
  : result unit * state :=
  main fault sh md5 sha1 sha256 sha512 xz_header xz_body gpg now usage cfg
    (start f).

(** The environment loses the materialized package of the scenario
    after the tree is built: [os.Stat] and [os.Open] fail on it. *)
Definition lost_package : syscall → string → bool :=
  fun c path =>
    String.eqb path "out/dists/termux/extras/binary-all/foo_1.0_all.deb" &&
    match c with
    | SysStat | SysOpen => true
    | _ => false
    end.


(** The environment makes [os.Open] fail on the package of the input
    root. *)
Definition unopenable_package : syscall → string → bool :=
  fun c path =>
    String.eqb path "debs/foo_1.0_all.deb" &&
    match c with
    | SysOpen => true
    | _ => false
    end.

(** An input directory without packages. *)
Definition empty_input_fs : gmap string node :=
  list_to_map [("debs", NDir); ("debs/notes.txt", NFile "none"); ("out", NDir)].

Definition cfg_no_input : flags := Flags "" "out" "termux" "extras" false false.
Definition cfg_missing : flags :=
  Flags "nowhere/" "out" "termux" "extras" false false.

(** A [Release] file with its header line and a [Packages] file next to
    it. *)
Definition release_and_index : state :=
  State (list_to_map
           [("out", NDir); ("out/Release", NFile "MD5Sum:");
            ("out/Packages", NFile "Package: foo")])
    [] [] ["extras"] (list_to_set ["all"]).

(** The contents of a regular file after a run. *)
Definition file_at (r : result unit * state) (path : string) : option string :=
  match fs r.2 !! path with
  | Some (NFile data) => Some data
  | _ => None
  end.

Definition lines_at (r : result unit * state) (path : string) : list string :=
  match file_at r path with
  | Some data => Split data (ascii_of_nat 10)
  | None => []
  end.

End Demo.

(** * Properties *)

Import GoStrings GoFmt OS Repo.
Local Open Scope go_scope.

(** ** The monad *)

Lemma bind_Ret {A B} (m : M A) (k : A → M B) (s s' : state) (a : A) :
  m s = (Ret a, s') → bind m k s = k a s'.
Proof. intros H. unfold bind. rewrite H. reflexivity. Qed.

Lemma bind_Exit {A B} (m : M A) (k : A → M B) (s s' : state) (c : Z) :
  m s = (Exit c, s') → bind m k s = (Exit c, s').
Proof. intros H. unfold bind. rewrite H. reflexivity. Qed.

Lemma bind_Panic {A B} (m : M A) (k : A → M B) (s s' : state) :
  m s = (Panic, s') → bind m k s = (Panic, s').
Proof. intros H. unfold bind. rewrite H. reflexivity. Qed.

Lemma bind_Ret_inv {A B} (m : M A) (k : A → M B) (s s' : state) (b : B) :
  bind m k s = (Ret b, s') →
  ∃ a s1, m s = (Ret a, s1) ∧ k a s1 = (Ret b, s').
Proof.
  unfold bind. destruct (m s) as [[a|c|] s1]; [eauto | discriminate..].
Qed.


Lemma keeps_ret {A} P (a : A) : keeps P (ret a).
Proof. intros s H. exact H. Qed.

Lemma keeps_exit {A} P c : keeps P (@os_Exit A c).
Proof. intros s H. exact H. Qed.

Lemma keeps_panic {A} P : keeps P (@panic A).
Proof. intros s H. exact H. Qed.

Lemma keeps_bind {A B} P (m : M A) (k : A → M B) :
  keeps P m → (∀ a, keeps P (k a)) → keeps P (bind m k).
Proof.
  intros Hm Hk s H. unfold bind. specialize (Hm s H).
  destruct (m s) as [[a|c|] s']; simpl in *; auto. apply Hk. exact Hm.
Qed.

Lemma keeps_forRange {A} P (l : list A) (body : A → M unit) :
  (∀ x, keeps P (body x)) → keeps P (forRange l body).
Proof.
  intros Hb. induction l as [|x l IH]; simpl.
  - apply keeps_ret.
  - apply keeps_bind; auto.
Qed.

Create HintDb keeps.
#[local] Hint Resolve keeps_ret keeps_exit keeps_panic : keeps.

Ltac keeps_step :=
  cbv zeta;
  match goal with
  | |- keeps _ (bind _ _) => apply keeps_bind; [| intros ?]
  | |- keeps _ (forRange _ _) => apply keeps_forRange; intros ?
  | |- keeps _ (match ?x with _ => _ end) => destruct x
  | |- keeps _ _ => solve [auto with keeps]
  end.

Section Facts.
Variable fault : syscall → string → bool.
Variable sh : gmap string node → string → gmap string node * option string.
Variables md5_Sum sha1_Sum sha256_Sum sha512_Sum : string → string.
Variable xz_header : string.
Variable xz_body : string → string.
Variable gpg : string → option string.
Variable now : string.
Variable usage : string.
Variable cfg : flags.

(** *** Computations that leave the registries alone *)

Section Keeps.
Variable P : state → Prop.
Hypothesis P_fs : ∀ f s, P s → P (set_fs f s).
Hypothesis P_stdout : ∀ t s, P s → P (add_stdout t s).
Hypothesis P_stderr : ∀ t s, P s → P (add_stderr t s).
Hypothesis P_arches : ∀ a s, P s → P (set_encounteredArches a s).

Lemma keeps_Println t : keeps P (Println t).
Proof. intros s H. apply P_stdout, H. Qed.
Lemma keeps_Fprintf_stderr t : keeps P (Fprintf_stderr t).
Proof. intros s H. apply P_stderr, H. Qed.
Lemma keeps_Fprint_file path t : keeps P (Fprint_file path t).
Proof. intros s H. apply P_fs, H. Qed.
Lemma keeps_get_arches : keeps P get_encounteredArches.
Proof. intros s H. exact H. Qed.
Lemma keeps_put_arches a : keeps P (put_encounteredArches a).
Proof. intros s H. apply P_arches, H. Qed.
Lemma keeps_index {A} (l : list A) i : keeps P (index l i).
Proof. unfold index. destruct (l !! i); auto with keeps. Qed.
Lemma keeps_os_Stat path : keeps P (os_Stat fault path).
Proof. intros s H. exact H. Qed.
Lemma keeps_os_Open path : keeps P (os_Open fault path).
Proof. intros s H. exact H. Qed.
Lemma keeps_os_MkdirAll path : keeps P (os_MkdirAll fault path).
Proof. intros s H. apply P_fs, H. Qed.
Lemma keeps_os_Link a b : keeps P (os_Link fault a b).
Proof. intros s H. apply P_fs, H. Qed.
Lemma keeps_os_Create path : keeps P (os_Create fault path).
Proof. intros s H. apply P_fs, H. Qed.
Lemma keeps_os_OpenFile path : keeps P (os_OpenFile_append fault path).
Proof. intros s H. apply P_fs, H. Qed.
Lemma keeps_os_RemoveAll path : keeps P (os_RemoveAll fault path).
Proof. intros s H. apply P_fs, H. Qed.
Lemma keeps_runShellCommand cmd : keeps P (runShellCommand sh cmd).
Proof. intros s H. apply P_fs, H. Qed.
Lemma keeps_os_Sync path : keeps P (os_Sync fault path).
Proof. intros s H. exact H. Qed.
Lemma keeps_read_open path opened : keeps P (read_open path opened).
Proof. intros s H. exact H. Qed.

Hint Resolve keeps_Println keeps_Fprintf_stderr keeps_Fprint_file
  keeps_get_arches keeps_put_arches keeps_index keeps_os_Stat
  keeps_os_Open keeps_os_MkdirAll keeps_os_Link keeps_os_Create
  keeps_os_OpenFile keeps_os_RemoveAll keeps_runShellCommand keeps_os_Sync
  keeps_read_open : keeps.

Lemma keeps_controlFileContents debfile :
  keeps P (controlFileContents sh debfile).
Proof. unfold controlFileContents. repeat keeps_step. Qed.

Lemma keeps_listPackageFiles debfile :
  keeps P (listPackageFiles sh debfile).
Proof. unfold listPackageFiles. repeat keeps_step. Qed.

Lemma keeps_copyFile src dst : keeps P (copyFile fault src dst).
Proof. unfold copyFile. repeat keeps_step. Qed.

Hint Resolve keeps_controlFileContents keeps_listPackageFiles
  keeps_copyFile : keeps.

Lemma keeps_addDeb debPath component hardLinks :
  keeps P (addDeb fault sh cfg debPath component hardLinks).
Proof. unfold addDeb. repeat keeps_step. Qed.
End Keeps.

(** *** Classification in [addDeb] *)

Lemma addDeb_no_package debPath component hardLinks control s :
  controlFileContents sh debPath s = (Ret control, s) →
  FindStringSubmatch "Package: " control !! 1 = None →
  addDeb fault sh cfg debPath component hardLinks s = (Panic, s).
Proof.
  intros Hc Hp. unfold addDeb.
  rewrite (bind_Ret _ _ _ _ _ Hc).
  apply bind_Panic. unfold index. rewrite Hp. reflexivity.
Qed.

Lemma addDeb_no_architecture debPath component hardLinks control pkg s :
  controlFileContents sh debPath s = (Ret control, s) →
  FindStringSubmatch "Package: " control !! 1 = Some pkg →
  FindStringSubmatch "Architecture: " control !! 1 = None →
  addDeb fault sh cfg debPath component hardLinks s = (Panic, s).
Proof.
  intros Hc Hp Ha. unfold addDeb.
  rewrite (bind_Ret _ _ _ _ _ Hc).
  rewrite (bind_Ret _ _ s s pkg) by (unfold index; rewrite Hp; reflexivity).
  apply bind_Panic. unfold index. rewrite Ha. reflexivity.
Qed.



(** *** Registration of a component *)

Lemma registerComponent_known component s :
  contains (COMPONENTS s) component = true →
  registerComponent fault cfg component s = (Ret tt, s).
Proof.
  intros H. unfold registerComponent, bind, get_COMPONENTS.
  rewrite H. reflexivity.
Qed.

(** On first sight the component is appended to [COMPONENTS]; then
    [os.Stat] decides whether [os.RemoveAll] is called. *)
Lemma registerComponent_new component s :
  contains (COMPONENTS s) component = false →
  registerComponent fault cfg component s =
    (Ret tt,
     match Stat fault (fs s)
             (Filepath.Join [distributionPath cfg; component]) with
     | StatOk _ =>
         set_fs (RemoveAll fault (fs s)
                   (Filepath.Join [distributionPath cfg; component])).1
           (set_COMPONENTS (COMPONENTS s ++ [component]) s)
     | _ => set_COMPONENTS (COMPONENTS s ++ [component]) s
     end).
Proof.
  intros H. unfold registerComponent, bind, get_COMPONENTS, put_COMPONENTS,
    os_Stat, os_RemoveAll, ret.
  rewrite H. cbn [negb fst snd fs set_COMPONENTS].
  destruct (Stat fault (fs s) _); reflexivity.
Qed.

Lemma registerComponent_Ret component s :
  (registerComponent fault cfg component s).1 = Ret tt.
Proof.
  destruct (contains (COMPONENTS s) component) eqn:H.
  - rewrite registerComponent_known by exact H. reflexivity.
  - rewrite registerComponent_new by exact H. reflexivity.
Qed.



Lemma RemoveAll_gone (f : gmap string node) dir k :
  (RemoveAll fault f dir).2 = true →
  under dir k = true →
  (RemoveAll fault f dir).1 !! k = None.
Proof.
  unfold RemoveAll.
  destruct (fault SysRemoveAll dir); simpl; [discriminate |].
  destruct (endsWithDot dir); simpl; [discriminate |].
  intros _ Hu. apply map_lookup_filter_None. right.
  intros x _ Hx. simpl in Hx. congruence.
Qed.

(** What is not at or under the path stays as it is. *)
Lemma RemoveAll_kept (f : gmap string node) dir k :
  under dir k = false → (RemoveAll fault f dir).1 !! k = f !! k.
Proof.
  intros Hu. unfold RemoveAll.
  destruct (fault SysRemoveAll dir); simpl; [reflexivity |].
  destruct (endsWithDot dir); simpl; [reflexivity |].
  destruct (f !! k) as [x|] eqn:E.
  - apply map_lookup_filter_Some. split; [exact E | exact Hu].
  - apply map_lookup_filter_None. left. exact E.
Qed.

(** A removal that the environment lets through, of a path that does
    not end in a dot, succeeds. *)
Lemma RemoveAll_succeeds (f : gmap string node) dir :
  fault SysRemoveAll dir = false → endsWithDot dir = false →
  (RemoveAll fault f dir).2 = true.
Proof. intros H1 H2. unfold RemoveAll. rewrite H1, H2. reflexivity. Qed.

Lemma contains_spec (l : list string) (c : string) :
  contains l c = true ↔ c ∈ l.
Proof.
  induction l as [|v l IH]; simpl.
  - split; [discriminate | intros H; inversion H].
  - destruct (String.eqb_spec v c) as [->|Hne].
    + split; [intros _; left | reflexivity].
    + rewrite IH. split; [intros H; right; exact H |].
      intros H. inversion H; subst; [congruence | assumption].
Qed.

Lemma contains_app (l : list string) (x c : string) :
  contains (l ++ [x]) c = contains l c || String.eqb x c.
Proof.
  induction l as [|v l IH]; simpl.
  - destruct (String.eqb x c); reflexivity.
  - destruct (String.eqb v c); [reflexivity | exact IH].
Qed.

Lemma addDeb_COMPONENTS debPath component hardLinks s :
  COMPONENTS (addDeb fault sh cfg debPath component hardLinks s).2 =
  COMPONENTS s.
Proof.
  apply (keeps_addDeb (fun s' => COMPONENTS s' = COMPONENTS s)); auto.
Qed.

Lemma registerComponent_COMPONENTS component c s :
  contains (COMPONENTS (registerComponent fault cfg component s).2) c =
  contains (COMPONENTS s) c || String.eqb component c.
Proof.
  destruct (contains (COMPONENTS s) component) eqn:H.
  - rewrite registerComponent_known by exact H. simpl.
    destruct (String.eqb_spec component c) as [<-|_].
    + rewrite H. reflexivity.
    + rewrite orb_false_r. reflexivity.
  - rewrite registerComponent_new by exact H. cbn [snd].
    destruct (Stat fault (fs s) _); cbn [COMPONENTS set_fs set_COMPONENTS];
      apply contains_app.
Qed.

Lemma placeDeb_COMPONENTS debPath c s :
  contains (COMPONENTS (placeDeb fault sh cfg debPath s).2) c =
  contains (COMPONENTS s) c || String.eqb (componentOf cfg debPath) c.
Proof.
  unfold placeDeb, bind.
  pose proof (registerComponent_Ret (componentOf cfg debPath) s) as Hr.
  pose proof (registerComponent_COMPONENTS (componentOf cfg debPath) c s) as Hc.
  destruct (registerComponent fault cfg (componentOf cfg debPath) s)
    as [r s1]; simpl in *. subst r.
  rewrite addDeb_COMPONENTS. exact Hc.
Qed.

(** After the packages of [before] are placed, [COMPONENTS] holds the
    components it held at the start and those of [before]. *)
Lemma forRange_placeDeb_COMPONENTS (before : list string) c s0 s :
  forRange before (placeDeb fault sh cfg) s0 = (Ret tt, s) →
  contains (COMPONENTS s) c =
  contains (COMPONENTS s0) c || contains (map (componentOf cfg) before) c.
Proof.
  revert s0. induction before as [|p before IH]; intros s0 H; simpl in *.
  - inversion H. rewrite orb_false_r. reflexivity.
  - unfold bind in H.
    pose proof (placeDeb_COMPONENTS p c s0) as Hp.
    destruct (placeDeb fault sh cfg p s0) as [[[]|code|] s1];
      try discriminate.
    rewrite (IH _ H). simpl in Hp. rewrite Hp.
    destruct (contains (COMPONENTS s0) c); simpl; [reflexivity |].
    destruct (String.eqb (componentOf cfg p) c); reflexivity.
Qed.

(** ** The claims on classification and on the rebuild of a component *)

(** C5 (what the code does where the claim fails): when the control
    text of a package has no [Package: ] field or no [Architecture: ]
    field, [addDeb] ends in a run-time panic (the index into the empty
    match) and the state is the one it started from: nothing has been
    written to the error stream, so no message names the file. *)
Theorem C5_missing_field_panics_without_message
    (debPath component control : string) (hardLinks : bool) (s : state) :
  controlFileContents sh debPath s = (Ret control, s) →
  FindStringSubmatch "Package: " control !! 1 = None ∨
  FindStringSubmatch "Architecture: " control !! 1 = None →
  addDeb fault sh cfg debPath component hardLinks s = (Panic, s).
Proof.
  intros Hc Hm.
  destruct (FindStringSubmatch "Package: " control !! 1) as [pkg|] eqn:Hp.
  - destruct Hm as [Hm | Hm]; [discriminate |].
    eapply addDeb_no_architecture; eauto.
  - eapply addDeb_no_package; eauto.
Qed.

(** *** Errors that are dropped *)

(** The results of [os.MkdirAll] and of [os.Link] are not looked at:
    the statements of [addDeb] that call them go on whatever the call
    returns. *)
Lemma os_MkdirAll_result_dropped path s :
  (bind (os_MkdirAll fault path) (fun _ => ret tt) s).1 = Ret tt.
Proof. reflexivity. Qed.

Lemma os_Link_result_dropped oldname newname s :
  (bind (os_Link fault oldname newname) (fun _ => ret tt) s).1 = Ret tt.
Proof. reflexivity. Qed.

Lemma fileSize_of_failed_Stat filename s :
  (∀ n, Stat fault (fs s) filename ≠ StatOk n) →
  fileSize fault filename s = (Ret 0%N, s).
Proof.
  intros H. unfold fileSize, bind, os_Stat, ret.
  destruct (Stat fault (fs s) filename) as [n| |]; [destruct (H n) |..];
    reflexivity.
Qed.

Lemma hashFile_of_failed_Open hashType filename s :
  Open fault (fs s) filename = None →
  hashFile fault md5_Sum sha1_Sum sha256_Sum sha512_Sum hashType filename s
  = (Ret "", s).
Proof.
  intros H. unfold hashFile, bind, os_Open, ret. rewrite H. reflexivity.
Qed.

Lemma digestLines_of_failed_Open types filename s :
  Open fault (fs s) filename = None →
  digestLines fault md5_Sum sha1_Sum sha256_Sum sha512_Sum types filename s
  = (Ret (fold_right (fun t rest => LF +:+ hashLabel t +:+ ": " +:+ rest)
            "" types), s).
Proof.
  intros H. induction types as [|t types IH]; [reflexivity |].
  cbn [digestLines fold_right]. cbv zeta.
  rewrite (bind_Ret _ _ _ _ _ (hashFile_of_failed_Open t filename s H)).
  rewrite (bind_Ret _ _ _ _ _ IH). reflexivity.
Qed.

(** Once the control text of a package is extracted, a failure of
    [os.Stat] and of [os.Open] on the package does not end the run:
    the entry is built, with the size 0 and with empty digests. *)
Lemma packagesEntry_of_lost_package component binaryPath deb control s :
  controlFileContents sh deb s = (Ret control, s) →
  (∀ n, Stat fault (fs s) deb ≠ StatOk n) →
  Open fault (fs s) deb = None →
  packagesEntry fault sh md5_Sum sha1_Sum sha256_Sum sha512_Sum cfg
    component binaryPath deb s =
  (Ret (control +:+ LF +:+ "Filename: " +:+
        Filepath.Join ["dists"; distribution cfg; component; binaryPath;
                       Filepath.Base deb] +:+ LF +:+
        "Size: 0" +:+ LF +:+ "MD5Sum: " +:+ LF +:+ "SHA1: " +:+ LF +:+
        "SHA256: " +:+ LF +:+ "SHA512: "), s).
Proof.
  intros Hc Hs Ho. unfold packagesEntry.
  rewrite (bind_Ret _ _ _ _ _ Hc). cbv zeta.
  rewrite (bind_Ret _ _ _ _ _ (fileSize_of_failed_Stat deb s Hs)).
  rewrite (bind_Ret _ _ _ _ _ (digestLines_of_failed_Open hashes deb s Ho)).
  reflexivity.
Qed.



(** X24: the registration of a component, by its name.  In a run that
    starts with no registered component, when no earlier package of the
    run had the component name of a package, its step appends the name
    to [COMPONENTS]; if then [os.Stat] finds the directory of the
    component and the environment lets [os.RemoveAll] through, nothing is
    left at or under that directory and every other path is as before.
    When an earlier package had the same name, the registration changes
    nothing. *)
Theorem registerComponent_removes_the_directory_on_first_sight
    (before : list string) (debPath : string) (n : node) (s0 s : state) :
  COMPONENTS s0 = [] →
  forRange before (placeDeb fault sh cfg) s0 = (Ret tt, s) →
  let component := componentOf cfg debPath in
  let dir := Filepath.Join [distributionPath cfg; component] in
  let s1 := (registerComponent fault cfg component s).2 in
  (component ∉ map (componentOf cfg) before →
     COMPONENTS s1 = COMPONENTS s ++ [component] ∧
     (Stat fault (fs s) dir = StatOk n →
      fault SysRemoveAll dir = false → endsWithDot dir = false →
      (∀ k, under dir k = true → fs s1 !! k = None) ∧
      (∀ k, under dir k = false → fs s1 !! k = fs s !! k))) ∧
  (component ∈ map (componentOf cfg) before → s1 = s).
Proof.
  intros H0 Hb component dir s1.
  pose proof (forRange_placeDeb_COMPONENTS before component s0 s Hb) as Hc.
  rewrite H0 in Hc. simpl in Hc.
  split.
  - intros Hnew.
    assert (Hf : contains (COMPONENTS s) component = false).
    { rewrite Hc. apply not_true_is_false. rewrite contains_spec. exact Hnew. }
    unfold s1. rewrite registerComponent_new by exact Hf. cbn [snd].
    fold dir. split.
    + destruct (Stat fault (fs s) dir); reflexivity.
    + intros Hst Hfault Hdot. rewrite Hst. cbn [fs set_fs]. split.
      * intros k Hk. apply RemoveAll_gone; [| exact Hk].
        apply RemoveAll_succeeds; assumption.
      * intros k Hk. cbn [set_COMPONENTS fs]. apply RemoveAll_kept, Hk.
  - intros Hold. unfold s1. rewrite registerComponent_known; [reflexivity |].
    rewrite Hc. apply contains_spec. exact Hold.
Qed.


End Facts.

(** ** The component of a package in the input root *)

Lemma prefix_empty (s : string) : String.prefix "" s = true.
Proof. destruct s; reflexivity. Qed.

Lemma append_cons (c : ascii) (a b : string) :
  String c a +:+ b = String c (a +:+ b).
Proof. reflexivity. Qed.

Lemma append_nil (b : string) : "" +:+ b = b.
Proof. reflexivity. Qed.

Lemma prefix_append (p s : string) : String.prefix p (p +:+ s) = true.
Proof.
  induction p as [|c p IH].
  - apply prefix_empty.
  - rewrite append_cons. simpl.
    destruct (ascii_dec c c); [exact IH | congruence].
Qed.

Lemma drop_chars_append (p s : string) :
  drop_chars (String.length p) (p +:+ s) = s.
Proof.
  induction p as [|c p IH]; [reflexivity |].
  rewrite append_cons. simpl. exact IH.
Qed.

Lemma TrimPrefix_append (p s : string) : TrimPrefix (p +:+ s) p = s.
Proof.
  unfold TrimPrefix, HasPrefix. rewrite prefix_append.
  apply drop_chars_append.
Qed.

Lemma append_assoc (a b c : string) : (a +:+ b) +:+ c = a +:+ (b +:+ c).
Proof.
  induction a as [|x a IH]; [reflexivity |].
  rewrite !append_cons, IH. reflexivity.
Qed.

Lemma HasPrefix_separator (c : ascii) (s : string) :
  HasPrefix (String c s) "/" = Ascii.eqb c "/".
Proof.
  unfold HasPrefix.
  change (String.prefix "/" (String c s))
    with (match ascii_dec "/" c with
          | left _ => String.prefix "" s
          | right _ => false
          end).
  destruct (ascii_dec "/" c) as [<-|Hne].
  - rewrite prefix_empty. reflexivity.
  - destruct (Ascii.eqb_spec c "/"); congruence.
Qed.

(** A file name without a separator is one element. *)
Lemma Split_no_separator (name : string) :
  Contains name "/" = false → Split name "/"%char = [name].
Proof.
  induction name as [|c name IH]; [reflexivity |].
  change (Contains (String c name) "/")
    with (HasPrefix (String c name) "/" || Contains name "/").
  rewrite HasPrefix_separator. intros H.
  apply orb_false_elim in H as [H1 H2].
  cbn [Split]. rewrite H1, (IH H2). reflexivity.
Qed.

Lemma Dir_of_name (name : string) :
  Contains name "/" = false → Filepath.Dir name = ".".
Proof.
  intros H. unfold Filepath.Dir, Filepath.dir_part, Filepath.Separator.
  rewrite (Split_no_separator name H). reflexivity.
Qed.

Lemma Dir_of_rooted_name (name : string) :
  Contains name "/" = false → Filepath.Dir ("/" +:+ name) = "/".
Proof.
  intros H. unfold Filepath.Dir, Filepath.dir_part, Filepath.Separator.
  rewrite append_cons, append_nil. simpl Split.
  rewrite (Split_no_separator name H). reflexivity.
Qed.

(** With a trailing separator on the input path, what is left of the
    path of a root package is its file name, and the component is the
    default one. *)
Lemma componentOf_root_trailing_separator
    (dir name out dist dflt : string) (links sign : bool) :
  Contains name "/" = false →
  componentOf (Flags (dir +:+ "/") out dist dflt links sign)
    (dir +:+ "/" +:+ name) = dflt.
Proof.
  intros H. unfold componentOf. simpl inputPath.
  rewrite <- append_assoc, TrimPrefix_append, (Dir_of_name name H).
  reflexivity.
Qed.

(** C1 (what the code does where the claim fails): when the input path
    is given without a trailing separator, what [strings.TrimPrefix]
    leaves of the path [dir/name] of a package in the input root starts
    with the separator, its [filepath.Dir] is ["/"] and not ["."], and the
    component of the package is ["/"], whatever the default component
    is. *)
Theorem C1_root_package_component_without_trailing_separator
    (dir name out dist dflt : string) (links sign : bool) :
  Contains name "/" = false →
  componentOf (Flags dir out dist dflt links sign) (dir +:+ "/" +:+ name) = "/".
Proof.
  intros H. unfold componentOf. simpl inputPath.
  rewrite TrimPrefix_append, (Dir_of_rooted_name name H).
  reflexivity.
Qed.

(** ** The header of the release manifest *)



(** ** The signing step *)

Lemma same_report_refl s : same_report s s.
Proof. repeat split. Qed.

Lemma same_outcome_after {A B} (m : M A) (k1 k2 : A → M B) (s : state) :
  (∀ a s', same_outcome (k1 a s') (k2 a s')) →
  same_outcome (bind m k1 s) (bind m k2 s).
Proof.
  intros H. unfold bind. destruct (m s) as [[a|c|] s'].
  - apply H.
  - split; [reflexivity | apply same_report_refl].
  - split; [reflexivity | apply same_report_refl].
Qed.

Lemma blind_ret {A} (a : A) : blind (ret a).
Proof. intros s1 s2 H. split; [reflexivity | exact H]. Qed.

Lemma blind_bind {A B} (m : M A) (k : A → M B) :
  blind m → (∀ a, blind (k a)) → blind (bind m k).
Proof.
  intros Hm Hk s1 s2 H. unfold bind.
  destruct (Hm s1 s2 H) as [Hr Hs].
  destruct (m s1) as [r1 t1], (m s2) as [r2 t2]; simpl in *. subst r2.
  destruct r1 as [a|c|].
  - apply Hk. exact Hs.
  - split; [reflexivity | exact Hs].
  - split; [reflexivity | exact Hs].
Qed.

Lemma blind_Println t : blind (Println t).
Proof.
  intros s1 s2 (Ho & He & Hc). unfold Println, same_outcome, same_report.
  simpl. rewrite Ho. auto.
Qed.

Lemma blind_get_COMPONENTS : blind get_COMPONENTS.
Proof.
  intros s1 s2 (Ho & He & Hc). unfold get_COMPONENTS, same_outcome, same_report.
  simpl. rewrite Hc. auto.
Qed.

Lemma blind_forRange {A} (l : list A) (body : A → M unit) :
  (∀ x, blind (body x)) → blind (forRange l body).
Proof.
  intros Hb. induction l as [|x l IH]; simpl.
  - apply blind_ret.
  - apply blind_bind; auto.
Qed.

Lemma blind_printInstructions cfg : blind (printInstructions cfg).
Proof.
  unfold printInstructions.
  repeat first
    [ apply blind_bind; [| intros ?]
    | apply blind_Println
    | apply blind_get_COMPONENTS
    | apply blind_forRange; intros ? ].
Qed.

(** The signing step returns, whatever the signer does, and what it
    leaves in the streams and in [COMPONENTS] does not depend on the
    signer. *)
Lemma signRelease_report (gpg1 gpg2 : string → option string) cfg path s :
  (signRelease gpg1 cfg path s).1 = Ret tt ∧
  same_report (signRelease gpg1 cfg path s).2 (signRelease gpg2 cfg path s).2 ∧
  stderr (signRelease gpg1 cfg path s).2 = stderr s.
Proof.
  unfold signRelease, bind, Println, exec_gpg, ret, same_report.
  destruct (signRepo cfg); cbn [fst snd fs add_stdout].
  - destruct (lookup_path (fs s) path) as [[|data]|]; simpl;
      try destruct (gpg1 data); try destruct (gpg2 data); simpl; auto.
  - auto.
Qed.

Lemma sign_then_print (gpg1 gpg2 : string → option string) cfg path s :
  same_outcome
    (bind (signRelease gpg1 cfg path) (fun _ => printInstructions cfg) s)
    (bind (signRelease gpg2 cfg path) (fun _ => printInstructions cfg) s).
Proof.
  unfold bind.
  destruct (signRelease_report gpg1 gpg2 cfg path s) as (R1 & S & _).
  destruct (signRelease_report gpg2 gpg1 cfg path s) as (R2 & _ & _).
  destruct (signRelease gpg1 cfg path s) as [x1 t1].
  destruct (signRelease gpg2 cfg path s) as [x2 t2].
  simpl in *. subst x1 x2.
  apply blind_printInstructions. exact S.
Qed.

(** With signing asked for, the signing step prints its line and then
    runs the signer; the step returns whatever the signer does. *)
Lemma signRelease_signing (gpg : string → option string) cfg path s :
  signRepo cfg = true →
  signRelease gpg cfg path s =
    (Ret tt,
     (exec_gpg gpg (Filepath.Join [distributionPath cfg; "InRelease"]) path
        (add_stdout ("Signing with gpg..." +:+ LF) s)).2).
Proof.
  intros H. unfold signRelease, bind, Println, exec_gpg, ret. rewrite H.
  cbn [fs add_stdout].
  destruct (lookup_path (fs s) path) as [[|data]|]; try reflexivity.
  destruct (gpg data); reflexivity.
Qed.

Lemma exec_gpg_stdout (gpg : string → option string) out release s :
  stdout (exec_gpg gpg out release s).2 = stdout s.
Proof.
  unfold exec_gpg.
  destruct (lookup_path (fs s) release) as [[|data]|]; try reflexivity.
  destruct (gpg data); reflexivity.
Qed.

(** The closing messages only add lines to standard output. *)
Lemma printInstructions_stdout cfg s :
  ∃ more, stdout (printInstructions cfg s).2 = stdout s ++ more.
Proof.
  assert (H : keeps (fun t => ∃ more, stdout t = stdout s ++ more)
                (printInstructions cfg)).
  { assert (Hp : ∀ t, keeps (fun t => ∃ more, stdout t = stdout s ++ more)
                        (Println t)).
    { intros t u [more Hu]. exists (more ++ [t +:+ LF]).
      cbn [Println snd stdout add_stdout]. rewrite Hu, app_assoc. reflexivity. }
    unfold printInstructions.
    repeat first
      [ apply Hp
      | apply keeps_bind; [| intros ?]
      | apply keeps_forRange; intros ?
      | intros ? ?; assumption ]. }
  apply H. exists []. rewrite app_nil_r. reflexivity.
Qed.

(** A run that returns has gone through the signing step and the
    closing messages. *)
Lemma main_ends_with_signing
    (fault : syscall → string → bool)
    (sh : gmap string node → string → gmap string node * option string)
    (md5_Sum sha1_Sum sha256_Sum sha512_Sum : string → string)
    (xz_header : string) (xz_body : string → string)
    (gpg : string → option string) (now usage : string) (cfg : flags)
    (s t : state) :
  main fault sh md5_Sum sha1_Sum sha256_Sum sha512_Sum xz_header xz_body gpg
    now usage cfg s = (Ret tt, t) →
  ∃ s',
    bind (signRelease gpg cfg (Filepath.Join [distributionPath cfg; "Release"]))
      (fun _ => printInstructions cfg) s' = (Ret tt, t).
Proof.
  intros H. unfold main in H.
  do 19 (apply bind_Ret_inv in H as (? & ? & _ & H); cbv zeta in H).
  eexists. exact H.
Qed.

(** C7 (amended): signing is asked for.  The exit status of the run and
    everything it writes to standard output and to standard error are
    the same whatever the signer does: a run whose signer fails ends as
    the run whose signer succeeds, so the failure does not abort the run
    and nothing reports it.  The signing step prints the line
    [Signing with gpg...] and then calls the signer, in the state that
    holds the line already; it returns whatever the signer does and
    writes nothing to standard error.  In a run that returns, the line
    comes right after what was printed up to the signing step, and only
    the closing messages follow it. *)
Theorem C7_signer_failure_neither_fatal_nor_reported
    (fault : syscall → string → bool)
    (sh : gmap string node → string → gmap string node * option string)
    (md5_Sum sha1_Sum sha256_Sum sha512_Sum : string → string)
    (xz_header : string) (xz_body : string → string)
    (now usage : string) (cfg : flags)
    (gpg1 gpg2 : string → option string) (s : state) :
  signRepo cfg = true →
  let r1 := main fault sh md5_Sum sha1_Sum sha256_Sum sha512_Sum xz_header
              xz_body gpg1 now usage cfg s in
  let r2 := main fault sh md5_Sum sha1_Sum sha256_Sum sha512_Sum xz_header
              xz_body gpg2 now usage cfg s in
  let line := "Signing with gpg..." +:+ LF in
  let release := Filepath.Join [distributionPath cfg; "Release"] in
  let signed := Filepath.Join [distributionPath cfg; "InRelease"] in
  (r1.1 = r2.1 ∧ stdout r1.2 = stdout r2.2 ∧ stderr r1.2 = stderr r2.2) ∧
  (∀ s', signRelease gpg1 cfg release s' =
           (Ret tt, (exec_gpg gpg1 signed release (add_stdout line s')).2) ∧
         stderr (signRelease gpg1 cfg release s').2 = stderr s') ∧
  (r1.1 = Ret tt →
   ∃ s' more,
     r1 = printInstructions cfg
            (exec_gpg gpg1 signed release (add_stdout line s')).2 ∧
     stdout r1.2 = stdout s' ++ line :: more).
Proof.
  intros Hsign r1 r2 line release signed.
  split; [| split].
  - assert (H : same_outcome r1 r2).
    { unfold r1, r2, main.
      repeat (cbv zeta; apply same_outcome_after; intros).
      apply sign_then_print. }
    destruct H as (Hr & Ho & He & _). auto.
  - intros s'. split; [apply signRelease_signing, Hsign |].
    destruct (signRelease_report gpg1 gpg2 cfg release s') as (_ & _ & E).
    exact E.
  - intros Hret. destruct r1 as [x t] eqn:E1. cbn [fst] in Hret. subst x.
    destruct (main_ends_with_signing _ _ _ _ _ _ _ _ _ _ _ _ _ _ E1)
      as [s' Hs'].
    fold release in Hs'. rewrite (bind_Ret _ _ _ _ _
                  (signRelease_signing gpg1 cfg release s' Hsign)) in Hs'.
    fold signed line in Hs'.
    destruct (printInstructions_stdout cfg
                (exec_gpg gpg1 signed release (add_stdout line s')).2)
      as [more Hmore].
    exists s', more. split; [symmetry; exact Hs' |].
    rewrite Hs' in Hmore. cbn [snd] in *. rewrite Hmore, exec_gpg_stdout.
    cbn [stdout add_stdout]. rewrite <- app_assoc. reflexivity.
Qed.

(** ** The matcher of [filepath.Match] never runs out of fuel *)

Lemma drop_chars_length (n : nat) (s : string) :
  String.length (drop_chars n s) = (String.length s - n)%nat.
Proof.
  revert s. induction n as [|n IH]; intros [|c s]; cbn [drop_chars String.length];
    try lia. rewrite IH. lia.
Qed.

Lemma DecodeRuneInString_width (s : string) :
  s ≠ "" → (1 ≤ (Utf8.DecodeRuneInString s).2)%nat.
Proof.
  destruct s as [|c0 s]; [congruence |]. intros _.
  unfold Utf8.DecodeRuneInString.
  repeat match goal with
         | |- context [if ?b then _ else _] => destruct b
         | |- context [match ?x with _ => _ end] => destruct x
         end; cbn [snd]; lia.
Qed.

Lemma getEsc_shorter (chunk : string) (r : N) (nchunk : string) :
  Filepath.getEsc chunk = Some (r, nchunk) →
  (String.length nchunk < String.length chunk)%nat.
Proof.
  unfold Filepath.getEsc. destruct chunk as [|c rest]; [discriminate |].
  destruct (Ascii.eqb c "-" || Ascii.eqb c "]"); [discriminate |].
  set (chunk := if Ascii.eqb c Filepath.BACKSLASH then rest else String c rest).
  assert (Hlen : (String.length chunk ≤ String.length (String c rest))%nat).
  { unfold chunk. destruct (Ascii.eqb c Filepath.BACKSLASH);
      cbn [String.length]; lia. }
  destruct (String.eqb_spec chunk "") as [|Hne]; [discriminate |].
  pose proof (DecodeRuneInString_width chunk Hne) as Hw.
  destruct (_ && _); [discriminate |].
  destruct (String.eqb _ ""); [discriminate |].
  intros [= _ <-]. rewrite drop_chars_length.
  destruct chunk; [congruence |]. cbn [String.length] in *. lia.
Qed.

Lemma ranges_shorter (fuel : nat) (r : N) (found : bool) (nrange : nat)
    (chunk : string) (b : bool) (chunk' : string) :
  Filepath.ranges fuel r found nrange chunk = Some (b, chunk') →
  (String.length chunk' < String.length chunk)%nat.
Proof.
  revert found nrange chunk.
  induction fuel as [|fuel IH]; intros found nrange chunk; [discriminate |].
  cbn [Filepath.ranges].
  destruct (Filepath.starts_with "]" chunk && (0 <? nrange)%nat) eqn:E.
  - intros [= _ <-]. apply andb_true_iff in E as [E _].
    destruct chunk; [discriminate E |]. cbn [drop_chars String.length]. lia.
  - destruct (Filepath.getEsc chunk) as [[lo chunk1]|] eqn:E1; [| discriminate].
    apply getEsc_shorter in E1.
    destruct (Filepath.starts_with "-" chunk1).
    + destruct (Filepath.getEsc (drop_chars 1 chunk1)) as [[hi chunk2]|] eqn:E2;
        [| discriminate].
      apply getEsc_shorter in E2. rewrite drop_chars_length in E2.
      intros H. apply IH in H. lia.
    + intros H. apply IH in H. lia.
Qed.

Lemma ranges_fuel (fuel fuel' : nat) (r : N) (found : bool) (nrange : nat)
    (chunk : string) :
  (String.length chunk < fuel)%nat → (String.length chunk < fuel')%nat →
  Filepath.ranges fuel r found nrange chunk =
  Filepath.ranges fuel' r found nrange chunk.
Proof.
  revert fuel' found nrange chunk.
  induction fuel as [|fuel IH]; intros [|fuel'] found nrange chunk H1 H2;
    try lia.
  cbn [Filepath.ranges].
  destruct (Filepath.starts_with "]" chunk && (0 <? nrange)%nat); [reflexivity |].
  destruct (Filepath.getEsc chunk) as [[lo chunk1]|] eqn:E1; [| reflexivity].
  apply getEsc_shorter in E1.
  destruct (Filepath.starts_with "-" chunk1).
  - destruct (Filepath.getEsc (drop_chars 1 chunk1)) as [[hi chunk2]|] eqn:E2;
      [| reflexivity].
    apply getEsc_shorter in E2. rewrite drop_chars_length in E2.
    apply IH; lia.
  - apply IH; lia.
Qed.

Lemma matchChunk_loop_fuel (fuel fuel' : nat) (failed : bool) (chunk s : string) :
  (String.length chunk ≤ fuel)%nat → (String.length chunk ≤ fuel')%nat →
  Filepath.matchChunk_loop fuel failed chunk s =
  Filepath.matchChunk_loop fuel' failed chunk s.
Proof.
  revert fuel' failed chunk s.
  induction fuel as [|fuel IH]; intros fuel' failed chunk s H1 H2.
  - destruct chunk; [| cbn [String.length] in H1; lia].
    destruct fuel'; reflexivity.
  - destruct chunk as [|c chunk']; [destruct fuel'; reflexivity |].
    destruct fuel' as [|fuel']; [cbn [String.length] in H2; lia |].
    cbn [String.length] in H1, H2.
    cbn [Filepath.matchChunk_loop]. cbv zeta.
    destruct (Ascii.eqb c "[").
    + match goal with
      | |- context [Filepath.ranges ?f ?r ?b ?n ?ch] =>
          destruct (Filepath.ranges f r b n ch) as [[found chunk2]|] eqn:E;
            [| reflexivity]
      end.
      apply ranges_shorter in E.
      assert ((String.length chunk2 < String.length chunk')%nat).
      { revert E. destruct (Filepath.starts_with "^" chunk');
          [rewrite drop_chars_length |]; lia. }
      apply IH; lia.
    + destruct (Ascii.eqb c "?").
      * destruct (failed || String.eqb s ""); apply IH; lia.
      * destruct (Ascii.eqb c Filepath.BACKSLASH).
        -- destruct chunk' as [|l chunk2]; [reflexivity |].
           cbn [String.length] in *.
           destruct (failed || String.eqb s ""); apply IH; lia.
        -- destruct (failed || String.eqb s ""); apply IH; lia.
Qed.

(** [matchChunk] with any fuel that is not below the length of the
    chunk. *)
Lemma matchChunk_total (fuel : nat) (chunk s : string) :
  (String.length chunk ≤ fuel)%nat →
  Filepath.matchChunk_loop fuel false chunk s = Filepath.matchChunk chunk s.
Proof. intros H. apply matchChunk_loop_fuel; [exact H | lia]. Qed.

Lemma skip_stars_spec (p : string) :
  (String.length (Filepath.skip_stars p).2 ≤ String.length p)%nat ∧
  Filepath.starts_with "*" (Filepath.skip_stars p).2 = false ∧
  ((Filepath.skip_stars p).1 = true →
   (String.length (Filepath.skip_stars p).2 < String.length p)%nat) ∧
  ((Filepath.skip_stars p).1 = false → (Filepath.skip_stars p).2 = p).
Proof.
  induction p as [|c p (IH1 & IH2 & _)];
    [cbn; repeat split; first [lia | reflexivity | intros H; discriminate H] |].
  cbn [Filepath.skip_stars]. destruct (Ascii.eqb c "*") eqn:E; cbn [fst snd].
  - cbn [String.length].
    split; [lia |]. split; [exact IH2 |]. split; [intros _; lia |].
    intros H. discriminate H.
  - split; [lia |]. split; [| split; [intros H; discriminate H | reflexivity]].
    cbn [Filepath.starts_with]. rewrite Ascii.eqb_sym. exact E.
Qed.

Lemma scan_rest_le (inrange : bool) (p : string) :
  (String.length (Filepath.scan inrange p).2 ≤ String.length p)%nat.
Proof.
  assert (H : ∀ n p inrange, (String.length p ≤ n)%nat →
            (String.length (Filepath.scan inrange p).2 ≤ String.length p)%nat).
  { clear. induction n as [|n IH]; intros [|c p] inrange Hn;
      try (cbn; lia); cbn [String.length] in *; [lia |].
    cbn [Filepath.scan].
    destruct (Ascii.eqb c Filepath.BACKSLASH).
    - destruct p as [|d p]; [cbn; lia |].
      cbn [Filepath.cons_chunk fst snd String.length] in *.
      specialize (IH p inrange ltac:(lia)). lia.
    - repeat match goal with
             | |- context [if ?b then _ else _] => destruct b
             end;
        cbn [Filepath.cons_chunk fst snd String.length];
        try (specialize (IH p true ltac:(lia)); lia);
        try (specialize (IH p false ltac:(lia)); lia);
        try (specialize (IH p inrange ltac:(lia)); lia); lia. }
  apply (H (String.length p)). lia.
Qed.

Lemma scan_progress (inrange : bool) (p : string) :
  p ≠ "" → Filepath.starts_with "*" p = false →
  (String.length (Filepath.scan inrange p).2 < String.length p)%nat.
Proof.
  destruct p as [|c p]; [congruence |]. intros _ Hs.
  cbn [Filepath.starts_with] in Hs. rewrite Ascii.eqb_sym in Hs.
  cbn [Filepath.scan]. rewrite Hs. cbn [andb].
  destruct (Ascii.eqb c Filepath.BACKSLASH).
  - destruct p as [|d p]; [cbn; lia |].
    cbn [Filepath.cons_chunk fst snd String.length].
    pose proof (scan_rest_le inrange p). lia.
  - repeat match goal with
           | |- context [if ?b then _ else _] => destruct b
           end;
      cbn [Filepath.cons_chunk fst snd String.length];
      match goal with
      | |- context [Filepath.scan ?b p] => pose proof (scan_rest_le b p); lia
      end.
Qed.

(** Every segment takes at least one byte of the pattern. *)
Lemma scanChunk_progress (p : string) :
  p ≠ "" →
  (String.length (Filepath.scanChunk p).2 < String.length p)%nat.
Proof.
  intros Hp. unfold Filepath.scanChunk. cbn [fst snd].
  destruct (skip_stars_spec p) as (Hle & Hstar & Hlt & Heq).
  destruct (Filepath.skip_stars p) as [[] q]; cbn [fst snd] in *.
  - pose proof (scan_rest_le false q). specialize (Hlt eq_refl). lia.
  - rewrite (Heq eq_refl) in *. apply scan_progress; assumption.
Qed.

Lemma rest_is_bad_fuel (fuel fuel' : nat) (pattern : string) :
  (String.length pattern ≤ fuel)%nat → (String.length pattern ≤ fuel')%nat →
  Filepath.rest_is_bad fuel pattern = Filepath.rest_is_bad fuel' pattern.
Proof.
  revert fuel' pattern.
  induction fuel as [|fuel IH]; intros fuel' pattern H1 H2.
  - destruct pattern; [| cbn [String.length] in H1; lia].
    destruct fuel'; reflexivity.
  - destruct pattern as [|c p]; [destruct fuel'; reflexivity |].
    destruct fuel' as [|fuel']; [cbn [String.length] in H2; lia |].
    cbn [Filepath.rest_is_bad]. cbv zeta.
    pose proof (scanChunk_progress (String c p) ltac:(discriminate)) as Hp.
    destruct (Filepath.matchChunk _ ""); try reflexivity; apply IH; lia.
Qed.

Lemma Match_loop_fuel (fuel fuel' : nat) (pattern name : string) :
  (String.length pattern ≤ fuel)%nat → (String.length pattern ≤ fuel')%nat →
  Filepath.Match_loop fuel pattern name = Filepath.Match_loop fuel' pattern name.
Proof.
  revert fuel' pattern name.
  induction fuel as [|fuel IH]; intros fuel' pattern name H1 H2.
  - destruct pattern; [| cbn [String.length] in H1; lia].
    destruct fuel'; reflexivity.
  - destruct pattern as [|c p]; [destruct fuel'; reflexivity |].
    destruct fuel' as [|fuel']; [cbn [String.length] in H2; lia |].
    cbn [Filepath.Match_loop]. cbv zeta.
    pose proof (scanChunk_progress (String c p) ltac:(discriminate)) as Hp.
    assert (Hrec : ∀ t, Filepath.Match_loop fuel (Filepath.scanChunk (String c p)).2 t
                        = Filepath.Match_loop fuel' (Filepath.scanChunk (String c p)).2 t).
    { intros t. apply IH; lia. }
    set (sc := Filepath.scanChunk (String c p)) in *.
    destruct (sc.1.1 && String.eqb sc.1.2 ""); [reflexivity |].
    destruct (Filepath.matchChunk sc.1.2 name) as [| |t]; [reflexivity | |].
    + destruct sc.1.1; [| reflexivity].
      destruct (Filepath.skip_search _ _ name);
        [reflexivity | reflexivity | apply Hrec].
    + destruct (String.eqb t "" || negb (String.eqb sc.2 "")); [apply Hrec |].
      destruct sc.1.1; [| reflexivity].
      destruct (Filepath.skip_search _ _ name);
        [reflexivity | reflexivity | apply Hrec].
Qed.

(** [Match] with any fuel that is not below the length of the pattern:
    the answer [None] of [Match] is always the bad pattern, never the end
    of the fuel. *)
Lemma Match_total (fuel : nat) (pattern name : string) :
  (String.length pattern ≤ fuel)%nat →
  Filepath.Match_loop fuel pattern name = Filepath.Match pattern name.
Proof. intros H. apply Match_loop_fuel; [exact H | lia]. Qed.

(** ** The claims on concrete runs *)

Import Demo.

(** The scenario of the specification, with the trailing separator on
    the input path: the tree it lists is built. *)
Example scenario_with_trailing_separator :
  let r := run no_fault gpg_fails cfg_slash input_fs in
  r.1 = Ret tt ∧
  file_at r "out/dists/termux/extras/binary-all/foo_1.0_all.deb" = Some "foo-bytes" ∧
  file_at r "out/dists/termux/bar/binary-arm/baz_2.0_arm.deb" = Some "baz-bytes" ∧
  contains (lines_at r "out/dists/termux/Release") "Components: bar extras" = true ∧
  contains (lines_at r "out/dists/termux/Release") "Architectures: all arm" = true.
Proof. vm_compute. repeat split. Qed.

Lemma C1_root_package_component_witness :
  Contains "foo_1.0_all.deb" "/" = false ∧
  componentOf cfg_bare ("debs" +:+ "/" +:+ "foo_1.0_all.deb") = "/".
Proof.
  split; [reflexivity |].
  apply (C1_root_package_component_without_trailing_separator
           "debs" "foo_1.0_all.deb" "out" "termux" "extras" false false).
  reflexivity.
Defined.

(** The same scenario without the trailing separator: the package of
    the input root is found by the glob under the path [debs/...], gets
    the component ["/"], and is materialized in [binary-all] directly under
    the distribution directory; nothing is put under the default
    component [extras]. *)
Example scenario_without_trailing_separator :
  let r := run no_fault gpg_fails cfg_bare input_fs in
  Glob no_fault input_fs (Filepath.Join [inputPath cfg_bare; "*.deb"]) =
    (["debs/foo_1.0_all.deb"], false) ∧
  componentOf cfg_bare "debs/foo_1.0_all.deb" = "/" ∧
  r.1 = Ret tt ∧
  file_at r "out/dists/termux/binary-all/foo_1.0_all.deb" = Some "foo-bytes" ∧
  fs r.2 !! "out/dists/termux/extras" = None ∧
  file_at r "out/dists/termux/extras/binary-all/foo_1.0_all.deb" = None.
Proof. vm_compute. repeat split. Qed.

(** C2 (what the code does where the claim fails): in the [Release] file
    of the scenario, the rows of [Packages] and [Packages.xz] give the
    path from the distribution directory, and the rows of the content
    indexes give the path as the glob returned it, with the output
    directory and [dists/termux] in front. *)
Theorem C2_content_index_rows_carry_the_full_path :
  let r := run no_fault gpg_fails cfg_slash input_fs in
  let rows := lines_at r "out/dists/termux/Release" in
  r.1 = Ret tt ∧
  contains rows " m5 161 extras/binary-all/Packages" = true ∧
  contains rows " m5 164 extras/binary-all/Packages.xz" = true ∧
  contains rows " m5 85 out/dists/termux/extras/Contents-all" = true ∧
  contains rows " m5 88 out/dists/termux/extras/Contents-all.xz" = true ∧
  contains rows " m5 85 extras/Contents-all" = false ∧
  contains rows " m5 88 extras/Contents-all.xz" = false.
Proof. vm_compute. repeat split. Qed.

(** C3 (what the code does where the claim fails): the materialized
    package of the scenario is lost after the tree is built ([os.Stat] and
    [os.Open] fail on it) while the shell still extracts its control
    text.  The run does not end there: it returns, and the [Packages]
    entry of the package has [Size: 0] and four empty digests. *)
Theorem C3_unreadable_package_gets_an_entry :
  let r := run lost_package gpg_fails cfg_slash input_fs in
  let deb := "out/dists/termux/extras/binary-all/foo_1.0_all.deb" in
  Stat lost_package (fs r.2) deb = StatErr ∧
  Open lost_package (fs r.2) deb = None ∧
  r.1 = Ret tt ∧
  file_at r "out/dists/termux/extras/binary-all/Packages" =
    Some (control_foo +:+ LF +:+
          "Filename: dists/termux/extras/binary-all/foo_1.0_all.deb" +:+ LF +:+
          "Size: 0" +:+ LF +:+
          "MD5Sum: " +:+ LF +:+ "SHA1: " +:+ LF +:+
          "SHA256: " +:+ LF +:+ "SHA512: " +:+ LF +:+ LF).
Proof. vm_compute. repeat split. Qed.

(** C4 (what the code does where the claim fails): with hard links, a
    package of the input root and one of the same file name in the
    subdirectory named like the default component go to the same place.
    The [os.Link] call of the second one fails, the link being there;
    [addDeb] goes on, the run returns with nothing on standard error, the
    file in the tree is still the first package, and the content index
    lists the files of that first package twice. *)
Theorem C4_failed_hard_link_is_ignored :
  let first := placeDeb no_fault sh cfg_links "debs/foo_1.0_all.deb" (start twice_fs) in
  let second := placeDeb no_fault sh cfg_links "debs/extras/foo_1.0_all.deb" first.2 in
  let r := run no_fault gpg_fails cfg_links twice_fs in
  let dest := "out/dists/termux/extras/binary-all/foo_1.0_all.deb" in
  first.1 = Ret tt ∧
  (Link no_fault (fs first.2) "debs/extras/foo_1.0_all.deb" dest).2 = false ∧
  second.1 = Ret tt ∧
  r.1 = Ret tt ∧ stderr r.2 = [] ∧
  file_at r dest = Some "foo-bytes" ∧
  file_at r "out/dists/termux/extras/Contents-all" =
    Some (pad80 "usr/bin/foo" +:+ " foo" +:+ LF +:+
          pad80 "usr/bin/foo" +:+ " foo" +:+ LF).
Proof. vm_compute. repeat split. Qed.

Lemma C5_missing_field_witness :
  let s := start (rebuilt_fs "nameless-bytes") in
  controlFileContents sh "debs/new_0.1_all.deb" s = (Ret control_nameless, s) ∧
  FindStringSubmatch "Package: " control_nameless !! 1 = None ∧
  addDeb no_fault sh cfg_slash "debs/new_0.1_all.deb" "extras" false s = (Panic, s).
Proof.
  split; [vm_compute; reflexivity |]. split; [vm_compute; reflexivity |].
  apply (C5_missing_field_panics_without_message no_fault sh cfg_slash
           "debs/new_0.1_all.deb" "extras" control_nameless false).
  - vm_compute. reflexivity.
  - left. vm_compute. reflexivity.
Defined.

(** The same for a control text with a [Package] line and no
    [Architecture] line, and on a whole run: the process panics, and its
    error stream is empty. *)
Example missing_architecture_panics :
  let r := run no_fault gpg_fails cfg_slash (rebuilt_fs "archless-bytes") in
  FindStringSubmatch "Package: " control_archless !! 1 = Some "odd" ∧
  FindStringSubmatch "Architecture: " control_archless = [] ∧
  r.1 = Panic ∧ stderr r.2 = [].
Proof. vm_compute. repeat split. Qed.



(** C7 (the claim fails): signing is asked for and the signer fails.
    The run returns and writes no [InRelease] file, but it reports nothing:
    its standard error is empty, and its standard output, the same as
    that of the run whose signer succeeds, holds the line printed before
    the signer is called and no line about its failure. *)
Lemma C7_signer_failure_is_not_logged :
  let failed := run no_fault gpg_fails cfg_sign input_fs in
  let signed := run no_fault gpg_ok cfg_sign input_fs in
  ¬ (failed.1 = Ret tt ∧
     (stdout failed.2 ≠ stdout signed.2 ∨ stderr failed.2 ≠ stderr signed.2)) ∧
  failed.1 = Ret tt ∧
  file_at failed "out/dists/termux/InRelease" = None ∧
  is_Some (file_at signed "out/dists/termux/InRelease") ∧
  stderr failed.2 = [] ∧
  stdout failed.2 =
    ["Adding deb file: foo_1.0_all.deb" +:+ LF;
     "Adding deb file: baz_2.0_arm.deb" +:+ LF;
     "Creating package file for extras and all" +:+ LF;
     "Creating package file for bar and arm" +:+ LF;
     "Signing with gpg..." +:+ LF;
     "Done!" +:+ LF;
     LF;
     "Make the out directory accessible at $REPO_URL" +:+ LF;
     LF;
     "Users can then access the repo by adding a file at" +:+ LF;
     "   $PREFIX/etc/apt/sources.list.d" +:+ LF;
     "containing:" +:+ LF;
     "   deb [trusted=yes] $REPO_URL termux bar" +:+ LF;
     "   deb [trusted=yes] $REPO_URL termux extras" +:+ LF;
     LF;
     "[trusted=yes] is not needed if the repo has been signed with a gpg key"
       +:+ LF].
Proof.
  split.
  - intros [_ [H | H]]; apply H; vm_compute; reflexivity.
  - vm_compute. repeat split. eexists. reflexivity.
Qed.

Lemma C7_signer_failure_witness :
  let failed := run no_fault gpg_fails cfg_sign input_fs in
  let signed := run no_fault gpg_ok cfg_sign input_fs in
  signRepo cfg_sign = true ∧
  failed.1 = signed.1 ∧ stdout failed.2 = stdout signed.2 ∧
  stderr failed.2 = stderr signed.2.
Proof.
  split; [reflexivity |].
  apply (proj1 (C7_signer_failure_neither_fatal_nor_reported no_fault sh
                  md5 sha1 sha256 sha512 xz_header xz_body now usage cfg_sign
                  gpg_fails gpg_ok (start input_fs) eq_refl)).
Defined.

(** C8 (what the code does where the claim fails): the Architecture
    field of the package is [x86_64], which is not a supported
    architecture, and its description ends in [Architecture: arm].  The
    pattern of [addDeb] is not tied to the start of a line and finds the
    description first: the architecture read is [arm], the run returns
    with nothing on standard error, the package is materialized under
    [binary-arm] and the manifest announces the architecture [arm]. *)
Theorem C8_architecture_read_from_another_line :
  let r := run no_fault gpg_fails cfg_slash masked_fs in
  spec_control_field "Architecture" control_masked = Some "x86_64" ∧
  contains supportedArches "x86_64" = false ∧
  FindStringSubmatch "Architecture: " control_masked !! 1 = Some "arm" ∧
  r.1 = Ret tt ∧ stderr r.2 = [] ∧
  file_at r "out/dists/termux/extras/binary-arm/qux_3.0_x86.deb" =
    Some "masked-bytes" ∧
  contains (lines_at r "out/dists/termux/Release") "Architectures: arm" = true.
Proof. vm_compute. repeat split. Qed.


(** On the whole run of that input: exit status 1, the message names the
    file, the package of the unsupported architecture is nowhere under
    the output directory, and the package placed before it is there. *)
Example unsupported_architecture_run :
  let r := run no_fault gpg_fails cfg_slash mixed_fs in
  r.1 = Exit 1 ∧
  stderr r.2 = ["Unsupported arch 'x86_64' in 'qux_3.0_x86.deb'" +:+ LF] ∧
  Glob no_fault (fs r.2) "out/dists/termux/*/*/*.deb" =
    (["out/dists/termux/extras/binary-all/foo_1.0_all.deb"], false) ∧
  Glob no_fault (fs r.2) "out/dists/termux/*" =
    (["out/dists/termux/extras"], false).
Proof. vm_compute. repeat split. Qed.

(** C9 (what the code does where the claim fails): the default
    component is written [extras/] and the input has a subdirectory
    [extras].  The package of the input root and the package of the
    subdirectory get the component names [extras/] and [extras], which
    name one directory.  The step of the first package removes the
    directory left by the earlier run and puts the package there; the
    step of the second package finds the other name not registered and
    removes the directory again, with the first package in it.  The run
    returns with nothing on standard error, and the first package is not
    in the tree. *)
Theorem C9_directory_removed_twice_under_two_names :
  let first := placeDeb no_fault sh cfg_alias "debs/foo_1.0_all.deb"
                 (start alias_fs) in
  let second := placeDeb no_fault sh cfg_alias "debs/extras/baz_2.0_arm.deb"
                  first.2 in
  let r := run no_fault gpg_fails cfg_alias alias_fs in
  Glob no_fault alias_fs (Filepath.Join [inputPath cfg_alias; "*.deb"]) =
    (["debs/foo_1.0_all.deb"], false) ∧
  Glob no_fault alias_fs (Filepath.Join [inputPath cfg_alias; "*/*.deb"]) =
    (["debs/extras/baz_2.0_arm.deb"], false) ∧
  componentOf cfg_alias "debs/foo_1.0_all.deb" = "extras/" ∧
  componentOf cfg_alias "debs/extras/baz_2.0_arm.deb" = "extras" ∧
  Filepath.Join [distributionPath cfg_alias; "extras/"] =
    "out/dists/termux/extras" ∧
  Filepath.Join [distributionPath cfg_alias; "extras"] =
    "out/dists/termux/extras" ∧
  is_file alias_fs "out/dists/termux/extras/binary-all/old_0.9_all.deb" = true ∧
  first.1 = Ret tt ∧
  fs first.2 !! "out/dists/termux/extras/binary-all/old_0.9_all.deb" = None ∧
  file_at first "out/dists/termux/extras/binary-all/foo_1.0_all.deb" =
    Some "foo-bytes" ∧
  second.1 = Ret tt ∧
  COMPONENTS second.2 = ["extras/"; "extras"] ∧
  fs second.2 !! "out/dists/termux/extras/binary-all/foo_1.0_all.deb" = None ∧
  fs second.2 !! "out/dists/termux/extras/binary-all" = None ∧
  r.1 = Ret tt ∧ stderr r.2 = [] ∧
  file_at r "out/dists/termux/extras/binary-all/foo_1.0_all.deb" = None ∧
  file_at r "out/dists/termux/extras/binary-arm/baz_2.0_arm.deb" =
    Some "baz-bytes" ∧
  contains (lines_at r "out/dists/termux/Release") "Architectures: all arm"
    = true.
Proof. vm_compute. repeat split. Qed.



(** On the whole run of that input: the process panics and the tree of
    [extras] left by the earlier run is gone. *)
Example failed_classification_run :
  let before := rebuilt_fs "nameless-bytes" in
  let r := run no_fault gpg_fails cfg_slash before in
  is_file before "out/dists/termux/extras/binary-all/old_0.9_all.deb" = true ∧
  r.1 = Panic ∧
  fs r.2 !! "out/dists/termux/extras" = None ∧
  fs r.2 !! "out/dists/termux/extras/binary-all/old_0.9_all.deb" = None ∧
  fs r.2 !! "out/dists/termux/extras/Contents-all" = None.
Proof. vm_compute. repeat split. Qed.

(** ** Checks of the path functions *)

Module PathExamples.
Import GoStrings Utf8 Filepath.

Example clean_double_slash : Clean "debs//*.deb" = "debs/*.deb".
Proof. reflexivity. Qed.
Example clean_dotdot : Clean "a/../../b/./c/" = "../b/c".
Proof. reflexivity. Qed.
Example clean_root_dotdot : Clean "/../a//b/.." = "/a".
Proof. reflexivity. Qed.
Example clean_empty : Clean "" = ".".
Proof. reflexivity. Qed.
Example dir_of_name : Dir "foo.deb" = ".".
Proof. reflexivity. Qed.
Example dir_of_rooted_name : Dir "/foo.deb" = "/".
Proof. reflexivity. Qed.
Example dir_of_nested : Dir "bar/baz.deb" = "bar".
Proof. reflexivity. Qed.
Example base_of_path : Base "debs/bar/baz_2.0_arm.deb" = "baz_2.0_arm.deb".
Proof. reflexivity. Qed.
Example base_of_slashes : Base "///" = "/".
Proof. reflexivity. Qed.
Example join_drops_empty : Join [""; "a"; ""; "b/"] = "a/b".
Proof. reflexivity. Qed.
Example join_slash_component :
  Join ["out/dists/termux"; "/"; "binary-all"] = "out/dists/termux/binary-all".
Proof. reflexivity. Qed.
Example match_deb : Match "*.deb" "foo_1.0_all.deb" = Some true.
Proof. reflexivity. Qed.
Example match_not_deb : Match "*.deb" "Packages" = Some false.
Proof. reflexivity. Qed.
Example match_binary : Match "binary-*" "binary-aarch64" = Some true.
Proof. reflexivity. Qed.
Example match_star_stops_at_separator : Match "a*" "ab/c" = Some false.
Proof. reflexivity. Qed.
Example match_stars : Match "a*b?c*x" "abxbbxdbxebxczzx" = Some true.
Proof. reflexivity. Qed.
Example match_class : Match "ab[b-d]" "abc" = Some true.
Proof. reflexivity. Qed.
Example match_negated_class : Match "ab[^b-d]" "abc" = Some false.
Proof. reflexivity. Qed.
Example match_escaped_star : Match "a\*b" "a*b" = Some true.
Proof. reflexivity. Qed.
Example match_question_mark_takes_a_rune : Match "a?b" "a☺b" = Some true.
Proof. reflexivity. Qed.
Example match_class_of_runes : Match "[a-ζ]*" "α" = Some true.
Proof. reflexivity. Qed.
Example match_open_bracket : Match "a[" "x" = None.
Proof. reflexivity. Qed.
Example match_empty_range : Match "[x-]" "z" = None.
Proof. reflexivity. Qed.
Example match_bracket_in_input_path : Match "debs[/*.deb" "" = None.
Proof. reflexivity. Qed.
Example match_bad_rest_after_failure : Match "a*[" "" = None.
Proof. reflexivity. Qed.
Example runes_of_ascii : RuneCountInString "usr/bin/foo" = 11%nat.
Proof. reflexivity. Qed.
Example runes_of_two_byte_letters : RuneCountInString "αβγ" = 3%nat.
Proof. reflexivity. Qed.
Example pad_counts_runes :
  String.length (GoFmt.pad80 "αβγ") = 83%nat.
Proof. reflexivity. Qed.
Example remove_refuses_dot : OS.endsWithDot "out/." = true.
Proof. reflexivity. Qed.
Example trim_prefix_keeps_slash :
  TrimPrefix "debs/foo.deb" "debs" = "/foo.deb".
Proof. reflexivity. Qed.
Example split_underscore :
  Split "foo_1.0_all.deb" "_"%char = ["foo"; "1.0"; "all.deb"].
Proof. reflexivity. Qed.
End PathExamples.

(** * Further properties of the program *)

(** ** The pure helpers *)

Lemma HasPrefix_one_char (c d : ascii) (s : string) :
  HasPrefix (String c s) (String d EmptyString) = Ascii.eqb d c.
Proof.
  unfold HasPrefix.
  change (String.prefix (String d EmptyString) (String c s))
    with (match ascii_dec d c with
          | left _ => String.prefix "" s
          | right _ => false
          end).
  destruct (ascii_dec d c) as [<-|Hne].
  - rewrite prefix_empty, Ascii.eqb_refl. reflexivity.
  - destruct (Ascii.eqb_spec d c); congruence.
Qed.

Lemma Contains_one_char_cons (c d : ascii) (s : string) :
  Contains (String c s) (String d EmptyString) =
  Ascii.eqb d c || Contains s (String d EmptyString).
Proof.
  change (Contains (String c s) (String d EmptyString))
    with (HasPrefix (String c s) (String d EmptyString) ||
          Contains s (String d EmptyString)).
  rewrite HasPrefix_one_char. reflexivity.
Qed.

Lemma HasPrefix_cons (c : ascii) (p s : string) :
  HasPrefix (String c s) (String c p) = HasPrefix s p.
Proof.
  unfold HasPrefix.
  change (String.prefix (String c p) (String c s))
    with (match ascii_dec c c with
          | left _ => String.prefix p s
          | right _ => false
          end).
  destruct (ascii_dec c c); [reflexivity | congruence].
Qed.

(** The first element of a split: it has no separator, and the string
    is that element alone or goes on with the separator after it. *)
Lemma Split_head (s : string) (sep : ascii) :
  ∃ h t, Split s sep = h :: t ∧
         Contains h (String sep EmptyString) = false ∧
         (h = s ∨ HasPrefix s (h +:+ String sep EmptyString) = true).
Proof.
  induction s as [|c s (h & t & E & Hn & Hp)].
  - exists "", []. repeat split. left. reflexivity.
  - cbn [Split]. destruct (Ascii.eqb_spec c sep) as [->|Hne].
    + exists "", (Split s sep). repeat split. right.
      rewrite append_nil, HasPrefix_cons. unfold HasPrefix.
      apply prefix_empty.
    + rewrite E. exists (String c h), t. split; [reflexivity |]. split.
      * rewrite Contains_one_char_cons, Hn.
        destruct (Ascii.eqb_spec sep c); [congruence | reflexivity].
      * destruct Hp as [-> | Hp]; [left; reflexivity | right].
        rewrite append_cons, HasPrefix_cons. exact Hp.
Qed.

(** X22: [getPackageName] gives the part of a file name before its first
    underscore: the result has no underscore, and the file name is the
    result itself (a name without underscore) or the result followed by
    an underscore and more. *)
Theorem getPackageName_is_the_text_before_the_first_underscore
    (filename : string) :
  Contains (getPackageName filename) "_" = false ∧
  (getPackageName filename = filename ∨
   HasPrefix filename (getPackageName filename +:+ "_") = true).
Proof.
  unfold getPackageName.
  destruct (Split_head filename "_"%char) as (h & t & E & Hn & Hp).
  rewrite E. split; assumption.
Qed.

(** X21: [contains] is the membership test of the slice: it answers [true]
    exactly for the strings that occur in it. *)
Theorem contains_true_iff_member (slice : list string) (item : string) :
  contains slice item = true ↔ item ∈ slice.
Proof.
  induction slice as [|v slice IH]; cbn [contains].
  - split; [discriminate | intros H; inversion H].
  - destruct (String.eqb_spec v item) as [->|Hne].
    + split; [intros _; constructor | reflexivity].
    + rewrite IH. split; [intros H; constructor; exact H |].
      intros H. inversion H; subst; [congruence | assumption].
Qed.

Lemma line_of_has_no_line_feed (s : string) :
  Contains (line_of s) LF = false.
Proof.
  induction s as [|c s IH]; [reflexivity |].
  cbn [line_of]. destruct (Ascii.eqb_spec c (ascii_of_nat 10)) as [->|Hne].
  - reflexivity.
  - unfold LF in *. rewrite Contains_one_char_cons, IH.
    destruct (Ascii.eqb_spec (ascii_of_nat 10) c); [congruence | reflexivity].
Qed.

Lemma FindStringSubmatch_unfold (label text : string) :
  FindStringSubmatch label text =
  if HasPrefix text label then
    [label +:+ line_of (drop_chars (String.length label) text);
     line_of (drop_chars (String.length label) text)]
  else match text with
       | EmptyString => []
       | String _ text' => FindStringSubmatch label text'
       end.
Proof. destruct text; reflexivity. Qed.

Lemma Contains_unfold (s sub : string) :
  Contains s sub =
  HasPrefix s sub || match s with
                     | EmptyString => false
                     | String _ s' => Contains s' sub
                     end.
Proof. destruct s; reflexivity. Qed.

Lemma FindStringSubmatch_shape (label text : string) :
  (FindStringSubmatch label text !! 1 = None ↔ Contains text label = false) ∧
  (∀ v, FindStringSubmatch label text !! 1 = Some v →
        Contains v LF = false ∧
        FindStringSubmatch label text = [label +:+ v; v]).
Proof.
  induction text as [|c text [IH1 IH2]].
  - rewrite FindStringSubmatch_unfold, Contains_unfold.
    destruct (HasPrefix "" label); cbn.
    + split; [split; discriminate |].
      intros v [= <-]. split; [apply line_of_has_no_line_feed | reflexivity].
    + split; [split; reflexivity | discriminate].
  - rewrite FindStringSubmatch_unfold, Contains_unfold.
    destruct (HasPrefix (String c text) label); cbn [orb].
    + split; [split; discriminate |].
      intros v [= <-]. split; [apply line_of_has_no_line_feed | reflexivity].
    + split; [exact IH1 | exact IH2].
Qed.

Lemma HasPrefix_cons_inv (s p : string) (c : ascii) :
  HasPrefix s (String c p) = true →
  ∃ s', s = String c s' ∧ HasPrefix s' p = true.
Proof.
  destruct s as [|d s]; [discriminate |].
  unfold HasPrefix.
  change (String.prefix (String c p) (String d s))
    with (match ascii_dec c d with
          | left _ => String.prefix p s
          | right _ => false
          end).
  destruct (ascii_dec c d) as [<-|]; [| discriminate].
  intros H. exists s. split; [reflexivity | exact H].
Qed.

(** A string that starts with [p] is [p] and what is left after it. *)
Lemma HasPrefix_splits (s p : string) :
  HasPrefix s p = true → s = p +:+ drop_chars (String.length p) s.
Proof.
  revert s. induction p as [|c p IH]; intros s H; [reflexivity |].
  apply HasPrefix_cons_inv in H as (s' & -> & H).
  rewrite append_cons. cbn [String.length drop_chars]. f_equal. apply IH, H.
Qed.

(** A string is its first line and the rest, which is empty or starts
    with the line feed. *)
Lemma line_of_splits (s : string) :
  ∃ after, s = line_of s +:+ after ∧ (after = "" ∨ HasPrefix after LF = true).
Proof.
  induction s as [|c s (after & E & H)].
  - exists "". split; [reflexivity | left; reflexivity].
  - cbn [line_of]. destruct (Ascii.eqb_spec c (ascii_of_nat 10)) as [->|Hne].
    + exists (String (ascii_of_nat 10) s). split; [reflexivity | right].
      unfold LF. rewrite HasPrefix_cons. unfold HasPrefix. apply prefix_empty.
    + exists after. split; [| exact H].
      rewrite append_cons. f_equal. exact E.
Qed.

Lemma FindStringSubmatch_first_occurrence (label text v : string) :
  FindStringSubmatch label text !! 1 = Some v →
  ∃ before after,
    text = before +:+ label +:+ v +:+ after ∧
    (after = "" ∨ HasPrefix after LF = true) ∧
    ∀ n, n < String.length before →
         HasPrefix (drop_chars n text) label = false.
Proof.
  assert (Hhere : ∀ t, HasPrefix t label = true →
            ∃ after,
              t = "" +:+ label +:+
                  line_of (drop_chars (String.length label) t) +:+ after ∧
              (after = "" ∨ HasPrefix after LF = true)).
  { intros t Ht.
    destruct (line_of_splits (drop_chars (String.length label) t))
      as (after & E & H).
    exists after. split; [| exact H].
    rewrite append_nil, <- E. apply HasPrefix_splits, Ht. }
  induction text as [|c text IH]; rewrite FindStringSubmatch_unfold.
  - destruct (HasPrefix "" label) eqn:E; [| discriminate].
    intros [= <-]. destruct (Hhere "" E) as (after & Ht & Ha).
    exists "", after. split; [exact Ht |]. split; [exact Ha |].
    intros n Hn. inversion Hn.
  - destruct (HasPrefix (String c text) label) eqn:E.
    + intros [= <-]. destruct (Hhere _ E) as (after & Ht & Ha).
      exists "", after. split; [exact Ht |]. split; [exact Ha |].
      intros n Hn. inversion Hn.
    + intros Hv. destruct (IH Hv) as (before & after & Ht & Ha & Hfirst).
      exists (String c before), after. split; [| split; [exact Ha |]].
      * rewrite append_cons. f_equal. exact Ht.
      * intros [|n] Hn; [exact E |]. cbn [drop_chars]. apply Hfirst.
        cbn [String.length] in Hn. lia.
Qed.

(** X5: the match that [addDeb] indexes is empty exactly when the label
    occurs nowhere in the control text (at the start of a line or not).
    When the label occurs, the value taken is what stands between the
    first occurrence of the label and the end of that line: the text is
    [before], the label, the value and [after], the label starts at no
    place inside [before], the value has no line feed in it, and [after]
    is empty or starts with the line feed. *)
Theorem FindStringSubmatch_matches_the_first_occurrence
    (label text : string) :
  (FindStringSubmatch label text !! 1 = None ↔ Contains text label = false) ∧
  (∀ v, FindStringSubmatch label text !! 1 = Some v →
        FindStringSubmatch label text = [label +:+ v; v] ∧
        Contains v LF = false ∧
        ∃ before after,
          text = before +:+ label +:+ v +:+ after ∧
          (after = "" ∨ HasPrefix after LF = true) ∧
          ∀ n, n < String.length before →
               HasPrefix (drop_chars n text) label = false).
Proof.
  destruct (FindStringSubmatch_shape label text) as [H1 H2].
  split; [exact H1 |].
  intros v Hv. destruct (H2 v Hv) as [Hlf Hshape].
  split; [exact Hshape |]. split; [exact Hlf |].
  apply FindStringSubmatch_first_occurrence, Hv.
Qed.

Lemma lookup_path_file (f : gmap string node) (path data : string) :
  lookup_path f path = Some (NFile data) ↔
  is_top (key path) = false ∧ f !! key path = Some (NFile data).
Proof.
  unfold lookup_path. destruct (is_top (key path)).
  - split; [discriminate | intros [? _]; discriminate].
  - split; [auto | intros [_ H]; exact H].
Qed.

(** ** The helpers that read and write files *)

(** What is left of a listed path after the leading [./] is dropped is
    still a path that is not empty and does not end in a separator. *)
Lemma TrimPrefix_keeps_a_file_path (file : string) :
  file ≠ "" → last_char file ≠ Some "/"%char →
  TrimPrefix file "./" ≠ "" ∧ last_char (TrimPrefix file "./") ≠ Some "/"%char.
Proof.
  intros Hne Hlast. unfold TrimPrefix.
  destruct (HasPrefix file "./") eqn:E; [| split; assumption].
  apply HasPrefix_cons_inv in E as (s1 & -> & E).
  apply HasPrefix_cons_inv in E as (s2 & -> & _).
  cbn [String.length drop_chars].
  destruct s2 as [|c s2]; [destruct Hlast; reflexivity |].
  split; [discriminate | exact Hlast].
Qed.

Lemma same_but_fs_refl s : same_but_fs s s.
Proof. repeat split. Qed.

Lemma same_but_fs_set_fs f s1 s :
  same_but_fs s1 s → same_but_fs (set_fs f s1) s.
Proof. intros H. exact H. Qed.

Section Helpers.
Variable fault : syscall → string → bool.
Variable sh : gmap string node → string → gmap string node * option string.
Variables md5_Sum sha1_Sum sha256_Sum sha512_Sum : string → string.
Variable xz_header : string.
Variable xz_body : string → string.
Variable cfg : flags.

Lemma runShellCommand_outcome (cmd : string) (s : state) :
  ∃ out s1, runShellCommand sh cmd s = (Ret out, s1) ∧ same_but_fs s1 s.
Proof. eexists _, _. split; [reflexivity | repeat split]. Qed.

Lemma controlFileContents_outcome (debfile : string) (s : state) :
  ∃ s1, same_but_fs s1 s ∧
    ((∃ control, controlFileContents sh debfile s = (Ret control, s1)) ∨
     (∃ what, controlFileContents sh debfile s =
                (Exit 1,
                 add_stderr (what +:+ "'" +:+ debfile +:+ "'" +:+ LF) s1))).
Proof.
  unfold controlFileContents.
  destruct (runShellCommand_outcome ("ar t " +:+ debfile) s)
    as ([fileList|] & s1 & E1 & S1); rewrite (bind_Ret _ _ _ _ _ E1).
  2:{ exists s1. split; [exact S1 | right].
      exists "Error listing contents of ". reflexivity. }
  assert (Hcmd : ∀ cmd,
            ∃ s2, same_but_fs s2 s ∧
              ((∃ control,
                  bind (runShellCommand sh cmd)
                    (fun contents =>
                       match contents with
                       | None =>
                           Fprintf_stderr
                             ("Error extracting control file from '" +:+
                              debfile +:+ "'" +:+ LF) >> os_Exit 1
                       | Some contents => ret contents
                       end) s1 = (Ret control, s2)) ∨
               (∃ what,
                  bind (runShellCommand sh cmd)
                    (fun contents =>
                       match contents with
                       | None =>
                           Fprintf_stderr
                             ("Error extracting control file from '" +:+
                              debfile +:+ "'" +:+ LF) >> os_Exit 1
                       | Some contents => ret contents
                       end) s1 =
                  (Exit 1,
                   add_stderr (what +:+ "'" +:+ debfile +:+ "'" +:+ LF) s2)))).
  { intros cmd.
    destruct (runShellCommand_outcome cmd s1) as ([contents|] & s2 & E2 & S2);
      rewrite (bind_Ret _ _ _ _ _ E2); exists s2;
      (split; [destruct S1 as (? & ? & ? & ?), S2 as (? & ? & ? & ?);
               repeat split; congruence |]).
    - left. eexists. reflexivity.
    - right. exists "Error extracting control file from ". reflexivity. }
  destruct (Contains fileList "control.tar.gz").
  - rewrite (bind_Ret (ret _) _ s1 s1 _ eq_refl). cbv zeta. cbn [fst snd].
    apply Hcmd.
  - destruct (Contains fileList "control.tar.xz").
    + rewrite (bind_Ret (ret _) _ s1 s1 _ eq_refl). cbv zeta. cbn [fst snd].
      apply Hcmd.
    + exists s1. split; [exact S1 | right].
      exists "Failed to find control file in ". reflexivity.
Qed.

(** X3: [controlFileContents] returns the control text, or it ends the
    run with status 1 after one message on standard error that names the
    package file; it never panics.  What the shell commands do to the
    file system apart, it leaves the state as it was: in the state [s1]
    it ends in, standard output, [COMPONENTS] and the encountered
    architectures are those it started with, and so is standard error
    before the message. *)
Theorem controlFileContents_returns_or_exits_naming_the_file
    (debfile : string) (s : state) :
  ∃ s1, same_but_fs s1 s ∧
    ((∃ control, controlFileContents sh debfile s = (Ret control, s1)) ∨
     (∃ what, controlFileContents sh debfile s =
                (Exit 1,
                 add_stderr (what +:+ "'" +:+ debfile +:+ "'" +:+ LF) s1))).
Proof. apply controlFileContents_outcome. Qed.

(** X4: [listPackageFiles] returns only paths that are not empty and do
    not end in a separator (the directories of the listing and its empty
    lines are left out), or it ends the run with status 1 after a message
    that names the package file; what the shell command does to the file
    system apart, the state is left as it was. *)
Theorem listPackageFiles_lists_no_directory (debfile : string) (s : state) :
  ∃ s1, same_but_fs s1 s ∧
    ((∃ files, listPackageFiles sh debfile s = (Ret files, s1) ∧
               ∀ f, In f files → f ≠ "" ∧ last_char f ≠ Some "/"%char) ∨
     listPackageFiles sh debfile s =
       (Exit 1, add_stderr ("Error listing package files for '" +:+ debfile +:+
                            "'" +:+ LF) s1)).
Proof.
  unfold listPackageFiles.
  destruct (runShellCommand_outcome
              ("ar p " +:+ debfile +:+ " data.tar.xz | tar -tJ") s)
    as ([allContent|] & s1 & E1 & S1); rewrite (bind_Ret _ _ _ _ _ E1);
    exists s1; (split; [exact S1 |]); [left | right; reflexivity].
  eexists. split; [reflexivity |].
  intros f Hf. apply in_map_iff in Hf as (file & <- & Hin).
  apply filter_In in Hin as [_ Hkeep].
  apply andb_true_iff in Hkeep as [Hlen Hlast].
  apply TrimPrefix_keeps_a_file_path.
  - intros ->. discriminate Hlen.
  - intros Heq. rewrite bool_decide_eq_true_2 in Hlast by exact Heq.
    discriminate Hlast.
Qed.

(** What [os.Create] leaves when it succeeds. *)
Lemma Create_succeeded (f : gmap string node) (path : string) :
  (Create fault f path).2 = true →
  (Create fault f path).1 = <[key path := NFile ""]> f.
Proof.
  unfold Create. destruct (fault SysCreate path); [discriminate |].
  destruct (writable_target f path); [reflexivity | discriminate].
Qed.

(** A write to a file whose entry has just been set. *)
Lemma append_file_inserted (f : gmap string node) (path old t : string) :
  append_file (<[key path := NFile old]> f) path t =
  <[key path := NFile (old +:+ t)]> f.
Proof.
  unfold append_file. rewrite lookup_insert_eq. apply insert_insert_eq.
Qed.

(** The bytes read from an open regular file after another path has
    been created: the file as it was, or nothing when the path created
    is the file itself. *)
Lemma read_after_Create (f : gmap string node) (src dst at_open more : string) :
  lookup_path f src = Some (NFile at_open) →
  match lookup_path (<[key dst := NFile more]> f) src with
  | Some (NFile data) => Some data
  | _ => Some at_open
  end = Some (if decide (key src = key dst) then more else at_open).
Proof.
  intros H. apply lookup_path_file in H as [Htop H].
  unfold lookup_path. rewrite Htop.
  destruct (decide (key src = key dst)) as [->|Hne].
  - rewrite lookup_insert_eq. reflexivity.
  - rewrite lookup_insert_ne by congruence. rewrite H. reflexivity.
Qed.

Lemma Open_found (f : gmap string node) (path : string) (n : node) :
  Open fault f path = Some n → lookup_path f path = Some n.
Proof. unfold Open. destruct (fault SysOpen path); [discriminate | auto]. Qed.

Lemma copyFile_outcome (src dst : string) (s : state) :
  (∃ err s', copyFile fault src dst s = (Ret err, s')) ∧
  ∀ s', copyFile fault src dst s = (Ret false, s') →
        ∃ data, Open fault (fs s) src = Some (NFile data) ∧
                fs s' !! key dst =
                  Some (NFile (if decide (key src = key dst) then ""
                               else data)) ∧
                same_but_fs s' s ∧
                ∀ k, k ≠ key dst → fs s' !! k = fs s !! k.
Proof.
  unfold copyFile, bind, os_Open, os_Create, read_open, os_Sync, Fprint_file,
    ret.
  destruct (Open fault (fs s) src) as [[|data]|] eqn:Ho; cbn [fst snd].
  - split; [destruct (Create fault (fs s) dst) as [f []]; cbn; eauto |].
    intros s'. destruct (Create fault (fs s) dst) as [f []]; cbn; discriminate.
  - pose proof (Create_succeeded (fs s) dst) as Hc.
    destruct (Create fault (fs s) dst) as [f []]; cbn [fst snd negb] in *;
      [| split; [eauto | discriminate]].
    rewrite (Hc eq_refl). cbn [fs set_fs].
    rewrite (read_after_Create _ _ _ _ _ (Open_found _ _ _ Ho)).
    cbn [fst snd fs set_fs].
    split; [eauto |]. intros s'.
    destruct (fault SysSync dst); cbn [negb]; [discriminate |].
    intros [= <-]. exists data.
    split; [reflexivity |]. cbn [fs set_fs].
    rewrite append_file_inserted, append_nil. split; [| split].
    + rewrite lookup_insert_eq. reflexivity.
    + repeat split.
    + intros k Hk. rewrite lookup_insert_ne by congruence. reflexivity.
  - split; [eauto | discriminate].
Qed.

(** X9: [copyFile] never ends the run.  When it reports no error, the
    source was a regular file that could be opened, no path but the
    destination has changed, and the destination holds the bytes of the
    source, unless the two paths name one file: the destination is
    created, and so emptied, before the source is read, and a file copied
    onto itself is left empty. *)
Theorem copyFile_copies_the_bytes (src dst : string) (s : state) :
  (∃ err s', copyFile fault src dst s = (Ret err, s')) ∧
  ∀ s', copyFile fault src dst s = (Ret false, s') →
        ∃ data, Open fault (fs s) src = Some (NFile data) ∧
                (key src ≠ key dst → fs s' !! key dst = Some (NFile data)) ∧
                (key src = key dst → fs s' !! key dst = Some (NFile "")) ∧
                ∀ k, k ≠ key dst → fs s' !! k = fs s !! k.
Proof.
  destruct (copyFile_outcome src dst s) as [H1 H2]. split; [exact H1 |].
  intros s' H. destruct (H2 s' H) as (data & Ho & Hd & _ & Hk).
  exists data. split; [exact Ho |].
  destruct (decide (key src = key dst)) as [E|E].
  - split; [intros Hne; destruct (Hne E) |]. split; [intros _; exact Hd | exact Hk].
  - split; [intros _; exact Hd |]. split; [intros E'; destruct (E E') | exact Hk].
Qed.

Lemma compressXz_outcome (input output : string)
    (r : result unit) (s s' : state) :
  compressXz fault xz_header xz_body input output s = (r, s') →
  (r = Ret tt ∧
   ∃ at_open, Open fault (fs s) input = Some (NFile at_open) ∧
     fs s' !! key output =
       Some (NFile (xz_header +:+
                    xz_body (if decide (key input = key output)
                             then xz_header else at_open))) ∧
     ∀ k, k ≠ key output → fs s' !! k = fs s !! k) ∨
  (r = Exit 1 ∧
   ∃ msg, stderr s' = stderr s ++ [msg] ∧
          (Open fault (fs s) input = Some NDir →
           (Create fault (fs s) output).2 = true →
           msg = "Error compressing file to xz: read " +:+ input +:+
                 ": is a directory" +:+ LF ∧
           fs s' !! key output = Some (NFile xz_header))).
Proof.
  unfold compressXz, bind, os_Open, os_Create, read_open, Fprint_file,
    Fprintf_stderr, os_Exit, ret.
  destruct (Open fault (fs s) input) as [[|data]|] eqn:Ho; cbn [fst snd].
  - pose proof (Create_succeeded (fs s) output) as Hc.
    destruct (Create fault (fs s) output) as [f []]; cbn [fst snd negb] in *.
    + intros [= <- <-]. right. split; [reflexivity |]. eexists.
      split; [reflexivity |]. intros _ _. split; [reflexivity |].
      rewrite (Hc eq_refl). cbn [fs set_fs add_stderr].
      rewrite append_file_inserted, lookup_insert_eq. reflexivity.
    + intros [= <- <-]. right. split; [reflexivity |]. eexists.
      split; [reflexivity |]. intros _ H. discriminate H.
  - pose proof (Create_succeeded (fs s) output) as Hc.
    destruct (Create fault (fs s) output) as [f []]; cbn [fst snd negb] in *.
    2:{ intros [= <- <-]. right. split; [reflexivity |]. eexists.
        split; [reflexivity |]. intros H. discriminate H. }
    rewrite (Hc eq_refl). cbn [fs set_fs].
    rewrite !append_file_inserted, append_nil.
    rewrite (read_after_Create _ _ _ _ _ (Open_found _ _ _ Ho)).
    cbn [fst snd fs set_fs].
    intros [= <- <-]. left. split; [reflexivity |]. exists data.
    split; [reflexivity |]. cbn [fs set_fs].
    rewrite append_file_inserted. split.
    + rewrite lookup_insert_eq. reflexivity.
    + intros k Hk. rewrite lookup_insert_ne by congruence. reflexivity.
  - intros [= <- <-]. right. split; [reflexivity |]. eexists.
    split; [reflexivity |]. intros H. discriminate H.
Qed.

(** X16: [compressXz] never panics.  When it returns for an output that
    is another file than the input, the input was a regular file that
    could be opened, the output holds the encoding of exactly its bytes
    (the head of the stream, then what the encoder writes for them) and
    no other path has changed.  Otherwise it ends the run with status 1
    after one message on standard error; when the input is a directory
    and the output could be created, the message is the error of the
    read and the output is left with the head of the stream in it. *)
Theorem compressXz_writes_the_encoding (input output : string)
    (r : result unit) (s s' : state) :
  key input ≠ key output →
  compressXz fault xz_header xz_body input output s = (r, s') →
  (r = Ret tt ∧
   ∃ data, Open fault (fs s) input = Some (NFile data) ∧
           fs s' !! key output = Some (NFile (xz_header +:+ xz_body data)) ∧
           ∀ k, k ≠ key output → fs s' !! k = fs s !! k) ∨
  (r = Exit 1 ∧
   ∃ msg, stderr s' = stderr s ++ [msg] ∧
          (Open fault (fs s) input = Some NDir →
           (Create fault (fs s) output).2 = true →
           msg = "Error compressing file to xz: read " +:+ input +:+
                 ": is a directory" +:+ LF ∧
           fs s' !! key output = Some (NFile xz_header))).
Proof.
  intros Hne Hrun.
  destruct (compressXz_outcome input output r s s' Hrun)
    as [(Hr & data & Ho & Hd & Hk) | H]; [left | right; exact H].
  split; [exact Hr |]. exists data.
  rewrite decide_False in Hd by exact Hne. auto.
Qed.

End Helpers.

(** ** Sizes and digests *)

Lemma append_empty_r (a : string) : a +:+ "" = a.
Proof.
  induction a as [|c a IH]; [reflexivity |].
  rewrite append_cons, IH. reflexivity.
Qed.

Lemma no_panic_bind {A B} (m : M A) (k : A → M B) :
  no_panic m → (∀ a, no_panic (k a)) → no_panic (bind m k).
Proof.
  intros Hm Hk s. unfold bind. specialize (Hm s).
  destruct (m s) as [[a|c|] s']; cbn [fst] in *;
    [apply Hk | discriminate | congruence].
Qed.

Lemma no_panic_forRange {A} (l : list A) (body : A → M unit) :
  (∀ x, no_panic (body x)) → no_panic (forRange l body).
Proof.
  intros Hb. induction l as [|x l IH]; cbn [forRange].
  - intros s. discriminate.
  - apply no_panic_bind; auto.
Qed.

Ltac no_panic_step :=
  cbv zeta;
  match goal with
  | |- no_panic (bind _ _) => apply no_panic_bind; [| intros ?]
  | |- no_panic (forRange _ _) => apply no_panic_forRange; intros ?
  | |- no_panic (match ?x with _ => _ end) => destruct x
  | |- no_panic _ => solve [intros ?; discriminate]
  end.

Section Entries.
Variable fault : syscall → string → bool.
Variable sh : gmap string node → string → gmap string node * option string.
Variables md5_Sum sha1_Sum sha256_Sum sha512_Sum : string → string.
Variable cfg : flags.

Lemma no_panic_controlFileContents debfile :
  no_panic (controlFileContents sh debfile).
Proof. unfold controlFileContents. repeat no_panic_step. Qed.

Lemma no_panic_listPackageFiles debfile :
  no_panic (listPackageFiles sh debfile).
Proof. unfold listPackageFiles. repeat no_panic_step. Qed.

Lemma no_panic_copyFile src dst : no_panic (copyFile fault src dst).
Proof. unfold copyFile. repeat no_panic_step. Qed.

(** X6: given the control text of a package, [addDeb] panics exactly
    when the text has no [Package: ] or no [Architecture: ] in it; every
    other failure of [addDeb] is an [os.Exit]. *)
Theorem addDeb_panics_exactly_on_a_missing_field
    (debPath component control : string) (hardLinks : bool) (s : state) :
  controlFileContents sh debPath s = (Ret control, s) →
  ((addDeb fault sh cfg debPath component hardLinks s).1 = Panic ↔
   Contains control "Package: " = false ∨
   Contains control "Architecture: " = false).
Proof.
  intros Hc.
  destruct (FindStringSubmatch_shape "Package: " control) as [Hp _].
  destruct (FindStringSubmatch_shape "Architecture: " control) as [Ha _].
  unfold addDeb. rewrite (bind_Ret _ _ _ _ _ Hc).
  destruct (FindStringSubmatch "Package: " control !! 1) as [pkg|] eqn:Ep.
  - rewrite (bind_Ret _ _ s s pkg) by (unfold index; rewrite Ep; reflexivity).
    destruct (FindStringSubmatch "Architecture: " control !! 1)
      as [arch|] eqn:Ea.
    + rewrite (bind_Ret _ _ s s arch) by (unfold index; rewrite Ea; reflexivity).
      split.
      * intros H. exfalso. revert H.
        match goal with
        | |- (?m s).1 = Panic → False => assert (Hnp : no_panic m)
        end.
        { repeat first
            [ apply no_panic_controlFileContents
            | apply no_panic_listPackageFiles
            | apply no_panic_copyFile
            | no_panic_step ]. }
        apply Hnp.
      * intros [H | H].
        -- apply Hp in H. discriminate.
        -- apply Ha in H. discriminate.
    + rewrite (bind_Panic _ _ s s) by (unfold index; rewrite Ea; reflexivity).
      split; [intros _; right; apply Ha; reflexivity | reflexivity].
  - rewrite (bind_Panic _ _ s s) by (unfold index; rewrite Ep; reflexivity).
    split; [intros _; left; apply Hp; reflexivity | reflexivity].
Qed.

Lemma hashFile_of_opened_file hashType filename data h s :
  hash_New md5_Sum sha1_Sum sha256_Sum sha512_Sum hashType = Some h →
  Open fault (fs s) filename = Some (NFile data) →
  hashFile fault md5_Sum sha1_Sum sha256_Sum sha512_Sum hashType filename s
  = (Ret (h data), s).
Proof.
  intros Hh Ho. unfold hashFile, bind, os_Open, ret. rewrite Ho, Hh.
  reflexivity.
Qed.

Lemma digestLines_returns filename s :
  ∃ lines,
    digestLines fault md5_Sum sha1_Sum sha256_Sum sha512_Sum hashes filename s
    = (Ret lines, s).
Proof.
  assert (H : ∀ t h, hash_New md5_Sum sha1_Sum sha256_Sum sha512_Sum t = Some h →
                     ∃ sum, hashFile fault md5_Sum sha1_Sum sha256_Sum
                              sha512_Sum t filename s = (Ret sum, s)).
  { intros t h Hh. unfold hashFile, bind, os_Open, ret.
    destruct (Open fault (fs s) filename) as [file|]; [rewrite Hh |];
      eexists; reflexivity. }
  assert (G : ∀ types,
             Forall (fun t => is_Some (hash_New md5_Sum sha1_Sum sha256_Sum
                                         sha512_Sum t)) types →
             ∃ lines, digestLines fault md5_Sum sha1_Sum sha256_Sum sha512_Sum
                        types filename s = (Ret lines, s)).
  { induction 1 as [|t types [h Hh] _ [more IH]].
    - eexists. reflexivity.
    - destruct (H t h Hh) as [sum Hs]. cbn [digestLines]. cbv zeta.
      rewrite (bind_Ret _ _ _ _ _ Hs), (bind_Ret _ _ _ _ _ IH).
      eexists. reflexivity. }
  apply G. unfold hashes. repeat constructor; eexists; reflexivity.
Qed.

Lemma digestLines_of_opened_file types filename data s :
  Forall (fun t => is_Some (hash_New md5_Sum sha1_Sum sha256_Sum
                              sha512_Sum t)) types →
  Open fault (fs s) filename = Some (NFile data) →
  digestLines fault md5_Sum sha1_Sum sha256_Sum sha512_Sum types filename s
  = (Ret (fold_right
            (fun t rest =>
               LF +:+ hashLabel t +:+ ": " +:+
               Sprintf_x (match hash_New md5_Sum sha1_Sum sha256_Sum
                                  sha512_Sum t with
                          | Some h => h data
                          | None => ""
                          end) +:+ rest)
            "" types), s).
Proof.
  intros Hk Ho. induction Hk as [|t types [h Hh] _ IH]; [reflexivity |].
  cbn [digestLines fold_right]. cbv zeta.
  rewrite (bind_Ret _ _ _ _ _
             (hashFile_of_opened_file t filename data h s Hh Ho)).
  rewrite (bind_Ret _ _ _ _ _ IH). rewrite Hh. reflexivity.
Qed.

(** X13: the only failure of a [Packages] entry is the failure of the
    control extraction.  Once the control text is there, the entry is
    built whatever [os.Stat] and [os.Open] answer; otherwise the run ends
    with status 1 after a message that names the package file.  In both
    cases the state is the one the control extraction leaves: what its
    shell commands do to the file system apart, nothing has changed. *)
Theorem packagesEntry_fails_only_in_the_control_extraction
    (component binaryPath debToReadPath : string) (s : state) :
  ∃ s1, same_but_fs s1 s ∧
    ((∃ control size digests,
        controlFileContents sh debToReadPath s = (Ret control, s1) ∧
        packagesEntry fault sh md5_Sum sha1_Sum sha256_Sum sha512_Sum cfg
          component binaryPath debToReadPath s =
        (Ret (control +:+ LF +:+ "Filename: " +:+
              Filepath.Join ["dists"; distribution cfg; component; binaryPath;
                             Filepath.Base debToReadPath] +:+
              LF +:+ "Size: " +:+ Sprint_size size +:+ digests), s1)) ∨
     (∃ what,
        packagesEntry fault sh md5_Sum sha1_Sum sha256_Sum sha512_Sum cfg
          component binaryPath debToReadPath s =
        (Exit 1,
         add_stderr (what +:+ "'" +:+ debToReadPath +:+ "'" +:+ LF) s1))).
Proof.
  destruct (controlFileContents_outcome sh debToReadPath s)
    as (s1 & Hsame & [[control Hc] | [what Hc]]); exists s1;
    (split; [exact Hsame |]).
  - left. unfold packagesEntry. rewrite (bind_Ret _ _ _ _ _ Hc). cbv zeta.
    destruct (digestLines_returns debToReadPath s1) as [lines Hl].
    exists control. unfold fileSize at 1.
    rewrite (bind_Ret (bind _ _) _ s1 s1
               (match Stat fault (fs s1) debToReadPath with
                | StatOk fi => size_of fi
                | _ => 0%N
                end)).
    + rewrite (bind_Ret _ _ _ _ _ Hl). eexists _, _.
      split; [exact Hc | reflexivity].
    + unfold bind, os_Stat, ret. cbn [fst snd].
      destruct (Stat fault (fs s1) debToReadPath); reflexivity.
  - right. exists what. unfold packagesEntry. apply bind_Exit. exact Hc.
Qed.

(** X14: for a package that is a regular file and on which no call
    fails, the entry records the length of the file as [Size] and, for
    each of the four algorithms, the digest of exactly its bytes in
    lower-case hexadecimal; the state is left as it was. *)
Theorem packagesEntry_records_size_and_digests_of_the_file
    (component binaryPath debToReadPath control data : string) (s : state) :
  controlFileContents sh debToReadPath s = (Ret control, s) →
  lookup_path (fs s) debToReadPath = Some (NFile data) →
  fault SysStat debToReadPath = false →
  fault SysOpen debToReadPath = false →
  packagesEntry fault sh md5_Sum sha1_Sum sha256_Sum sha512_Sum cfg
    component binaryPath debToReadPath s =
  (Ret (control +:+ LF +:+ "Filename: " +:+
        Filepath.Join ["dists"; distribution cfg; component; binaryPath;
                       Filepath.Base debToReadPath] +:+
        LF +:+ "Size: " +:+ Sprint_size (N.of_nat (String.length data)) +:+
        LF +:+ "MD5Sum: " +:+ Sprintf_x (md5_Sum data) +:+
        LF +:+ "SHA1: " +:+ Sprintf_x (sha1_Sum data) +:+
        LF +:+ "SHA256: " +:+ Sprintf_x (sha256_Sum data) +:+
        LF +:+ "SHA512: " +:+ Sprintf_x (sha512_Sum data)), s).
Proof.
  intros Hc Hl Hs Ho.
  assert (Hopen : Open fault (fs s) debToReadPath = Some (NFile data)).
  { unfold Open. rewrite Ho. exact Hl. }
  assert (Hsize : fileSize fault debToReadPath s =
                  (Ret (N.of_nat (String.length data)), s)).
  { unfold fileSize, bind, os_Stat, ret, Stat, stat_path.
    rewrite Hs, Hl. reflexivity. }
  unfold packagesEntry. rewrite (bind_Ret _ _ _ _ _ Hc). cbv zeta.
  rewrite (bind_Ret _ _ _ _ _ Hsize).
  rewrite (bind_Ret _ _ _ _ _
             (digestLines_of_opened_file hashes debToReadPath data s
                ltac:(unfold hashes; repeat constructor; eexists; reflexivity)
                Hopen)).
  unfold ret. cbn [fold_right hashes].
  rewrite append_empty_r, ?append_assoc. reflexivity.
Qed.

End Entries.

(** ** The registries of a run *)

Lemma insert_sorted_Permutation (x : string) (l : list string) :
  insert_sorted x l ≡ₚ x :: l.
Proof.
  induction l as [|y l IH]; cbn [insert_sorted]; [reflexivity |].
  destruct (String.leb x y); [reflexivity |].
  rewrite IH. apply Permutation_swap.
Qed.

Lemma sort_Strings_Permutation (l : list string) : sort_Strings l ≡ₚ l.
Proof.
  induction l as [|x l IH]; [reflexivity |].
  unfold sort_Strings in *. cbn [fold_right].
  rewrite insert_sorted_Permutation, IH. reflexivity.
Qed.

Lemma insert_sorted_HdRel (x y : string) (l : list string) :
  String.leb y x = true →
  HdRel (fun a b => String.leb a b = true) y l →
  HdRel (fun a b => String.leb a b = true) y (insert_sorted x l).
Proof.
  intros Hyx Hy. destruct l as [|z l]; cbn [insert_sorted].
  - constructor. exact Hyx.
  - destruct (String.leb x z); constructor; [exact Hyx |].
    inversion Hy; assumption.
Qed.

Lemma insert_sorted_Sorted (x : string) (l : list string) :
  Sorted (fun a b => String.leb a b = true) l →
  Sorted (fun a b => String.leb a b = true) (insert_sorted x l).
Proof.
  induction 1 as [|y l Hs IH Hy]; cbn [insert_sorted].
  - repeat constructor.
  - destruct (String.leb x y) eqn:E.
    + constructor; [constructor; assumption | constructor; exact E].
    + constructor; [exact IH |].
      apply insert_sorted_HdRel; [| exact Hy].
      destruct (String.leb_total x y) as [H | H]; [congruence | exact H].
Qed.

(** X17: [mapKeys] lists the keys of the set of encountered architectures
    in ascending byte order, each key once and no other string: this is
    the list behind the [Architectures:] line of [Release]. *)
Theorem mapKeys_lists_the_keys_in_order (m : gset string) :
  Sorted (fun a b => String.leb a b = true) (mapKeys m) ∧
  NoDup (mapKeys m) ∧
  ∀ a, a ∈ mapKeys m ↔ a ∈ m.
Proof.
  unfold mapKeys. split; [| split].
  - unfold sort_Strings. induction (elements m) as [|x l IH]; cbn [fold_right].
    + constructor.
    + apply insert_sorted_Sorted. exact IH.
  - rewrite sort_Strings_Permutation. apply NoDup_elements.
  - intros a. rewrite sort_Strings_Permutation. apply elem_of_elements.
Qed.

Ltac keeps_go :=
  cbv zeta;
  match goal with
  | |- keeps _ (bind _ _) => apply keeps_bind; [| intros ?]
  | |- keeps _ (forRange _ _) => apply keeps_forRange; intros ?
  | |- keeps _ (match ?x with _ => _ end) => destruct x
  | |- keeps _ _ =>
      first [ apply keeps_ret | apply keeps_exit | apply keeps_panic
            | apply keeps_Println | apply keeps_Fprintf_stderr
            | apply keeps_Fprint_file | apply keeps_index
            | apply keeps_os_Stat | apply keeps_os_Open
            | apply keeps_os_MkdirAll | apply keeps_os_Link
            | apply keeps_os_Create | apply keeps_os_OpenFile
            | apply keeps_os_RemoveAll | apply keeps_runShellCommand
            | apply keeps_controlFileContents | apply keeps_listPackageFiles
            | apply keeps_copyFile ];
      try assumption
  end.

Lemma keeps_after_exit {A B} P (m : M A) (k : A → M B) :
  keeps P m → (∀ s a, (m s).1 ≠ Ret a) → keeps P (bind m k).
Proof.
  intros Hm Hx s H. unfold bind. specialize (Hm s H). specialize (Hx s).
  destruct (m s) as [[a|c|] s']; cbn [fst snd] in *;
    [destruct (Hx a); reflexivity | exact Hm | exact Hm].
Qed.

Section Registries.
Variable fault : syscall → string → bool.
Variable sh : gmap string node → string → gmap string node * option string.
Variable cfg : flags.

Lemma arches_supported_fs f s : arches_supported s → arches_supported (set_fs f s).
Proof. intros H. exact H. Qed.
Lemma arches_supported_stdout t s :
  arches_supported s → arches_supported (add_stdout t s).
Proof. intros H. exact H. Qed.
Lemma arches_supported_stderr t s :
  arches_supported s → arches_supported (add_stderr t s).
Proof. intros H. exact H. Qed.

Lemma addDeb_keeps_arches_supported debPath component hardLinks :
  keeps arches_supported (addDeb fault sh cfg debPath component hardLinks).
Proof.
  pose proof arches_supported_fs as Hfs.
  pose proof arches_supported_stdout as Hout.
  pose proof arches_supported_stderr as Herr.
  unfold addDeb.
  apply keeps_bind; [keeps_go | intros control].
  apply keeps_bind; [keeps_go | intros pkg].
  apply keeps_bind; [keeps_go | intros arch].
  destruct (contains supportedArches arch) eqn:Hsup; cbn [negb].
  - apply keeps_bind; [keeps_go | intros _].
    intros s Hs. unfold bind at 1. cbn [get_encounteredArches].
    unfold bind at 1. cbn [put_encounteredArches].
    match goal with
    | |- arches_supported (?k ?s1).2 => assert (Hk : keeps arches_supported k)
    end.
    { repeat keeps_go. }
    apply Hk. intros a Ha. cbn [encounteredArches set_encounteredArches] in Ha.
    apply elem_of_union in Ha as [Ha | Ha]; [| apply Hs, Ha].
    apply elem_of_singleton in Ha as ->. exact Hsup.
  - apply keeps_after_exit; [repeat keeps_go |].
    intros s a. discriminate.
Qed.

Lemma registerComponent_keeps_arches component s :
  encounteredArches (registerComponent fault cfg component s).2 =
  encounteredArches s.
Proof.
  destruct (contains (COMPONENTS s) component) eqn:H.
  - rewrite registerComponent_known by exact H. reflexivity.
  - rewrite registerComponent_new by exact H. cbn [snd].
    destruct (Stat fault (fs s) _); reflexivity.
Qed.

(** X10: the set of encountered architectures only ever holds supported
    ones.  Whatever packages the first loop of [main] goes through and
    however it ends, every architecture registered is one of [all],
    [arm], [aarch64], so the [Architectures:] line never advertises
    another one. *)
Theorem encounteredArches_holds_only_supported_architectures
    (debs : list string) (s : state) :
  (∀ a, a ∈ encounteredArches s → contains supportedArches a = true) →
  ∀ a, a ∈ encounteredArches (forRange debs (placeDeb fault sh cfg) s).2 →
       a ∈ supportedArches.
Proof.
  intros H a Ha. apply contains_spec. revert a Ha.
  change (arches_supported (forRange debs (placeDeb fault sh cfg) s).2).
  apply keeps_forRange; [| exact H].
  intros debPath s1 H1. unfold placeDeb, bind.
  pose proof (registerComponent_Ret fault cfg (componentOf cfg debPath) s1) as Hr.
  pose proof (registerComponent_keeps_arches (componentOf cfg debPath) s1) as He.
  destruct (registerComponent fault cfg (componentOf cfg debPath) s1)
    as [r s2]; cbn [fst snd] in *. subst r.
  apply addDeb_keeps_arches_supported.
  intros b Hb. rewrite He in Hb. apply H1, Hb.
Qed.

Lemma placeDeb_keeps_NoDup debPath :
  keeps (fun s => NoDup (COMPONENTS s)) (placeDeb fault sh cfg debPath).
Proof.
  intros s H. unfold placeDeb, bind.
  pose proof (registerComponent_Ret fault cfg (componentOf cfg debPath) s) as Hr.
  assert (Hn : NoDup (COMPONENTS
                        (registerComponent fault cfg (componentOf cfg debPath) s).2)).
  { destruct (contains (COMPONENTS s) (componentOf cfg debPath)) eqn:E.
    - rewrite registerComponent_known by exact E. exact H.
    - rewrite registerComponent_new by exact E. cbn [snd].
      assert (NoDup (COMPONENTS s ++ [componentOf cfg debPath])).
      { apply NoDup_app. split; [exact H |]. split; [| apply NoDup_singleton].
        intros x Hx Hx'. apply list_elem_of_singleton in Hx' as ->.
        apply contains_spec in Hx. congruence. }
      destruct (Stat fault (fs s) _); assumption. }
  destruct (registerComponent fault cfg (componentOf cfg debPath) s)
    as [r s2]; cbn [fst snd] in *. subst r.
  rewrite addDeb_COMPONENTS. exact Hn.
Qed.

(** X11: after the first loop of a run that started with no registered
    component, [COMPONENTS] holds every component of the packages of the
    loop and nothing else, each one once. *)
Theorem COMPONENTS_holds_each_component_once
    (debs : list string) (s0 s : state) :
  COMPONENTS s0 = [] →
  forRange debs (placeDeb fault sh cfg) s0 = (Ret tt, s) →
  NoDup (COMPONENTS s) ∧
  ∀ c, c ∈ COMPONENTS s ↔ c ∈ map (componentOf cfg) debs.
Proof.
  intros H0 Hrun. split.
  - change s with (Ret tt, s).2. rewrite <- Hrun.
    apply keeps_forRange; [apply placeDeb_keeps_NoDup |].
    rewrite H0. constructor.
  - intros c. rewrite <- !contains_spec.
    rewrite (forRange_placeDeb_COMPONENTS fault sh cfg debs c s0 s Hrun), H0.
    reflexivity.
Qed.

(** X12: registering a component a second time changes nothing: the
    second registration neither appends to [COMPONENTS] nor calls
    [os.RemoveAll], so what was placed after the first one stays. *)
Theorem registerComponent_is_idempotent (component : string) (s : state) :
  registerComponent fault cfg component
    (registerComponent fault cfg component s).2 =
  (Ret tt, (registerComponent fault cfg component s).2).
Proof.
  apply registerComponent_known.
  rewrite registerComponent_COMPONENTS, String.eqb_refl.
  apply orb_true_r.
Qed.

End Registries.

(** ** The release manifest *)

Lemma returns_bind {A B} (m : M A) (k : A → M B) :
  returns m → (∀ a, returns (k a)) → returns (bind m k).
Proof.
  intros Hm Hk s. unfold bind. destruct (Hm s) as [a Ha].
  destruct (m s) as [r s']; cbn [fst] in Ha. subst r. apply Hk.
Qed.

Lemma returns_forRange {A} (l : list A) (body : A → M unit) :
  (∀ x, In x l → returns (body x)) → returns (forRange l body).
Proof.
  induction l as [|x l IH]; intros Hb; cbn [forRange].
  - intros s. eexists. reflexivity.
  - apply returns_bind; [apply Hb; left; reflexivity |].
    intros _. apply IH. intros y Hy. apply Hb. right. exact Hy.
Qed.

Section Manifest.
Variable fault : syscall → string → bool.
Variables md5_Sum sha1_Sum sha256_Sum sha512_Sum : string → string.
Variable cfg : flags.

Lemma returns_hashFile hashType filename :
  In hashType hashes →
  returns (hashFile fault md5_Sum sha1_Sum sha256_Sum sha512_Sum hashType
             filename).
Proof.
  intros Hin s. unfold hashFile, bind, os_Open, ret.
  destruct (Open fault (fs s) filename) as [file|]; cbn [fst snd];
    [| eexists; reflexivity].
  unfold hashes in Hin. cbn [In] in Hin.
  destruct Hin as [<- | [<- | [<- | [<- | []]]]]; eexists; reflexivity.
Qed.

Lemma returns_fileSize filename : returns (fileSize fault filename).
Proof.
  intros s. unfold fileSize, bind, os_Stat, ret. cbn [fst snd].
  destruct (Stat fault (fs s) filename); eexists; reflexivity.
Qed.

Lemma returns_releaseRow releaseFile hashType filePath shown :
  In hashType hashes →
  returns (releaseRow fault md5_Sum sha1_Sum sha256_Sum sha512_Sum
             releaseFile hashType filePath shown).
Proof.
  intros Hin. unfold releaseRow.
  apply returns_bind; [apply returns_hashFile, Hin | intros sum].
  apply returns_bind; [apply returns_fileSize | intros size].
  intros s. eexists. reflexivity.
Qed.

Lemma returns_releaseRows releaseFile hashType component :
  In hashType hashes →
  returns (releaseRows fault md5_Sum sha1_Sum sha256_Sum sha512_Sum cfg
             releaseFile hashType component).
Proof.
  intros Hin. unfold releaseRows.
  apply returns_bind; [intros s; eexists; reflexivity | intros archDirs].
  apply returns_bind.
  - apply returns_forRange. intros archDirPath _.
    apply returns_forRange. intros f _. cbv zeta.
    apply returns_releaseRow, Hin.
  - intros _. apply returns_bind; [intros s; eexists; reflexivity |].
    intros contents. apply returns_forRange. intros contentsFile _.
    apply returns_releaseRow, Hin.
Qed.

Lemma keeps_hashFile P hashType filename :
  keeps P (hashFile fault md5_Sum sha1_Sum sha256_Sum sha512_Sum hashType
             filename).
Proof.
  intros s H. unfold hashFile, bind, os_Open, ret.
  destruct (Open fault (fs s) filename); [| exact H].
  destruct (hash_New _ _ _ _ hashType); exact H.
Qed.

Lemma keeps_fileSize P filename : keeps P (fileSize fault filename).
Proof.
  intros s H. unfold fileSize, bind, os_Stat, ret. cbn [fst snd].
  destruct (Stat fault (fs s) filename); exact H.
Qed.

Lemma keeps_releaseRow P releaseFile hashType filePath shown :
  (∀ f s, P s → P (set_fs f s)) →
  keeps P (releaseRow fault md5_Sum sha1_Sum sha256_Sum sha512_Sum
             releaseFile hashType filePath shown).
Proof.
  intros Hfs. unfold releaseRow.
  apply keeps_bind; [apply keeps_hashFile | intros sum].
  apply keeps_bind; [apply keeps_fileSize | intros size].
  apply keeps_Fprint_file, Hfs.
Qed.

(** X18: writing the digest tables never ends the run and changes nothing
    but the file system: for every state, [writeReleaseTables] returns,
    and the output streams, [COMPONENTS] and the encountered
    architectures are as before (a file that cannot be read gets a row
    with an empty digest and the size 0 instead of an error). *)
Theorem writeReleaseTables_always_returns (releaseFile : string) (s : state) :
  (writeReleaseTables fault md5_Sum sha1_Sum sha256_Sum sha512_Sum cfg
     releaseFile s).1 = Ret tt ∧
  same_but_fs
    (writeReleaseTables fault md5_Sum sha1_Sum sha256_Sum sha512_Sum cfg
       releaseFile s).2 s.
Proof.
  split.
  - assert (H : returns (writeReleaseTables fault md5_Sum sha1_Sum sha256_Sum
                           sha512_Sum cfg releaseFile)).
    { unfold writeReleaseTables. apply returns_forRange. intros hashType Hin.
      apply returns_bind; [intros s1; eexists; reflexivity | intros _].
      apply returns_bind; [intros s1; eexists; reflexivity | intros comps].
      apply returns_forRange. intros component _.
      apply returns_releaseRows, Hin. }
    destruct (H s) as [[] Hr]. exact Hr.
  - assert (Hfs : ∀ f s1, same_but_fs s1 s → same_but_fs (set_fs f s1) s).
    { intros f s1 H. exact H. }
    apply (keeps_forRange (fun s1 => same_but_fs s1 s));
      [| repeat split].
    intros hashType.
    apply keeps_bind; [apply keeps_Fprint_file, Hfs | intros _].
    apply keeps_bind; [intros s1 H1; exact H1 | intros comps].
    apply keeps_forRange. intros component. unfold releaseRows.
    apply keeps_bind; [intros s1 H1; exact H1 | intros archDirs].
    apply keeps_bind.
    + apply keeps_forRange. intros archDirPath.
      apply keeps_forRange. intros f. cbv zeta.
      apply keeps_releaseRow, Hfs.
    + intros _. apply keeps_bind; [intros s1 H1; exact H1 | intros contents].
      apply keeps_forRange. intros contentsFile.
      apply keeps_releaseRow, Hfs.
Qed.

(** X19: a row of the digest tables, for a regular file on which no call
    fails: the line appended to [Release] is a blank, the digest bytes as
    they are (not in hexadecimal, unlike the [Packages] entries), the
    length of the file in decimal, and the path shown. *)
Theorem releaseRow_appends_digest_size_and_path
    (releaseFile hashType filePath shown data old : string)
    (h : string → string) (s : state) :
  hash_New md5_Sum sha1_Sum sha256_Sum sha512_Sum hashType = Some h →
  lookup_path (fs s) filePath = Some (NFile data) →
  fault SysStat filePath = false →
  fault SysOpen filePath = false →
  fs s !! key releaseFile = Some (NFile old) →
  ∃ s',
    releaseRow fault md5_Sum sha1_Sum sha256_Sum sha512_Sum releaseFile
      hashType filePath shown s = (Ret tt, s') ∧
    fs s' !! key releaseFile =
      Some (NFile (old +:+ " " +:+ h data +:+ " " +:+
                   Sprint_size (N.of_nat (String.length data)) +:+ " " +:+
                   shown +:+ LF)) ∧
    ∀ k, k ≠ key releaseFile → fs s' !! k = fs s !! k.
Proof.
  intros Hh Hl Hs Ho Hr.
  assert (Hopen : Open fault (fs s) filePath = Some (NFile data)).
  { unfold Open. rewrite Ho. exact Hl. }
  assert (Hsize : fileSize fault filePath s =
                  (Ret (N.of_nat (String.length data)), s)).
  { unfold fileSize, bind, os_Stat, ret, Stat, stat_path.
    rewrite Hs, Hl. reflexivity. }
  unfold releaseRow.
  rewrite (bind_Ret _ _ _ _ _
             (hashFile_of_opened_file fault md5_Sum sha1_Sum sha256_Sum
                sha512_Sum hashType filePath data h s Hh Hopen)).
  rewrite (bind_Ret _ _ _ _ _ Hsize).
  unfold Fprint_file, append_file. rewrite Hr.
  eexists. split; [reflexivity |]. cbn [fs set_fs]. split.
  - rewrite lookup_insert_eq. reflexivity.
  - intros k Hk. rewrite lookup_insert_ne by congruence. reflexivity.
Qed.

End Manifest.

(** ** The start of [main] and the component of a package *)

Lemma Split_before_separator (a b : string) :
  Contains a "/" = false →
  Split (a +:+ String "/"%char b) "/"%char = a :: Split b "/"%char.
Proof.
  induction a as [|c a IH]; [reflexivity |].
  rewrite Contains_one_char_cons. intros H.
  apply orb_false_elim in H as [H1 H2].
  rewrite append_cons. cbn [Split].
  rewrite Ascii.eqb_sym in H1. rewrite H1, (IH H2). reflexivity.
Qed.

Lemma rooted_no_separator (a b : string) :
  Contains a "/" = false → a ≠ "" → Filepath.rooted (a +:+ b) = false.
Proof.
  destruct a as [|c a]; [congruence |].
  rewrite Contains_one_char_cons. intros H _.
  apply orb_false_elim in H as [H1 _].
  rewrite append_cons. cbn [Filepath.rooted]. unfold Filepath.Separator.
  rewrite Ascii.eqb_sym. exact H1.
Qed.

(** The directory of [sub/name], for a plain directory name [sub]. *)
Lemma Dir_of_nested_name (sub name : string) :
  Contains sub "/" = false → Contains name "/" = false →
  sub ≠ "" → sub ≠ "." → sub ≠ ".." →
  Filepath.Dir (sub +:+ "/" +:+ name) = sub.
Proof.
  intros Hs Hn H0 H1 H2.
  unfold Filepath.Dir, Filepath.dir_part, Filepath.Separator.
  change ("/" +:+ name) with (String "/"%char name).
  rewrite (Split_before_separator sub name Hs), (Split_no_separator name Hn).
  cbn [removelast String.concat].
  unfold Filepath.Clean, Filepath.Separator.
  change (sub +:+ "/") with (sub +:+ String "/"%char "").
  rewrite (rooted_no_separator sub _ Hs H0).
  rewrite (Split_before_separator sub "" Hs).
  cbn [Split fold_left].
  change (Filepath.clean_elem false (Filepath.clean_elem false [] sub) "")
    with (Filepath.clean_elem false [] sub).
  assert (He : Filepath.clean_elem false [] sub = [sub]).
  { unfold Filepath.clean_elem.
    apply String.eqb_neq in H0, H1, H2. rewrite H0, H1, H2. reflexivity. }
  rewrite He. cbn [rev app String.concat].
  apply String.eqb_neq in H0. rewrite H0. reflexivity.
Qed.

Lemma Clean_unfold (path : string) :
  Filepath.Clean path =
  Filepath.clean_render (Filepath.rooted path) (Filepath.clean_stack path).
Proof. reflexivity. Qed.

Lemma Split_app_separator (a b : string) (sep : ascii) :
  Split (a +:+ String sep b) sep = Split a sep ++ Split b sep.
Proof.
  induction a as [|c a IH].
  - rewrite append_nil. cbn [Split]. rewrite Ascii.eqb_refl. reflexivity.
  - rewrite append_cons. cbn [Split]. rewrite IH.
    destruct (Ascii.eqb c sep); [reflexivity |].
    destruct (Split_head a sep) as (h & t & E & _). rewrite E. reflexivity.
Qed.

Lemma rooted_append (p x : string) :
  p ≠ "" → Filepath.rooted (p +:+ x) = Filepath.rooted p.
Proof. destruct p; [congruence | reflexivity]. Qed.

Lemma append_not_empty (p x : string) : p ≠ "" → p +:+ x ≠ "".
Proof. destruct p; [congruence | discriminate]. Qed.

Lemma clean_stack_slash (p : string) :
  p ≠ "" → Filepath.clean_stack (p +:+ "/") = Filepath.clean_stack p.
Proof.
  intros Hp. unfold Filepath.clean_stack, Filepath.Separator.
  rewrite (rooted_append p _ Hp).
  change (p +:+ "/") with (p +:+ String "/"%char "").
  rewrite Split_app_separator, fold_left_app. reflexivity.
Qed.

(** A plain element, one that [Clean] keeps: a name without separator
    that is not empty and not a dot or two. *)
Lemma clean_stack_push (p e : string) :
  p ≠ "" → Contains e "/" = false → e ≠ "" → e ≠ "." → e ≠ ".." →
  Filepath.clean_stack (p +:+ "/" +:+ e) = e :: Filepath.clean_stack p.
Proof.
  intros Hp He H0 H1 H2. unfold Filepath.clean_stack, Filepath.Separator.
  rewrite (rooted_append p _ Hp).
  change (p +:+ "/" +:+ e) with (p +:+ String "/"%char e).
  rewrite Split_app_separator, fold_left_app, (Split_no_separator e He).
  cbn [fold_left]. unfold Filepath.clean_elem at 1.
  apply String.eqb_neq in H0, H1, H2. rewrite H0, H1, H2. reflexivity.
Qed.

Lemma concat_snoc (l : list string) (e : string) :
  l ≠ [] → String.concat "/" (l ++ [e]) = String.concat "/" l +:+ "/" +:+ e.
Proof.
  induction l as [|x l IH]; [congruence |]. intros _.
  destruct l as [|y l]; [reflexivity |].
  change (String.concat "/" ((x :: y :: l) ++ [e]))
    with (x +:+ "/" +:+ String.concat "/" ((y :: l) ++ [e])).
  rewrite IH by discriminate.
  change (String.concat "/" (x :: y :: l))
    with (x +:+ "/" +:+ String.concat "/" (y :: l)).
  rewrite !append_assoc. reflexivity.
Qed.

Lemma clean_render_push (r : bool) (st : list string) (e : string) :
  String.concat "/" (rev st) ≠ "" →
  Filepath.clean_render r (e :: st) = Filepath.clean_render r st +:+ "/" +:+ e ∧
  String.concat "/" (rev (e :: st)) ≠ "".
Proof.
  intros Hb. unfold Filepath.clean_render. cbn [rev].
  assert (Hst : rev st ≠ []) by (intros E; rewrite E in Hb; apply Hb; reflexivity).
  rewrite (concat_snoc _ e Hst).
  pose proof (append_not_empty _ ("/" +:+ e) Hb) as Hb'.
  split; [| exact Hb'].
  apply String.eqb_neq in Hb, Hb'.
  destruct r; [rewrite append_assoc; reflexivity |].
  rewrite Hb, Hb'. reflexivity.
Qed.

(** A cleaned path other than the root and the dot has elements. *)
Lemma Clean_has_elements (dir : string) :
  Filepath.Clean dir = dir → dir ≠ "/" → dir ≠ "." →
  dir ≠ "" ∧ String.concat "/" (rev (Filepath.clean_stack dir)) ≠ "".
Proof.
  intros Hc H1 H2. split; [intros ->; discriminate Hc |].
  intros Hb. rewrite Clean_unfold in Hc. unfold Filepath.clean_render in Hc.
  cbv zeta in Hc. rewrite Hb in Hc.
  destruct (Filepath.rooted dir);
    [change ("/" = dir) in Hc | change ("." = dir) in Hc]; congruence.
Qed.

(** Joining a plain name to a cleaned directory path writes the name
    after it; the outcome is a cleaned path again. *)
Lemma Join_plain_name (dir e : string) :
  Filepath.Clean dir = dir → dir ≠ "/" → dir ≠ "." →
  Contains e "/" = false → e ≠ "" → e ≠ "." → e ≠ ".." →
  Filepath.Join [dir; e] = dir +:+ "/" +:+ e ∧
  Filepath.Join [dir +:+ "/"; e] = dir +:+ "/" +:+ e ∧
  Filepath.Clean (dir +:+ "/" +:+ e) = dir +:+ "/" +:+ e ∧
  dir +:+ "/" +:+ e ≠ "/" ∧ dir +:+ "/" +:+ e ≠ ".".
Proof.
  intros Hc H1 H2 He E0 E1 E2.
  destruct (Clean_has_elements dir Hc H1 H2) as [Hne Hb].
  assert (Hclean : Filepath.Clean (dir +:+ "/" +:+ e) = dir +:+ "/" +:+ e).
  { rewrite Clean_unfold, (rooted_append dir _ Hne),
      (clean_stack_push dir e Hne He E0 E1 E2).
    rewrite (proj1 (clean_render_push _ _ e Hb)), <- Clean_unfold, Hc.
    reflexivity. }
  assert (Hslash : Filepath.Clean ((dir +:+ "/") +:+ "/" +:+ e) =
                   dir +:+ "/" +:+ e).
  { rewrite Clean_unfold, (rooted_append (dir +:+ "/") _ (append_not_empty _ _ Hne)),
      (rooted_append dir _ Hne),
      (clean_stack_push (dir +:+ "/") e (append_not_empty _ _ Hne) He E0 E1 E2),
      (clean_stack_slash dir Hne).
    rewrite (proj1 (clean_render_push _ _ e Hb)), <- Clean_unfold, Hc.
    reflexivity. }
  assert (Hj : ∀ d, d ≠ "" →
                    Filepath.Join [d; e] = Filepath.Clean (d +:+ "/" +:+ e)).
  { intros d Hd. cbn [Filepath.Join]. apply String.eqb_neq in Hd.
    rewrite Hd. reflexivity. }
  split; [rewrite (Hj dir Hne); exact Hclean |].
  split; [rewrite (Hj _ (append_not_empty _ _ Hne)); exact Hslash |].
  split; [exact Hclean |].
  destruct dir as [|c dir]; [congruence |].
  rewrite append_cons. split; intros [= -> E].
  - destruct dir; discriminate E.
  - destruct dir; discriminate E.
Qed.

(** X1: the input path is a cleaned directory path (not the root, not
    the dot, no pattern character in it) followed by one separator.  The
    path that the glob makes for a package file of that directory is
    the directory path, a separator and the file name, and the package
    gets the default component; the path it makes for a package file of
    a subdirectory has the name of the subdirectory in between, and the
    package gets that name as its component. *)
Theorem componentOf_with_trailing_separator
    (dir sub name out dist dflt : string) (links sign : bool) :
  Filepath.Clean dir = dir → dir ≠ "/" → dir ≠ "." →
  Filepath.hasMeta dir = false →
  Contains name "/" = false → name ≠ "" → name ≠ "." → name ≠ ".." →
  Contains sub "/" = false → sub ≠ "" → sub ≠ "." → sub ≠ ".." →
  Filepath.Join [dir; name] = dir +:+ "/" +:+ name ∧
  componentOf (Flags (dir +:+ "/") out dist dflt links sign)
    (Filepath.Join [dir; name]) = dflt ∧
  Filepath.Join [Filepath.Join [dir; sub]; name] =
    dir +:+ "/" +:+ sub +:+ "/" +:+ name ∧
  componentOf (Flags (dir +:+ "/") out dist dflt links sign)
    (Filepath.Join [Filepath.Join [dir; sub]; name]) = sub.
Proof.
  intros Hc H1 H2 _ Hn N0 N1 N2 Hs S0 S1 S2.
  destruct (Join_plain_name dir name Hc H1 H2 Hn N0 N1 N2) as (Jn & _).
  destruct (Join_plain_name dir sub Hc H1 H2 Hs S0 S1 S2)
    as (Js & _ & Cs & Cs1 & Cs2).
  destruct (Join_plain_name _ name Cs Cs1 Cs2 Hn N0 N1 N2) as (Jsn & _).
  rewrite Js, Jsn, Jn, !append_assoc.
  split; [reflexivity |]. split; [| split; [reflexivity |]].
  - apply componentOf_root_trailing_separator. exact Hn.
  - unfold componentOf. cbn [inputPath].
    rewrite <- (append_assoc dir "/"), TrimPrefix_append.
    rewrite (Dir_of_nested_name sub name Hs Hn S0 S1 S2).
    apply String.eqb_neq in S1. rewrite S1. reflexivity.
Qed.

Section Start.
Variable fault : syscall → string → bool.
Variable sh : gmap string node → string → gmap string node * option string.
Variables md5_Sum sha1_Sum sha256_Sum sha512_Sum : string → string.
Variable xz_header : string.
Variable xz_body : string → string.
Variable gpg : string → option string.
Variable now : string.
Variable usage : string.
Variable cfg : flags.

(** X2: the errors at the start of [main] end the run before anything
    is changed.  Without an input path or without an output path, [main]
    writes the usage text and exits with status 1; with both, it exits
    with status 1 and one message when the input directory does not
    exist, when the pattern made of the input path is not well formed,
    and when the input directory holds no package directly or one
    directory down.  In each case the state is the start state with that
    one message on standard error. *)
Theorem main_stops_on_usage_errors_before_any_change (s : state) :
  (String.eqb (inputPath cfg) "" || String.eqb (outputPath cfg) "" = true →
   main fault sh md5_Sum sha1_Sum sha256_Sum sha512_Sum xz_header xz_body gpg
     now usage cfg s
   = (Exit 1, add_stderr usage s)) ∧
  (String.eqb (inputPath cfg) "" || String.eqb (outputPath cfg) "" = false →
   (Stat fault (fs s) (inputPath cfg) = StatNotExist →
    main fault sh md5_Sum sha1_Sum sha256_Sum sha512_Sum xz_header xz_body gpg
      now usage cfg s
    = (Exit 1, add_stderr ("'" +:+ inputPath cfg +:+ "' does not exist" +:+ LF) s)) ∧
   (Stat fault (fs s) (inputPath cfg) ≠ StatNotExist →
    (Glob fault (fs s) (Filepath.Join [inputPath cfg; "*.deb"])).2 = true →
    main fault sh md5_Sum sha1_Sum sha256_Sum sha512_Sum xz_header xz_body gpg
      now usage cfg s
    = (Exit 1, add_stderr ("Error globbing .deb files in '" +:+ inputPath cfg +:+
                           "'" +:+ LF) s)) ∧
   (Stat fault (fs s) (inputPath cfg) ≠ StatNotExist →
    Glob fault (fs s) (Filepath.Join [inputPath cfg; "*.deb"]) = ([], false) →
    Glob fault (fs s) (Filepath.Join [inputPath cfg; "*/*.deb"]) = ([], false) →
    main fault sh md5_Sum sha1_Sum sha256_Sum sha512_Sum xz_header xz_body gpg
      now usage cfg s
    = (Exit 1, add_stderr ("No .deb file found in '" +:+ inputPath cfg +:+
                           "'" +:+ LF) s))).
Proof.
  assert (Hn : Stat fault (fs s) (inputPath cfg) ≠ StatNotExist →
               isNotExist (Stat fault (fs s) (inputPath cfg)) = false).
  { intros Hst. destruct (Stat fault (fs s) (inputPath cfg));
      [reflexivity | | reflexivity]. destruct Hst. reflexivity. }
  split; [| split; [| split]].
  - intros H. unfold main. rewrite H. reflexivity.
  - intros Hst. unfold main. rewrite H.
    rewrite (bind_Ret (ret tt) _ s s tt eq_refl).
    rewrite (bind_Ret (os_Stat fault (inputPath cfg)) _ s s _ eq_refl).
    rewrite Hst. reflexivity.
  - intros Hst Hg. unfold main. rewrite H.
    rewrite (bind_Ret (ret tt) _ s s tt eq_refl).
    rewrite (bind_Ret (os_Stat fault (inputPath cfg)) _ s s _ eq_refl).
    rewrite (Hn Hst).
    rewrite (bind_Ret (ret tt) _ s s tt eq_refl).
    rewrite (bind_Ret (filepath_Glob fault _) _ s s _ eq_refl).
    rewrite Hg. reflexivity.
  - intros Hst Hg1 Hg2. unfold main. rewrite H.
    rewrite (bind_Ret (ret tt) _ s s tt eq_refl).
    rewrite (bind_Ret (os_Stat fault (inputPath cfg)) _ s s _ eq_refl).
    rewrite (Hn Hst).
    rewrite (bind_Ret (ret tt) _ s s tt eq_refl).
    rewrite (bind_Ret (filepath_Glob fault _) _ s s ([], false))
      by (unfold filepath_Glob; rewrite Hg1; reflexivity).
    cbn [fst snd].
    rewrite (bind_Ret (ret tt) _ s s tt eq_refl).
    rewrite (bind_Ret (filepath_Glob fault _) _ s s ([], false))
      by (unfold filepath_Glob; rewrite Hg2; reflexivity).
    reflexivity.
Qed.

(** X20: [filterDirs] returns, without changing the state, only names of
    directories that are directly in [root]; when the directory cannot be
    read it returns no name instead of failing. *)
Theorem filterDirs_lists_only_directories (root : string) (s : state) :
  ∃ dirs, filterDirs fault root s = (Ret dirs, s) ∧
          (ReadDir fault (fs s) root = None → dirs = []) ∧
          ∀ n, In n dirs → is_dir (fs s) (Filepath.Join [root; n]) = true.
Proof.
  unfold filterDirs. eexists. split; [reflexivity |]. split.
  - intros ->. reflexivity.
  - intros n Hn. destruct (ReadDir fault (fs s) root) as [files|] eqn:E;
      [| destruct Hn].
    apply in_map_iff in Hn as ([n' x] & <- & Hin).
    apply filter_In in Hin as [Hin Hd]. cbn [fst snd] in *.
    unfold ReadDir in E. destruct (fault SysReadDir root); [discriminate |].
    destruct (is_dir (fs s) root); [| discriminate].
    injection E as <-. apply list_elem_of_In in Hin.
    apply list_elem_of_omap in Hin as (m & _ & Hm).
    change (match lookup_path (fs s) (Filepath.Join [root; m]) with
            | Some y => Some (m, y)
            | None => None
            end = Some (n', x)) in Hm.
    unfold is_dir.
    destruct (lookup_path (fs s) (Filepath.Join [root; m])) as [y|] eqn:El;
      [| discriminate].
    injection Hm as <- <-. rewrite El.
    destruct y; [reflexivity | discriminate].
Qed.

End Start.

(** ** The placement of a package *)

Lemma bind_returns {A B} (m : M A) (k : A → M B) (s : state) :
  returns m → ∃ a s1, m s = (Ret a, s1) ∧ bind m k s = k a s1.
Proof.
  intros H. destruct (H s) as [a Ha]. unfold bind.
  destruct (m s) as [r s1]; cbn [fst] in Ha. subst r. eauto.
Qed.

Lemma index_Ret_inv {A} (l : list A) (i : nat) (x : A) (s s' : state) :
  index l i s = (Ret x, s') → l !! i = Some x ∧ s' = s.
Proof.
  unfold index. destruct (l !! i); [| discriminate].
  intros [= -> ->]. auto.
Qed.

(** [os.MkdirAll] leaves the entries that exist as they are. *)
Lemma mkdirs_keeps_entries (dirs : list string) (f : gmap string node) k v :
  f !! k = Some v → (mkdirs f dirs).1 !! k = Some v.
Proof.
  revert f. induction dirs as [|d dirs IH]; intros f H; cbn [mkdirs];
    [exact H |].
  destruct (lookup_path f d) as [[|data]|] eqn:E; [auto | exact H |].
  apply IH. rewrite lookup_insert_ne; [exact H |].
  intros <-. unfold lookup_path in E.
  destruct (is_top (key d)); [discriminate | congruence].
Qed.

Lemma MkdirAll_keeps_entries fault (f : gmap string node) path k v :
  f !! k = Some v → (MkdirAll fault f path).1 !! k = Some v.
Proof.
  intros H. unfold MkdirAll. destruct (fault SysMkdirAll path); [exact H |].
  apply mkdirs_keeps_entries, H.
Qed.

Section Placement.
Variable fault : syscall → string → bool.
Variable sh : gmap string node → string → gmap string node * option string.
Variable cfg : flags.

(** The two statements of [addDeb] that make sure a directory is
    there. *)
Lemma ensure_directory_outcome (path : string) (st : stat_result) (s : state) :
  ∃ s1,
    (if isNotExist st then bind (os_MkdirAll fault path) (fun _ => ret tt)
     else ret tt) s = (Ret tt, s1) ∧
    same_but_fs s1 s ∧
    ∀ k v, fs s !! k = Some v → fs s1 !! k = Some v.
Proof.
  destruct (isNotExist st).
  - eexists. split; [reflexivity |]. split; [repeat split |].
    intros k v H. cbn [fs set_fs snd]. apply MkdirAll_keeps_entries, H.
  - exists s. split; [reflexivity |]. split; [repeat split | auto].
Qed.

Lemma OpenFile_append_frame (f : gmap string node) path k :
  k ≠ key path → (OpenFile_append fault f path).1 !! k = f !! k.
Proof.
  intros H. unfold OpenFile_append.
  destruct (fault SysOpenFile path); [reflexivity |].
  destruct (writable_target f path); [| reflexivity].
  destruct (f !! key path); [reflexivity |].
  cbn [fst]. rewrite lookup_insert_ne by congruence. reflexivity.
Qed.

Lemma os_OpenFile_append_state path opened s s1 :
  os_OpenFile_append fault path s = (Ret opened, s1) →
  s1 = set_fs (OpenFile_append fault (fs s) path).1 s.
Proof. unfold os_OpenFile_append. intros [= _ <-]. reflexivity. Qed.

Lemma append_file_frame (f : gmap string node) path t k :
  k ≠ key path → append_file f path t !! k = f !! k.
Proof.
  intros H. unfold append_file.
  destruct (f !! key path) as [[|old]|]; try reflexivity.
  rewrite lookup_insert_ne by congruence. reflexivity.
Qed.

(** A shell whose commands change no file. *)
Lemma set_fs_same (s : state) : set_fs (fs s) s = s.
Proof. destruct s. reflexivity. Qed.

Lemma listPackageFiles_state debfile files s s' :
  (∀ f cmd, (sh f cmd).1 = f) →
  listPackageFiles sh debfile s = (Ret files, s') → s' = s.
Proof.
  intros Hsh. unfold listPackageFiles, bind, runShellCommand, Fprintf_stderr,
    os_Exit, ret.
  rewrite Hsh, set_fs_same.
  destruct (sh (fs s) _).2; cbn [fst snd]; congruence.
Qed.

(** X7: what a successful [addDeb] leaves, in copy mode, when the shell
    commands change no file.  For a package that is a regular file,
    whose control text gives the architecture [debArch], when [addDeb]
    returns, that architecture is a supported one and is now among the
    encountered ones, and the file [binary-<debArch>/<base name>] under
    the directory of the component holds exactly the bytes of the
    package (that file being another one than the package itself and
    than the content index). *)
Theorem addDeb_copy_materializes_the_package
    (debToAddPath component control debArch data : string) (s s' : state) :
  let dest :=
    Filepath.Join [Filepath.Join [distributionPath cfg; component;
                                  "binary-" +:+ debArch];
                   Filepath.Base debToAddPath] in
  (∀ f cmd, (sh f cmd).1 = f) →
  controlFileContents sh debToAddPath s = (Ret control, s) →
  FindStringSubmatch "Architecture: " control !! 1 = Some debArch →
  addDeb fault sh cfg debToAddPath component false s = (Ret tt, s') →
  lookup_path (fs s) debToAddPath = Some (NFile data) →
  key debToAddPath ≠ key dest →
  key (Filepath.Join [distributionPath cfg; component;
                      "Contents-" +:+ debArch]) ≠ key dest →
  debArch ∈ supportedArches ∧
  debArch ∈ encounteredArches s' ∧
  fs s' !! key dest = Some (NFile data).
Proof.
  intros dest Hsh Hc Hfield Hrun Hsrc Hself Hne.
  apply lookup_path_file in Hsrc as [Htop Hsrc].
  unfold addDeb in Hrun.
  rewrite (bind_Ret _ _ _ _ _ Hc) in Hrun.
  apply bind_Ret_inv in Hrun as (pkg & s1 & Hp & Hrun).
  apply index_Ret_inv in Hp as [_ ->].
  apply bind_Ret_inv in Hrun as (arch & s1 & Ha & Hrun).
  apply index_Ret_inv in Ha as [Ha ->].
  assert (arch = debArch) as -> by congruence.
  destruct (contains supportedArches debArch) eqn:Hsup; cbn [negb] in Hrun.
  2:{ apply bind_Ret_inv in Hrun as (? & ? & H & _). discriminate H. }
  apply bind_Ret_inv in Hrun as ([] & s1 & [= <-] & Hrun).
  apply bind_Ret_inv in Hrun as (arches & s1 & [= <- <-] & Hrun).
  apply bind_Ret_inv in Hrun as ([] & s1 & [= <-] & Hrun).
  cbv zeta in Hrun.
  apply bind_Ret_inv in Hrun as (st1 & s2 & [= <- <-] & Hrun).
  apply bind_Ret_inv in Hrun as ([] & s2 & Hm1 & Hrun).
  match type of Hm1 with
  | (if isNotExist ?st then bind (os_MkdirAll _ ?path) _ else _) ?s0 = _ =>
      destruct (ensure_directory_outcome path st s0)
        as (t1 & Hm1' & Hsame1 & Hkeep1)
  end.
  rewrite Hm1' in Hm1. injection Hm1 as <-.
  apply bind_Ret_inv in Hrun as ([] & s3 & [= <-] & Hrun).
  apply bind_Ret_inv in Hrun as (st2 & s4 & [= <- <-] & Hrun).
  apply bind_Ret_inv in Hrun as ([] & s4 & Hm2 & Hrun).
  match type of Hm2 with
  | (if isNotExist ?st then bind (os_MkdirAll _ ?path) _ else _) ?s0 = _ =>
      destruct (ensure_directory_outcome path st s0)
        as (t2 & Hm2' & Hsame2 & Hkeep2)
  end.
  rewrite Hm2' in Hm2. injection Hm2 as <-.
  apply bind_Ret_inv in Hrun as ([] & s5 & Hcopy & Hrun).
  apply bind_Ret_inv in Hcopy as (err & s6 & Hcopy & Herr).
  destruct err.
  { apply bind_Ret_inv in Herr as (? & ? & _ & H). discriminate H. }
  injection Herr as <-.
  destruct (proj2 (copyFile_outcome fault _ _ _) _ Hcopy)
    as (data' & Hopen & Hdest & Hsame3 & _).
  fold dest in Hdest. rewrite decide_False in Hdest by exact Hself.
  apply bind_Ret_inv in Hrun as (opened & s7 & Hopened & Hrun).
  apply os_OpenFile_append_state in Hopened as ->.
  destruct opened; cbn [negb] in Hrun.
  2:{ apply bind_Ret_inv in Hrun as (? & ? & H & _). discriminate H. }
  apply bind_Ret_inv in Hrun as ([] & s8 & [= <-] & Hrun).
  apply bind_Ret_inv in Hrun as (files & s8 & Hlist & Hrun).
  apply (listPackageFiles_state _ _ _ _ Hsh) in Hlist as ->.
  assert (Hdata : data' = data).
  { unfold Open in Hopen. destruct (fault SysOpen debToAddPath); [discriminate |].
    apply lookup_path_file in Hopen as [_ Hopen].
    cbn [fs add_stdout] in Hopen.
    rewrite (Hkeep2 _ _ (Hkeep1 _ _ Hsrc)) in Hopen. congruence. }
  subst data'.
  assert (Harch : debArch ∈ encounteredArches s').
  { change s' with (Ret tt, s').2. rewrite <- Hrun.
    apply (keeps_forRange (fun t => debArch ∈ encounteredArches t)).
    - intros f t Ht. exact Ht.
    - cbn [encounteredArches set_fs].
      destruct Hsame3 as (_ & _ & _ & ->).
      destruct Hsame2 as (_ & _ & _ & ->). cbn [encounteredArches add_stdout].
      destruct Hsame1 as (_ & _ & _ & ->).
      cbn [encounteredArches set_encounteredArches].
      apply elem_of_union_l, elem_of_singleton. reflexivity. }
  split; [apply contains_spec, Hsup |]. split; [exact Harch |].
  change s' with (Ret tt, s').2. rewrite <- Hrun.
  apply (keeps_forRange (fun t => fs t !! key dest = Some (NFile data))).
  - intros f t Ht. cbn [Fprint_file snd fs set_fs].
    rewrite append_file_frame; [exact Ht |].
    intros E. apply Hne. symmetry. exact E.
  - cbn [fs set_fs].
    rewrite OpenFile_append_frame; [exact Hdest |].
    intros E. apply Hne. symmetry. exact E.
Qed.

Lemma copyFile_of_failed_Open src dst s :
  fault SysOpen src = true → copyFile fault src dst s = (Ret true, s).
Proof.
  intros H. unfold copyFile, bind, os_Open, ret, Open. rewrite H. reflexivity.
Qed.

Ltac returns_now :=
  first [ solve [intros ?; eexists; reflexivity]
        | match goal with
          | |- returns (if ?b then _ else _) =>
              destruct b; intros ?; eexists; reflexivity
          end ].

(** X8: in copy mode a package that cannot be opened is fatal.  For a
    package with a supported architecture, when the environment makes
    [os.Open] fail on it, [addDeb] ends the run with status 1 and its
    last message is the copy error that names the path (the hard-link
    branch has no such test). *)
Theorem addDeb_copy_failure_is_fatal
    (debToAddPath component control pkg arch : string) (s : state) :
  controlFileContents sh debToAddPath s = (Ret control, s) →
  FindStringSubmatch "Package: " control !! 1 = Some pkg →
  FindStringSubmatch "Architecture: " control !! 1 = Some arch →
  contains supportedArches arch = true →
  fault SysOpen debToAddPath = true →
  ∃ s1,
    addDeb fault sh cfg debToAddPath component false s =
    (Exit 1, add_stderr ("Error copying file '" +:+ debToAddPath +:+ "'" +:+ LF)
               s1).
Proof.
  intros Hc Hp Ha Hsup Hfault. unfold addDeb.
  rewrite (bind_Ret _ _ _ _ _ Hc).
  rewrite (bind_Ret _ _ s s pkg) by (unfold index; rewrite Hp; reflexivity).
  rewrite (bind_Ret _ _ s s arch) by (unfold index; rewrite Ha; reflexivity).
  rewrite Hsup. cbn [negb].
  repeat match goal with
         | |- ∃ s1, bind ?m ?k ?st = _ =>
             let H := fresh in
             destruct (bind_returns m k st ltac:(returns_now))
               as (? & ? & _ & H);
             rewrite H; clear H; cbv zeta
         end.
  match goal with
  | |- ∃ s1, bind (bind (copyFile _ ?src ?dst) ?k1) ?k2 ?st = _ =>
      exists st;
      apply bind_Exit;
      rewrite (bind_Ret _ _ _ _ _ (copyFile_of_failed_Open src dst st Hfault))
  end.
  reflexivity.
Qed.

End Placement.

(** ** The package index of a directory *)

Section Index.
Variable fault : syscall → string → bool.
Variable sh : gmap string node → string → gmap string node * option string.
Variables md5_Sum sha1_Sum sha256_Sum sha512_Sum : string → string.
Variable xz_header : string.
Variable xz_body : string → string.
Variable cfg : flags.

(** X15: when [writePackages] returns for a [binary-<arch>] directory,
    the file [Packages.xz] of the directory holds the encoding of some
    bytes, and these bytes are exactly the content of the file [Packages]
    left next to it: the two indexes on disk agree. *)
Theorem writePackages_leaves_the_index_and_its_encoding
    (component archDirPath : string) (s s' : state) :
  writePackages fault sh md5_Sum sha1_Sum sha256_Sum sha512_Sum xz_header
    xz_body cfg component archDirPath s = (Ret tt, s') →
  ∃ data,
    fs s' !! key (Filepath.Join [archDirPath; "Packages"] +:+ ".xz") =
      Some (NFile (xz_header +:+ xz_body data)) ∧
    (key (Filepath.Join [archDirPath; "Packages"] +:+ ".xz") ≠
     key (Filepath.Join [archDirPath; "Packages"]) →
     fs s' !! key (Filepath.Join [archDirPath; "Packages"]) =
       Some (NFile data)).
Proof.
  intros Hrun. unfold writePackages in Hrun.
  apply bind_Ret_inv in Hrun as (arch & s1 & _ & Hrun).
  apply bind_Ret_inv in Hrun as ([] & s2 & _ & Hrun).
  cbv zeta in Hrun.
  apply bind_Ret_inv in Hrun as (created & s3 & _ & Hrun).
  apply bind_Ret_inv in Hrun as ([] & s4 & _ & Hrun).
  apply bind_Ret_inv in Hrun as (debs & s5 & _ & Hrun).
  apply bind_Ret_inv in Hrun as ([] & s6 & _ & Hrun).
  apply compressXz_outcome in Hrun
    as [(_ & data & Hopen & Hxz & Hrest) | [H _]]; [| discriminate H].
  eexists. split; [exact Hxz |].
  intros Hne.
  rewrite decide_False by (intros E; apply Hne; symmetry; exact E).
  rewrite Hrest by (intros E; apply Hne; symmetry; exact E).
  unfold Open in Hopen. destruct (fault SysOpen _); [discriminate |].
  apply lookup_path_file in Hopen as [_ Hopen]. exact Hopen.
Qed.

End Index.

(** ** Concrete instances of the further properties *)

Lemma copyFile_copies_the_bytes_witness :
  let s := start input_fs in
  let s' := (copyFile no_fault "debs/foo_1.0_all.deb" "out/copy.deb" s).2 in
  ∃ data, Open no_fault (fs s) "debs/foo_1.0_all.deb" = Some (NFile data) ∧
          (key "debs/foo_1.0_all.deb" ≠ key "out/copy.deb" →
           fs s' !! key "out/copy.deb" = Some (NFile data)) ∧
          (key "debs/foo_1.0_all.deb" = key "out/copy.deb" →
           fs s' !! key "out/copy.deb" = Some (NFile "")) ∧
          ∀ k, k ≠ key "out/copy.deb" → fs s' !! k = fs s !! k.
Proof.
  apply (proj2 (copyFile_copies_the_bytes no_fault "debs/foo_1.0_all.deb"
                  "out/copy.deb" (start input_fs))).
  vm_compute. reflexivity.
Defined.

(** A package copied onto itself: [copyFile] reports no error and the
    file is left empty. *)
Example copyFile_onto_itself :
  let r := copyFile no_fault "debs/foo_1.0_all.deb" "debs/./foo_1.0_all.deb"
             (start input_fs) in
  r.1 = Ret false ∧ fs r.2 !! "debs/foo_1.0_all.deb" = Some (NFile "").
Proof. vm_compute. repeat split. Qed.

Lemma compressXz_writes_the_encoding_witness :
  let s := start input_fs in
  let r := compressXz no_fault xz_header xz_body "debs/foo_1.0_all.deb"
             "out/foo.xz" s in
  key "debs/foo_1.0_all.deb" ≠ key "out/foo.xz" ∧
  ((r.1 = Ret tt ∧
    ∃ data, Open no_fault (fs s) "debs/foo_1.0_all.deb" = Some (NFile data) ∧
            fs r.2 !! key "out/foo.xz" =
              Some (NFile (xz_header +:+ xz_body data)) ∧
            ∀ k, k ≠ key "out/foo.xz" → fs r.2 !! k = fs s !! k) ∨
   (r.1 = Exit 1 ∧
    ∃ msg, stderr r.2 = stderr s ++ [msg] ∧
           (Open no_fault (fs s) "debs/foo_1.0_all.deb" = Some NDir →
            (Create no_fault (fs s) "out/foo.xz").2 = true →
            msg = "Error compressing file to xz: read " +:+
                  "debs/foo_1.0_all.deb" +:+ ": is a directory" +:+ LF ∧
            fs r.2 !! key "out/foo.xz" = Some (NFile xz_header)))).
Proof.
  split; [vm_compute; discriminate |].
  apply (compressXz_writes_the_encoding no_fault xz_header xz_body
           "debs/foo_1.0_all.deb" "out/foo.xz").
  - vm_compute. discriminate.
  - apply surjective_pairing.
Defined.

(** A directory given to [compressXz]: the run ends with the error of the
    read, and the head of the stream stays in the output. *)
Example compressXz_of_a_directory :
  let r := compressXz no_fault xz_header xz_body "debs/bar" "out/bar.xz"
             (start input_fs) in
  r.1 = Exit 1 ∧
  stderr r.2 = ["Error compressing file to xz: read debs/bar: is a directory"
                +:+ LF] ∧
  fs r.2 !! "out/bar.xz" = Some (NFile xz_header).
Proof. vm_compute. repeat split. Qed.

Lemma addDeb_panics_exactly_on_a_missing_field_witness :
  let s := start (rebuilt_fs "nameless-bytes") in
  (addDeb no_fault sh cfg_slash "debs/new_0.1_all.deb" "extras" false s).1 = Panic ↔
  Contains control_nameless "Package: " = false ∨
  Contains control_nameless "Architecture: " = false.
Proof.
  apply (addDeb_panics_exactly_on_a_missing_field no_fault sh cfg_slash
           "debs/new_0.1_all.deb" "extras" control_nameless false).
  vm_compute. reflexivity.
Defined.

Lemma packagesEntry_records_size_and_digests_witness :
  packagesEntry no_fault sh md5 sha1 sha256 sha512 cfg_slash "extras"
    "binary-all" "debs/foo_1.0_all.deb" (start input_fs) =
  (Ret (control_foo +:+ LF +:+ "Filename: " +:+
        Filepath.Join ["dists"; distribution cfg_slash; "extras"; "binary-all";
                       Filepath.Base "debs/foo_1.0_all.deb"] +:+
        LF +:+ "Size: " +:+ Sprint_size (N.of_nat (String.length "foo-bytes")) +:+
        LF +:+ "MD5Sum: " +:+ Sprintf_x (md5 "foo-bytes") +:+
        LF +:+ "SHA1: " +:+ Sprintf_x (sha1 "foo-bytes") +:+
        LF +:+ "SHA256: " +:+ Sprintf_x (sha256 "foo-bytes") +:+
        LF +:+ "SHA512: " +:+ Sprintf_x (sha512 "foo-bytes")), start input_fs).
Proof.
  apply (packagesEntry_records_size_and_digests_of_the_file no_fault sh
           md5 sha1 sha256 sha512 cfg_slash "extras" "binary-all"
           "debs/foo_1.0_all.deb" control_foo "foo-bytes" (start input_fs));
    vm_compute; reflexivity.
Defined.

Lemma encounteredArches_holds_only_supported_witness :
  Forall (fun a => a ∈ supportedArches)
    (elements
       (encounteredArches
          (forRange ["debs/foo_1.0_all.deb"; "debs/bar/baz_2.0_arm.deb"]
             (placeDeb no_fault sh cfg_slash) (start input_fs)).2)).
Proof.
  apply Forall_forall. intros a Ha. apply elem_of_elements in Ha.
  apply (encounteredArches_holds_only_supported_architectures no_fault sh
           cfg_slash
           ["debs/foo_1.0_all.deb"; "debs/bar/baz_2.0_arm.deb"]
           (start input_fs)); [| exact Ha].
  intros b Hb. cbn [encounteredArches start] in Hb.
  apply not_elem_of_empty in Hb. destruct Hb.
Defined.

Lemma COMPONENTS_holds_each_component_once_witness :
  let debs := ["debs/foo_1.0_all.deb"; "debs/bar/baz_2.0_arm.deb"] in
  let s := (forRange debs (placeDeb no_fault sh cfg_slash) (start input_fs)).2 in
  NoDup (COMPONENTS s) ∧
  ∀ c, c ∈ COMPONENTS s ↔ c ∈ map (componentOf cfg_slash) debs.
Proof.
  apply (COMPONENTS_holds_each_component_once no_fault sh cfg_slash
           ["debs/foo_1.0_all.deb"; "debs/bar/baz_2.0_arm.deb"]
           (start input_fs)).
  - reflexivity.
  - vm_compute. reflexivity.
Defined.

Lemma releaseRow_appends_digest_size_and_path_witness :
  ∃ s',
    releaseRow no_fault md5 sha1 sha256 sha512 "out/Release" "md5"
      "out/Packages" "extras/binary-all/Packages" release_and_index
    = (Ret tt, s') ∧
    fs s' !! key "out/Release" =
      Some (NFile ("MD5Sum:" +:+ " " +:+ md5 "Package: foo" +:+ " " +:+
                   Sprint_size (N.of_nat (String.length "Package: foo")) +:+
                   " " +:+ "extras/binary-all/Packages" +:+ LF)) ∧
    ∀ k, k ≠ key "out/Release" → fs s' !! k = fs release_and_index !! k.
Proof.
  apply (releaseRow_appends_digest_size_and_path no_fault md5 sha1 sha256
           sha512 "out/Release" "md5" "out/Packages"
           "extras/binary-all/Packages" "Package: foo" "MD5Sum:" md5
           release_and_index); vm_compute; reflexivity.
Defined.

Lemma componentOf_with_trailing_separator_witness :
  Filepath.Join ["debs"; "foo_1.0_all.deb"] = "debs" +:+ "/" +:+ "foo_1.0_all.deb" ∧
  componentOf (Flags ("debs" +:+ "/") "out" "termux" "extras" false false)
    (Filepath.Join ["debs"; "foo_1.0_all.deb"]) = "extras" ∧
  Filepath.Join [Filepath.Join ["debs"; "bar"]; "foo_1.0_all.deb"] =
    "debs" +:+ "/" +:+ "bar" +:+ "/" +:+ "foo_1.0_all.deb" ∧
  componentOf (Flags ("debs" +:+ "/") "out" "termux" "extras" false false)
    (Filepath.Join [Filepath.Join ["debs"; "bar"]; "foo_1.0_all.deb"]) = "bar".
Proof.
  apply (componentOf_with_trailing_separator "debs" "bar" "foo_1.0_all.deb"
           "out" "termux" "extras" false false);
    first [reflexivity | discriminate].
Defined.

(** For the input path [debs/] the patterns of the two globs are cut
    into the directory [debs] and the rest, and the paths returned are
    made of that directory and the names found. *)
Example glob_of_the_input_directory :
  Filepath.Join [inputPath cfg_slash; "*.deb"] = "debs/*.deb" ∧
  Filepath.cleanGlobPath (Filepath.split_path "debs/*.deb").1 = "debs" ∧
  Glob no_fault input_fs "debs/*.deb" =
    ([Filepath.Join ["debs"; "foo_1.0_all.deb"]], false) ∧
  Glob no_fault input_fs (Filepath.Join [inputPath cfg_slash; "*/*.deb"]) =
    ([Filepath.Join [Filepath.Join ["debs"; "bar"]; "baz_2.0_arm.deb"]], false).
Proof. vm_compute. repeat split. Qed.

(** The input path [./debs/] is not in cleaned form: the glob gives the
    package of the input root as [debs/foo_1.0_all.deb], of which the
    input path is no prefix, and the component of the package is
    [debs]. *)
Example component_of_an_uncleaned_input_path :
  let cfg := Flags "./debs/" "out" "termux" "extras" false false in
  Glob no_fault input_fs (Filepath.Join [inputPath cfg; "*.deb"]) =
    (["debs/foo_1.0_all.deb"], false) ∧
  componentOf cfg "debs/foo_1.0_all.deb" = "debs".
Proof. vm_compute. repeat split. Qed.

Lemma main_stops_on_usage_errors_witness :
  main no_fault sh md5 sha1 sha256 sha512 xz_header xz_body gpg_fails now usage
    cfg_no_input (start input_fs) = (Exit 1, add_stderr usage (start input_fs)) ∧
  main no_fault sh md5 sha1 sha256 sha512 xz_header xz_body gpg_fails now usage
    cfg_missing (start input_fs) =
    (Exit 1, add_stderr ("'" +:+ inputPath cfg_missing +:+ "' does not exist" +:+ LF)
               (start input_fs)) ∧
  main no_fault sh md5 sha1 sha256 sha512 xz_header xz_body gpg_fails now usage
    cfg_bracket (start bracket_fs) =
    (Exit 1, add_stderr ("Error globbing .deb files in '" +:+
                         inputPath cfg_bracket +:+ "'" +:+ LF)
               (start bracket_fs)) ∧
  main no_fault sh md5 sha1 sha256 sha512 xz_header xz_body gpg_fails now usage
    cfg_slash (start empty_input_fs) =
    (Exit 1, add_stderr ("No .deb file found in '" +:+ inputPath cfg_slash +:+
                         "'" +:+ LF) (start empty_input_fs)).
Proof.
  split; [| split; [| split]].
  - apply (proj1 (main_stops_on_usage_errors_before_any_change no_fault sh
                    md5 sha1 sha256 sha512 xz_header xz_body gpg_fails now
                    usage cfg_no_input (start input_fs))).
    reflexivity.
  - apply (proj1 (proj2 (main_stops_on_usage_errors_before_any_change no_fault
                           sh md5 sha1 sha256 sha512 xz_header xz_body
                           gpg_fails now usage cfg_missing (start input_fs))
                    eq_refl)).
    vm_compute. reflexivity.
  - apply (proj1 (proj2 (proj2 (main_stops_on_usage_errors_before_any_change
                                  no_fault sh md5 sha1 sha256 sha512 xz_header
                                  xz_body gpg_fails now usage cfg_bracket
                                  (start bracket_fs)) eq_refl))).
    + vm_compute. discriminate.
    + vm_compute. reflexivity.
  - apply (proj2 (proj2 (proj2 (main_stops_on_usage_errors_before_any_change
                                  no_fault sh md5 sha1 sha256 sha512 xz_header
                                  xz_body gpg_fails now usage cfg_slash
                                  (start empty_input_fs)) eq_refl))).
    + vm_compute. discriminate.
    + vm_compute. reflexivity.
    + vm_compute. reflexivity.
Defined.

Lemma addDeb_copy_materializes_the_package_witness :
  let s := start input_fs in
  let s' := (addDeb no_fault sh cfg_slash "debs/foo_1.0_all.deb" "extras"
               false s).2 in
  "all" ∈ supportedArches ∧
  "all" ∈ encounteredArches s' ∧
  fs s' !! key (Filepath.Join [Filepath.Join [distributionPath cfg_slash;
                                              "extras"; "binary-" +:+ "all"];
                               Filepath.Base "debs/foo_1.0_all.deb"])
  = Some (NFile "foo-bytes").
Proof.
  apply (addDeb_copy_materializes_the_package no_fault sh cfg_slash
           "debs/foo_1.0_all.deb" "extras" control_foo "all" "foo-bytes"
           (start input_fs)).
  - intros f cmd. reflexivity.
  - vm_compute. reflexivity.
  - vm_compute. reflexivity.
  - vm_compute. reflexivity.
  - vm_compute. reflexivity.
  - vm_compute. discriminate.
  - vm_compute. discriminate.
Defined.

Lemma addDeb_copy_failure_is_fatal_witness :
  ∃ s1,
    addDeb unopenable_package sh cfg_slash "debs/foo_1.0_all.deb" "extras"
      false (start input_fs) =
    (Exit 1, add_stderr ("Error copying file '" +:+ "debs/foo_1.0_all.deb" +:+
                         "'" +:+ LF) s1).
Proof.
  apply (addDeb_copy_failure_is_fatal unopenable_package sh cfg_slash
           "debs/foo_1.0_all.deb" "extras" control_foo "foo" "all"
           (start input_fs)); vm_compute; reflexivity.
Defined.

Lemma writePackages_leaves_the_index_and_its_encoding_witness :
  let s := (forRange ["debs/foo_1.0_all.deb"] (placeDeb no_fault sh cfg_slash)
              (start input_fs)).2 in
  let dir := "out/dists/termux/extras/binary-all" in
  let s' := (writePackages no_fault sh md5 sha1 sha256 sha512 xz_header
               xz_body cfg_slash "extras" dir s).2 in
  ∃ data,
    fs s' !! key (Filepath.Join [dir; "Packages"] +:+ ".xz") =
      Some (NFile (xz_header +:+ xz_body data)) ∧
    (key (Filepath.Join [dir; "Packages"] +:+ ".xz") ≠
     key (Filepath.Join [dir; "Packages"]) →
     fs s' !! key (Filepath.Join [dir; "Packages"]) = Some (NFile data)).
Proof.
  apply (writePackages_leaves_the_index_and_its_encoding no_fault sh
           md5 sha1 sha256 sha512 xz_header xz_body cfg_slash "extras"
           "out/dists/termux/extras/binary-all"
           (forRange ["debs/foo_1.0_all.deb"] (placeDeb no_fault sh cfg_slash)
              (start input_fs)).2).
  vm_compute. reflexivity.
Defined.

Lemma registerComponent_removes_the_directory_witness :
  let s := start (rebuilt_fs "foo-bytes") in
  let s1 := (registerComponent no_fault cfg_slash "extras" s).2 in
  fs s !! "out/dists/termux/extras/binary-all/old_0.9_all.deb" =
    Some (NFile "foo-bytes") ∧
  COMPONENTS s1 = ["extras"] ∧
  fs s1 !! "out/dists/termux/extras" = None ∧
  fs s1 !! "out/dists/termux/extras/binary-all/old_0.9_all.deb" = None ∧
  fs s1 !! "debs/new_0.1_all.deb" = fs s !! "debs/new_0.1_all.deb".
Proof.
  destruct (registerComponent_removes_the_directory_on_first_sight no_fault
              sh cfg_slash [] "debs/new_0.1_all.deb" NDir
              (start (rebuilt_fs "foo-bytes")) (start (rebuilt_fs "foo-bytes"))
              eq_refl eq_refl) as [Hnew _].
  destruct (Hnew ltac:(intros H; inversion H)) as [Hc Hrm].
  destruct (Hrm ltac:(vm_compute; reflexivity) eq_refl
              ltac:(vm_compute; reflexivity)) as [Hgone Hkept].
  split; [vm_compute; reflexivity |].
  split; [exact Hc |].
  split; [apply Hgone; vm_compute; reflexivity |].
  split; [apply Hgone; vm_compute; reflexivity |].
  apply Hkept. vm_compute. reflexivity.
Defined.
